(** * Smart AI Assistant: a shallow embedding of the conversational core

    The development follows the TypeScript sources, module by module:
    - [core/ApiKeyManager.ts]     (module [ApiKeyManager], with the parts of
      node's [crypto] it drives in [Hex] and [Aes256Cbc]);
    - [core/PluginManager.ts]     (module [PluginManager]);
    - [core/AIProviderManager.ts] (module [AIProviderManager]);
    - [core/AIAssistant.ts]       (module [AIAssistant]);
    - [types/index.ts], [types/ai.ts] (one module per interface, so that fields
      keep their names).

    Conventions.  A JS string is represented by its UTF-8 byte sequence (a Rocq
    [string]), so that encoding to and decoding from UTF-8 are the identity; a
    [Buffer] is a [list ascii].  A promise is represented by the outcome it
    settles to; [await] points are made explicit only in the
    interleaving model of [AIAssistant].  Calls to the logger are left out: the
    logging sink never influences control flow or data.  Everything that comes
    from outside the program (random bytes, the clock, the file system, the AES
    block function, the chat backend, JSON) is an explicit argument or a method
    of a type class. *)

From Stdlib Require Import ZArith NArith QArith_base Ascii String List Bool Lia.
From stdpp Require Import base tactics option list strings pretty.

Close Scope Q_scope.

(** ** Outcomes of calls that may throw *)

(** What a JS [throw] carries: an [Error] object (with its message) or any
    other value (kept as [String(value)]). *)
Inductive JsThrown : Type :=
| ErrorObject (message : string)
| ThrownValue (shown : string).

(** [error instanceof Error ? error.message : String(error)] *)
Definition error_message (t : JsThrown) : string :=
  match t with
  | ErrorObject m => m
  | ThrownValue s => s
  end.

Inductive Outcome (A : Type) : Type :=
| Return (a : A)
| Throw (e : JsThrown).
Arguments Return {A} a.
Arguments Throw {A} e.

(** Sequencing: a throw skips the rest.  With stdpp's monad notation,
    [x ← o; k] reads as [const x = o(); k]. *)
#[export] Instance outcome_ret : MRet Outcome := fun A a => Return a.
#[export] Instance outcome_bind : MBind Outcome := fun A B k o =>
  match o with
  | Return a => k a
  | Throw e => Throw e
  end.

(** ** JS [Map]: an insertion-ordered dictionary with string keys *)
Module JsMap.

Definition t (V : Type) : Type := list (string * V).

Definition empty {V} : t V := [].

Fixpoint get {V} (k : string) (m : t V) : option V :=
  match m with
  | [] => None
  | (k', v) :: rest => if String.eqb k' k then Some v else get k rest
  end.

Definition has {V} (k : string) (m : t V) : bool :=
  match get k m with Some _ => true | None => false end.

(** [Map.prototype.set]: an existing key keeps its position, a new key goes
    last. *)
Fixpoint set {V} (k : string) (v : V) (m : t V) : t V :=
  match m with
  | [] => [(k, v)]
  | (k', v') :: rest =>
      if String.eqb k' k then (k', v) :: rest else (k', v') :: set k v rest
  end.

Fixpoint delete {V} (k : string) (m : t V) : t V :=
  match m with
  | [] => []
  | (k', v') :: rest =>
      if String.eqb k' k then delete k rest else (k', v') :: delete k rest
  end.

(** [Array.from(m.values())] *)
Definition values {V} (m : t V) : list V := map snd m.

(** [Array.from(m.keys())] *)
Definition keys {V} (m : t V) : list string := map fst m.

(** [m.size] *)
Definition size {V} (m : t V) : nat := length m.

End JsMap.

(** ** Hexadecimal encoding of buffers *)
Module Hex.

Definition hex_digit (n : N) : ascii :=
  match n with
  | 0 => "0" | 1 => "1" | 2 => "2" | 3 => "3" | 4 => "4" | 5 => "5"
  | 6 => "6" | 7 => "7" | 8 => "8" | 9 => "9" | 10 => "a" | 11 => "b"
  | 12 => "c" | 13 => "d" | 14 => "e" | _ => "f"
  end%N%char.

Definition hex_value (c : ascii) : option N :=
  let n := N_of_ascii c in
  (if (48 <=? n) && (n <=? 57) then Some (n - 48)
   else if (97 <=? n) && (n <=? 102) then Some (n - 87)
   else if (65 <=? n) && (n <=? 70) then Some (n - 55)
   else None)%N.

(** [buf.toString('hex')] *)
Fixpoint to_hex (buf : list ascii) : string :=
  match buf with
  | [] => EmptyString
  | b :: rest =>
      let n := N_of_ascii b in
      String (hex_digit (n / 16)) (String (hex_digit (n mod 16)) (to_hex rest))
  end%N.

(** [Buffer.from(s, 'hex')]: pairs of hex digits are decoded until the first
    pair that is not one. *)
Fixpoint from_hex (s : string) : list ascii :=
  match s with
  | String c1 (String c2 rest) =>
      match hex_value c1, hex_value c2 with
      | Some h, Some l => ascii_of_N (16 * h + l) :: from_hex rest
      | _, _ => []
      end
  | _ => []
  end%N.

(** [s.split(sep)] for a one-character separator *)
Fixpoint split (sep : ascii) (s : string) : list string :=
  match s with
  | EmptyString => [EmptyString]
  | String c rest =>
      if Ascii.eqb c sep then EmptyString :: split sep rest
      else match split sep rest with
           | part :: parts => String c part :: parts
           | [] => [String c EmptyString]
           end
  end.

(** The characters of a string, as predicate: none of them is [c]. *)
Fixpoint free_of (c : ascii) (s : string) : bool :=
  match s with
  | EmptyString => true
  | String c' rest => negb (Ascii.eqb c' c) && free_of c rest
  end.

End Hex.

(** ** AES-256 in CBC mode with PKCS#7 padding, as node's [crypto] runs it *)

(** The AES block function is not part of the repository: it is an interface
    here, and the laws the round trip needs are a second one. *)
Class BlockCipher : Type := {
  encrypt_block : list ascii -> list ascii -> list ascii;
  decrypt_block : list ascii -> list ascii -> list ascii
}.

Class BlockCipherLaws (BC : BlockCipher) : Prop := {
  encrypt_block_length : forall key blk,
    length key = 32 -> length blk = 16 ->
    length (encrypt_block key blk) = 16;
  decrypt_encrypt_block : forall key blk,
    length key = 32 -> length blk = 16 ->
    decrypt_block key (encrypt_block key blk) = blk
}.

Module Aes256Cbc.

Definition block_size : nat := 16.
Definition key_size : nat := 32.

Definition xor_ascii (a b : ascii) : ascii :=
  match a, b with
  | Ascii a0 a1 a2 a3 a4 a5 a6 a7, Ascii b0 b1 b2 b3 b4 b5 b6 b7 =>
      Ascii (xorb a0 b0) (xorb a1 b1) (xorb a2 b2) (xorb a3 b3)
            (xorb a4 b4) (xorb a5 b5) (xorb a6 b6) (xorb a7 b7)
  end.

Definition xor_bytes (x y : list ascii) : list ascii := zip_with xor_ascii x y.

(** PKCS#7: a partial block of [r < 16] bytes is completed by [16 - r] bytes
    of value [16 - r]. *)
Definition pkcs7_pad (partial : list ascii) : list ascii :=
  let n := (block_size - length partial) in
  partial ++ replicate n (ascii_of_nat n).

Definition pkcs7_unpad (blk : list ascii) : Outcome (list ascii) :=
  match last blk with
  | None => Throw (ErrorObject "bad decrypt")
  | Some p =>
      let n := nat_of_ascii p in
      if ((1 <=? n) && (n <=? block_size))
         && forallb (Ascii.eqb p) (drop (length blk - n) blk)
      then Return (take (length blk - n) blk)
      else Throw (ErrorObject "bad decrypt")
  end.

(** A cipher or decipher object: key, chaining block, buffered input. *)
Record CipherState : Type := mkCipher {
  c_key : list ascii;
  c_chain : list ascii;
  c_buf : list ascii
}.

(** [crypto.createCipheriv('aes-256-cbc', key, iv)] and
    [crypto.createDecipheriv]: both check the sizes of key and iv. *)
Definition createCipheriv (key iv : list ascii) : Outcome CipherState :=
  if negb (length key =? key_size) then Throw (ErrorObject "Invalid key length")
  else if negb (length iv =? block_size)
       then Throw (ErrorObject "Invalid initialization vector")
       else Return (mkCipher key iv []).

Definition createDecipheriv (key iv : list ascii) : Outcome CipherState :=
  createCipheriv key iv.

Section WithBlockCipher.
Context {BC : BlockCipher}.

(** Encrypts the complete blocks at the head of [data]; returns the
    ciphertext, the new chaining block and the bytes left over. *)
Fixpoint encrypt_blocks (fuel : nat) (key chain data : list ascii)
  : list ascii * list ascii * list ascii :=
  match fuel with
  | O => ([], chain, data)
  | S fuel' =>
      if (block_size <=? length data) then
        let c := encrypt_block key (xor_bytes (take block_size data) chain) in
        let '(out, chain', rest) := encrypt_blocks fuel' key c (drop block_size data) in
        (c ++ out, chain', rest)
      else ([], chain, data)
  end.

(** [cipher.update(data)] *)
Definition cipher_update (c : CipherState) (data : list ascii)
  : list ascii * CipherState :=
  let input := c_buf c ++ data in
  let '(out, chain', rest) := encrypt_blocks (length input) (c_key c) (c_chain c) input in
  (out, mkCipher (c_key c) chain' rest).

(** [cipher.final()]: the padded last block. *)
Definition cipher_final (c : CipherState) : list ascii :=
  encrypt_block (c_key c) (xor_bytes (pkcs7_pad (c_buf c)) (c_chain c)).

(** Decrypts the blocks at the head of [data] as long as more than one block
    remains: the last complete block is held back for [final]. *)
Fixpoint decrypt_blocks (fuel : nat) (key chain data : list ascii)
  : list ascii * list ascii * list ascii :=
  match fuel with
  | O => ([], chain, data)
  | S fuel' =>
      if (block_size <? length data) then
        let c := take block_size data in
        let m := xor_bytes (decrypt_block key c) chain in
        let '(out, chain', rest) := decrypt_blocks fuel' key c (drop block_size data) in
        (m ++ out, chain', rest)
      else ([], chain, data)
  end.

(** [decipher.update(data)] *)
Definition decipher_update (c : CipherState) (data : list ascii)
  : list ascii * CipherState :=
  let input := c_buf c ++ data in
  let '(out, chain', rest) := decrypt_blocks (length input) (c_key c) (c_chain c) input in
  (out, mkCipher (c_key c) chain' rest).

(** [decipher.final()]: what is held back must be exactly one block, and its
    padding must check. *)
Definition decipher_final (c : CipherState) : Outcome (list ascii) :=
  if negb (length (c_buf c) =? block_size)
  then Throw (ErrorObject "wrong final block length")
  else pkcs7_unpad (xor_bytes (decrypt_block (c_key c) (c_buf c)) (c_chain c)).

End WithBlockCipher.
End Aes256Cbc.

(** ** [ApiKeyManager]: the encrypted store of provider credentials *)
Module ApiKeyManager.

(** [interface StoredApiKey]; dates are milliseconds since the epoch. *)
Record StoredApiKey : Type := mkStoredApiKey {
  id : string;
  name : string;
  provider : string;
  encryptedKey : string;
  createdAt : Z;
  lastUsed : option Z
}.

(** The manager's fields.  [encryptionKey] is the first 32 characters of a
    hex digest; as a cipher key it is read as 32 bytes. *)
Record Manager : Type := mkManager {
  keysFile : string;
  encryptionKey : string;
  keys : JsMap.t StoredApiKey
}.

(** The manager together with the JSON file it persists to, as [loadKeys]
    would read it ([None]: there is no file, or what is there does not
    parse). *)
Record World : Type := mkWorld {
  manager : Manager;
  disk : option (list StoredApiKey)
}.

Definition with_keys (f : JsMap.t StoredApiKey -> JsMap.t StoredApiKey)
  (w : World) : World :=
  mkWorld (mkManager (keysFile (manager w)) (encryptionKey (manager w))
                     (f (keys (manager w))))
          (disk w).

(** Where a write can fail.  [fs.mkdir] or the open of [fs.writeFile]
    fails: the file is as it was.  The write fails after the open, which
    truncates: what is there is a proper prefix of the new text, which is no
    JSON.  The close fails: the new text is there. *)
Inductive WriteStage : Type := BeforeOpen | DuringWrite | AfterWrite.

Record WriteFailure : Type := mkWriteFailure {
  thrown : JsThrown;
  stage : WriteStage
}.

(** The file a write that failed at [stage] leaves, from the file as it was
    and the records that were being written. *)
Definition file_after (stage : WriteStage) (previous : option (list StoredApiKey))
    (written : list StoredApiKey) : option (list StoredApiKey) :=
  match stage with
  | BeforeOpen => previous
  | DuringWrite => None
  | AfterWrite => Some written
  end.

(** What one call takes from its surroundings: two draws of
    [crypto.randomBytes(16)], the clock, and whether the file system rejects
    the write ([fs.mkdir] or [fs.writeFile]). *)
Record Ambient : Type := mkAmbient {
  random_id : list ascii;
  random_iv : list ascii;
  now : Z;
  write_error : option WriteFailure
}.

Section WithBlockCipher.
Context {BC : BlockCipher}.

(** [private encrypt(text)].  The second assignment to [encrypted] replaces
    the output of [update], as in the source. *)
Definition encrypt (key : string) (iv : list ascii) (text : string)
  : Outcome string :=
  cipher ← Aes256Cbc.createCipheriv (list_ascii_of_string key) iv;
  let '(updated, cipher) := Aes256Cbc.cipher_update cipher (list_ascii_of_string text) in
  let encrypted := Hex.to_hex updated in
  let encrypted := Hex.to_hex (Aes256Cbc.cipher_final cipher) in
  mret (Hex.to_hex iv +:+ ":" +:+ encrypted).

(** [private decrypt(encryptedText)] *)
Definition decrypt (key : string) (encryptedText : string) : Outcome string :=
  let parts := Hex.split ":" encryptedText in
  part0 ← match parts !! 0%nat with
          | Some p => Return p
          | None => Throw (ErrorObject "The first argument must be of type string")
          end;
  part1 ← match parts !! 1%nat with
          | Some p => Return p
          | None => Throw (ErrorObject "The first argument must be of type string")
          end;
  let iv := Hex.from_hex part0 in
  let encrypted := Hex.from_hex part1 in
  decipher ← Aes256Cbc.createDecipheriv (list_ascii_of_string key) iv;
  let '(decrypted, decipher) := Aes256Cbc.decipher_update decipher encrypted in
  final ← Aes256Cbc.decipher_final decipher;
  mret (string_of_list_ascii (decrypted ++ final)).

(** [private async saveKeys()]: on failure the error is logged and
    rethrown. *)
Definition saveKeys (amb : Ambient) (w : World) : Outcome unit * World :=
  let keys := JsMap.values (keys (manager w)) in
  match write_error amb with
  | Some failure =>
      (Throw (thrown failure),
       mkWorld (manager w) (file_after (stage failure) (disk w) keys))
  | None => (Return tt, mkWorld (manager w) (Some keys))
  end.

(** [private async loadKeys()]: a missing or unreadable file leaves the
    index as it is. *)
Definition loadKeys (w : World) : World :=
  match disk w with
  | None => w
  | Some stored =>
      with_keys (fun _ => fold_left (fun m k => JsMap.set (id k) k m) stored JsMap.empty) w
  end.

Definition initialize (w : World) : World := loadKeys w.

(** [public async addKey(name, provider, apiKey)] *)
Definition addKey (amb : Ambient) (name provider apiKey : string) (w : World)
  : Outcome StoredApiKey * World :=
  let id := Hex.to_hex (random_id amb) in
  match encrypt (encryptionKey (manager w)) (random_iv amb) apiKey with
  | Throw e => (Throw e, w)
  | Return encryptedKey =>
      let storedKey := mkStoredApiKey id name provider encryptedKey (now amb) None in
      let w := with_keys (JsMap.set id storedKey) w in
      match saveKeys amb w with
      | (Throw e, w) => (Throw e, w)
      | (Return _, w) => (Return storedKey, w)
      end
  end.

(** [public async getKey(id)] *)
Definition getKey (amb : Ambient) (id : string) (w : World)
  : Outcome (option string) * World :=
  match JsMap.get id (keys (manager w)) with
  | None => (Return None, w)
  | Some storedKey =>
      match decrypt (encryptionKey (manager w)) (encryptedKey storedKey) with
      | Throw e => (Throw e, w)
      | Return apiKey =>
          let storedKey :=
            mkStoredApiKey (ApiKeyManager.id storedKey) (name storedKey)
              (provider storedKey) (encryptedKey storedKey)
              (createdAt storedKey) (Some (now amb)) in
          let w := with_keys (JsMap.set id storedKey) w in
          match saveKeys amb w with
          | (Throw e, w) => (Throw e, w)
          | (Return _, w) => (Return (Some apiKey), w)
          end
      end
  end.

(** [public async updateKey(id, apiKey)] *)
Definition updateKey (amb : Ambient) (id apiKey : string) (w : World)
  : Outcome unit * World :=
  match JsMap.get id (keys (manager w)) with
  | None => (Throw (ErrorObject ("API key not found: " +:+ id)), w)
  | Some storedKey =>
      match encrypt (encryptionKey (manager w)) (random_iv amb) apiKey with
      | Throw e => (Throw e, w)
      | Return encryptedKey =>
          let storedKey :=
            mkStoredApiKey (ApiKeyManager.id storedKey) (name storedKey)
              (provider storedKey) encryptedKey
              (createdAt storedKey) (Some (now amb)) in
          let w := with_keys (JsMap.set id storedKey) w in
          saveKeys amb w
      end
  end.

(** [public async deleteKey(id)] *)
Definition deleteKey (amb : Ambient) (id : string) (w : World)
  : Outcome unit * World :=
  match JsMap.get id (keys (manager w)) with
  | None => (Throw (ErrorObject ("API key not found: " +:+ id)), w)
  | Some _ =>
      let w := with_keys (JsMap.delete id) w in
      saveKeys amb w
  end.

End WithBlockCipher.

(** [public getAllKeys()] *)
Definition getAllKeys (w : World) : list StoredApiKey :=
  JsMap.values (keys (manager w)).

(** [public getKeysByProvider(provider)] *)
Definition getKeysByProvider (p : string) (w : World) : list StoredApiKey :=
  filter (fun k => provider k = p) (JsMap.values (keys (manager w))).

(** [public async getDecryptedKeyByProvider(provider)]: the first key stored
    for the provider, decrypted.  Nothing is written, [lastUsed] stays. *)
Definition getDecryptedKeyByProvider {BC : BlockCipher} (p : string) (w : World)
  : Outcome (option string) :=
  match getKeysByProvider p w with
  | [] => Return None
  | first :: _ =>
      apiKey ← decrypt (encryptionKey (manager w)) (encryptedKey first);
      mret (Some apiKey)
  end.

(** Every record of the index sits under its own id, and no id occurs
    twice. *)
Definition keyed_by_id (m : JsMap.t StoredApiKey) : Prop :=
  NoDup (JsMap.keys m) /\ Forall (fun entry => entry.1 = id entry.2) m.


End ApiKeyManager.

(** ** Values of type [any] and the host *)

(** A JS value as far as JSON tells values apart, with [undefined]. *)
#[warnings="-register-all"]
Inductive JsVal : Type :=
| JsUndefined
| JsNull
| JsBool (b : bool)
| JsNum (n : Z)
| JsStr (s : string)
| JsArr (items : list JsVal)
| JsObj (fields : list (string * JsVal)).

(** [Record<string, any>] *)
Definition JsRecord : Type := list (string * JsVal).

(** [obj?.[key]] *)
Fixpoint js_prop (key : string) (obj : JsRecord) : JsVal :=
  match obj with
  | [] => JsUndefined
  | (k, v) :: rest => if String.eqb k key then v else js_prop key rest
  end.

Definition truthy (v : JsVal) : bool :=
  match v with
  | JsUndefined | JsNull => false
  | JsBool b => b
  | JsNum n => negb (n =? 0)%Z
  | JsStr s => negb (String.eqb s "")
  | JsArr _ | JsObj _ => true
  end.

(** [a || b] *)
Definition js_or (a b : JsVal) : JsVal := if truthy a then a else b.

(** What the program takes from its host, over a state [E] of everything
    outside the program (clock, random source, network, disks, processes). *)
Class Host (E : Type) : Type := {
  Date_now : E -> Z;
  Date_toISOString : Z -> string;
  Number_toString : Z -> string;
  (** [Math.random().toString(36).substr(2, 9)] *)
  Math_random_base36 : E -> string * E;
  JSON_parse : string -> Outcome JsVal;
  JSON_stringify : JsVal -> string
}.

(** ** [types/index.ts] *)

Module ToolResult.
Record t : Type := mk {
  success : bool;
  data : option JsVal;
  error : option string;
  metadata : option JsVal
}.
End ToolResult.

Module Tool.
Record t (E : Type) : Type := mk {
  name : string;
  description : string;
  parameters : JsVal;
  (** [execute: (params: any) => Promise<ToolResult>]: a tool acts on the
      host and on nothing of the program's own state. *)
  execute : JsVal -> E -> Outcome ToolResult.t * E
}.
Arguments mk {E}.
Arguments name {E}.
Arguments description {E}.
Arguments parameters {E}.
Arguments execute {E}.
End Tool.

Module Plugin.
Record t (E : Type) : Type := mk {
  name : string;
  version : string;
  description : string;
  author : option string;
  enabled : bool;
  tools : list (Tool.t E);
  initialize : option (E -> Outcome unit * E);
  cleanup : option (E -> Outcome unit * E)
}.
Arguments mk {E}.
Arguments name {E}.
Arguments version {E}.
Arguments description {E}.
Arguments author {E}.
Arguments enabled {E}.
Arguments tools {E}.
Arguments initialize {E}.
Arguments cleanup {E}.
End Plugin.

Module Role.
Inductive t : Type := system | user | assistant | tool.
End Role.

Module Message.
Record t : Type := mk {
  role : Role.t;
  content : string;
  timestamp : option Z;
  metadata : option JsRecord
}.
End Message.

Module ToolCall.
Record FunctionRef : Type := mkFunction {
  name : string;
  arguments : string
}.
Record t : Type := mk {
  id : string;
  type : string;
  function : FunctionRef
}.
End ToolCall.

Module ToolResponse.
Record t : Type := mk {
  toolCallId : string;
  content : string;
  error : option string
}.
End ToolResponse.

Module ConversationContext.
Record t (E : Type) : Type := mk {
  messages : list Message.t;
  tools : list (Tool.t E);
  metadata : JsRecord
}.
Arguments mk {E}.
Arguments messages {E}.
Arguments tools {E}.
Arguments metadata {E}.

(** [context.messages.push(m)] *)
Definition push {E} (m : Message.t) (c : t E) : t E :=
  mk (messages c ++ [m]) (tools c) (metadata c).
End ConversationContext.

(** ** Strings *)
Module JsString.

(** [s.endsWith(suffix)] *)
Definition endsWith (suffix s : string) : bool :=
  (String.length suffix <=? String.length s)
  && String.eqb
       (substring (String.length s - String.length suffix) (String.length suffix) s)
       suffix.

(** [s.includes(needle)] *)
Fixpoint includes (needle s : string) : bool :=
  String.prefix needle s
  || match s with
     | EmptyString => false
     | String _ rest => includes needle rest
     end.

(** [parts.join('')] *)
Definition join (parts : list string) : string :=
  fold_right String.append EmptyString parts.

End JsString.

(** ** [PluginManager]: the registry of tools and their dispatch *)
Module PluginManager.

Record t (E : Type) : Type := mk {
  plugins : JsMap.t (Plugin.t E);
  tools : JsMap.t (Tool.t E);
  pluginsDirectory : string
}.
Arguments mk {E}.
Arguments plugins {E}.
Arguments tools {E}.
Arguments pluginsDirectory {E}.

(** What [executeTool] resolves to: [{ ...result, executionTime }]. *)
Record Executed : Type := mkExecuted {
  result : ToolResult.t;
  executionTime : Z
}.

Section WithHost.
Context {E : Type} {host : Host E}.

(** [private constructor()] *)
Definition new : t E := mk JsMap.empty JsMap.empty "./src/plugins".

(** [for (const tool of plugin.tools) this.tools.set(tool.name, tool)] *)
Definition set_tools (ts : list (Tool.t E)) (m : JsMap.t (Tool.t E))
  : JsMap.t (Tool.t E) :=
  fold_left (fun m tool => JsMap.set (Tool.name tool) tool m) ts m.

(** [for (const tool of plugin.tools) this.tools.delete(tool.name)] *)
Definition delete_tools (ts : list (Tool.t E)) (m : JsMap.t (Tool.t E))
  : JsMap.t (Tool.t E) :=
  fold_left (fun m tool => JsMap.delete (Tool.name tool) m) ts m.

(** [public registerPlugin(plugin)] *)
Definition registerPlugin (plugin : Plugin.t E) (pm : t E) : t E :=
  mk (JsMap.set (Plugin.name plugin) plugin (plugins pm))
     (set_tools (Plugin.tools plugin) (tools pm))
     (pluginsDirectory pm).

(** [public unregisterPlugin(pluginName)].  The clean-up hook is started and
    not awaited; what it throws is caught and logged. *)
Definition unregisterPlugin (pluginName : string) (pm : t E) (e : E) : t E * E :=
  match JsMap.get pluginName (plugins pm) with
  | Some plugin =>
      let e := match Plugin.cleanup plugin with
               | Some cleanup => (cleanup e).2
               | None => e
               end in
      (mk (JsMap.delete pluginName (plugins pm))
          (delete_tools (Plugin.tools plugin) (tools pm))
          (pluginsDirectory pm), e)
  | None => (pm, e)
  end.

(** [private async loadPlugin(filePath)], from the value the dynamic import
    of the file produced ([module.default || module.plugin], absent or not).
    A throwing [initialize] is caught after plugin and tools are set. *)
Definition loadPlugin (imported : Outcome (option (Plugin.t E))) (pm : t E) (e : E)
  : t E * E :=
  match imported with
  | Throw _ => (pm, e)
  | Return None => (pm, e)
  | Return (Some plugin) =>
      if String.eqb (Plugin.name plugin) "" then (pm, e)
      else if negb (Plugin.enabled plugin) then (pm, e)
      else
        let pm := registerPlugin plugin pm in
        match Plugin.initialize plugin with
        | Some initialize => (pm, (initialize e).2)
        | None => (pm, e)
        end
  end.

Definition getPlugin (name : string) (pm : t E) : option (Plugin.t E) :=
  JsMap.get name (plugins pm).

Definition getAllPlugins (pm : t E) : list (Plugin.t E) :=
  JsMap.values (plugins pm).

Definition getTool (name : string) (pm : t E) : option (Tool.t E) :=
  JsMap.get name (tools pm).

Definition getAllTools (pm : t E) : list (Tool.t E) :=
  JsMap.values (tools pm).

Definition getToolsByPlugin (pluginName : string) (pm : t E) : list (Tool.t E) :=
  match JsMap.get pluginName (plugins pm) with
  | Some plugin => Plugin.tools plugin
  | None => []
  end.

(** [public async executeTool(toolName, params)].  The [catch] logs the
    error and throws it again. *)
Definition executeTool (toolName : string) (params : JsVal) (pm : t E) (e : E)
  : Outcome Executed * E :=
  match JsMap.get toolName (tools pm) with
  | None => (Throw (ErrorObject ("Tool not found: " +:+ toolName)), e)
  | Some tool =>
      let startTime := Date_now e in
      match Tool.execute tool params e with
      | (Return result, e) =>
          let executionTime := (Date_now e - startTime)%Z in
          (Return (mkExecuted result executionTime), e)
      | (Throw error, e) => (Throw error, e)
      end
  end.

(** The plugin directory as [loadPlugins] meets it: the names [fs.readdir]
    lists for a directory, and what the dynamic import of
    [path.join(directory, file)] gives ([module.default || module.plugin],
    absent or not). *)
Record PluginFiles : Type := mkPluginFiles {
  readdir : string -> Outcome (list string);
  import_plugin : string -> string -> Outcome (option (Plugin.t E))
}.

(** [file.endsWith('.js') || file.endsWith('.ts')] *)
Definition is_plugin_file (file : string) : bool :=
  JsString.endsWith ".js" file || JsString.endsWith ".ts" file.

(** One turn of the loop of [loadPlugins]. *)
Definition load_turn (files : PluginFiles) (state : t E * E) (file : string)
  : t E * E :=
  loadPlugin (import_plugin files (pluginsDirectory state.1) file) state.1 state.2.

(** [public async loadPlugins()]: a directory that cannot be listed is
    logged, and nothing is loaded. *)
Definition loadPlugins (files : PluginFiles) (pm : t E) (e : E) : t E * E :=
  match readdir files (pluginsDirectory pm) with
  | Throw _ => (pm, e)
  | Return listed =>
      let pluginFiles := List.filter is_plugin_file listed in
      fold_left (load_turn files) pluginFiles (pm, e)
  end.

(** [public async reloadPlugin(pluginName)] *)
Definition reloadPlugin (files : PluginFiles) (pluginName : string) (pm : t E) (e : E)
  : Outcome unit * (t E * E) :=
  match JsMap.get pluginName (plugins pm) with
  | None => (Throw (ErrorObject ("Plugin not found: " +:+ pluginName)), (pm, e))
  | Some _ =>
      let unregistered := unregisterPlugin pluginName pm e in
      (Return tt, loadPlugins files unregistered.1 unregistered.2)
  end.

(** One turn of the loop of [reloadAllPlugins]. *)
Definition unregister_turn (state : t E * E) (name : string) : t E * E :=
  unregisterPlugin name state.1 state.2.

(** [public async reloadAllPlugins()] *)
Definition reloadAllPlugins (files : PluginFiles) (pm : t E) (e : E) : t E * E :=
  let pluginNames := JsMap.keys (plugins pm) in
  let unregistered := fold_left unregister_turn pluginNames (pm, e) in
  loadPlugins files unregistered.1 unregistered.2.

(** Every tool of the table sits under its own name. *)
Definition tools_by_name (pm : t E) : Prop :=
  Forall (fun entry => entry.1 = Tool.name entry.2) (tools pm).

End WithHost.
Arguments PluginFiles : clear implicits.
Arguments mkPluginFiles {E}.
Arguments readdir {E}.
Arguments import_plugin {E}.

End PluginManager.

(** ** [types/ai.ts] *)

Module AIMessage.
Record t : Type := mk {
  role : Role.t;
  content : string;
  toolCallId : option string
}.
End AIMessage.

Module AIModelConfig.
Record t : Type := mk {
  provider : string;
  model : string;
  apiKey : option string;
  baseUrl : option string;
  maxTokens : option Z;
  temperature : option Q
}.
End AIModelConfig.

Module AIResponse.
Record Usage : Type := mkUsage {
  promptTokens : Z;
  completionTokens : Z;
  totalTokens : Z
}.
Record t : Type := mk {
  content : string;
  toolCalls : option (list ToolCall.t);
  usage : option Usage
}.
End AIResponse.

Module AIStreamChunk.
Record t : Type := mk {
  content : string;
  done : bool
}.
End AIStreamChunk.

(** What consuming an [AsyncGenerator<AIStreamChunk>] to its end observes:
    the chunks yielded, in order, and how the generator finished.  (A
    generator that never finishes has no such value; the synthesized stream
    always finishes.) *)
Module Generated.
Record t : Type := mk {
  yielded : list AIStreamChunk.t;
  completion : Outcome unit
}.
End Generated.

Module AIProviderClient.
Record t (E : Type) : Type := mk {
  chat : list AIMessage.t -> option (list JsVal) -> E -> Outcome AIResponse.t * E;
  streamChat :
    option (list AIMessage.t -> option (list JsVal) -> E -> Generated.t * E)
}.
Arguments mk {E}.
Arguments chat {E}.
Arguments streamChat {E}.
End AIProviderClient.

Module AIProvider.
Record t (E : Type) : Type := mk {
  name : string;
  displayName : string;
  models : list string;
  createClient : AIModelConfig.t -> Outcome (AIProviderClient.t E)
}.
Arguments mk {E}.
Arguments name {E}.
Arguments displayName {E}.
Arguments models {E}.
Arguments createClient {E}.
End AIProvider.

(** ** [AIProviderManager]: one interface over the chat backends *)
Module AIProviderManager.

Record t (E : Type) : Type := mk {
  providers : JsMap.t (AIProvider.t E);
  currentProvider : option (AIProviderClient.t E);
  currentConfig : option AIModelConfig.t
}.
Arguments mk {E}.
Arguments providers {E}.
Arguments currentProvider {E}.
Arguments currentConfig {E}.

Section WithHost.
Context {E : Type}.

Definition new : t E := mk JsMap.empty None None.

Definition no_provider : JsThrown :=
  ErrorObject "No AI provider configured. Call setProvider() first.".

(** [public registerProvider(provider)] *)
Definition registerProvider (provider : AIProvider.t E) (m : t E) : t E :=
  mk (JsMap.set (AIProvider.name provider) provider (providers m))
     (currentProvider m) (currentConfig m).

(** [public unregisterProvider(providerName)] *)
Definition unregisterProvider (providerName : string) (m : t E) : t E :=
  mk (JsMap.delete providerName (providers m)) (currentProvider m) (currentConfig m).

Definition getProviders (m : t E) : list (AIProvider.t E) :=
  JsMap.values (providers m).

Definition getProvider (name : string) (m : t E) : option (AIProvider.t E) :=
  JsMap.get name (providers m).

(** [public async setProvider(config)]: [currentConfig] is assigned before the
    factory runs. *)
Definition setProvider (config : AIModelConfig.t) (m : t E) : Outcome unit * t E :=
  match JsMap.get (AIModelConfig.provider config) (providers m) with
  | None =>
      (Throw (ErrorObject ("AI provider not found: " +:+ AIModelConfig.provider config)), m)
  | Some provider =>
      let m := mk (providers m) (currentProvider m) (Some config) in
      match AIProvider.createClient provider config with
      | Throw e => (Throw e, m)
      | Return client => (Return tt, mk (providers m) (Some client) (currentConfig m))
      end
  end.

(** [public async chat(messages, tools?)] *)
Definition chat (messages : list AIMessage.t) (tools : option (list JsVal))
    (m : t E) (e : E) : Outcome AIResponse.t * E :=
  match currentProvider m with
  | None => (Throw no_provider, e)
  | Some client => AIProviderClient.chat client messages tools e
  end.

(** [public async *streamChat(messages, tools?)] *)
Definition streamChat (messages : list AIMessage.t) (tools : option (list JsVal))
    (m : t E) (e : E) : Generated.t * E :=
  match currentProvider m with
  | None => (Generated.mk [] (Throw no_provider), e)
  | Some client =>
      match AIProviderClient.streamChat client with
      | Some native => native messages tools e
      | None =>
          (* Fallback to non-streaming *)
          match AIProviderClient.chat client messages tools e with
          | (Return response, e) =>
              (Generated.mk
                 [AIStreamChunk.mk (AIResponse.content response) true]
                 (Return tt), e)
          | (Throw error, e) => (Generated.mk [] (Throw error), e)
          end
      end
  end.

Definition getCurrentConfig (m : t E) : option AIModelConfig.t := currentConfig m.

(** [this.currentConfig?.provider || null] *)
Definition getCurrentProviderName (m : t E) : option string :=
  match currentConfig m with
  | Some config =>
      if String.eqb (AIModelConfig.provider config) "" then None
      else Some (AIModelConfig.provider config)
  | None => None
  end.

End WithHost.
End AIProviderManager.

(** ** The chat-completions client of the [openai] package, as used *)
Module OpenAI.

Record ChatMessage : Type := mkChatMessage {
  role : Role.t;
  content : string;
  (** present on tool messages only *)
  tool_call_id : option JsVal
}.

Record FunctionTool : Type := mkFunctionTool {
  name : string;
  description : string;
  parameters : JsVal
}.

Record Request : Type := mkRequest {
  model : string;
  messages : list ChatMessage;
  tools : option (list FunctionTool);
  tool_choice : option string;
  max_tokens : Z;
  temperature : Q
}.

Record ResponseMessage : Type := mkResponseMessage {
  message_content : option string;
  tool_calls : option (list ToolCall.t)
}.

Record Response : Type := mkResponse {
  choices : list ResponseMessage
}.

(** [openai.chat.completions.create] of a client built from an API key. *)
Definition Client (E : Type) : Type := Request -> E -> Outcome Response * E.

End OpenAI.

(** [new OpenAI({ apiKey })] *)
Class OpenAIPackage (E : Type) : Type := {
  OpenAI_new : string -> OpenAI.Client E
}.

(** ** [AIAssistant]: conversations and the two-pass tool protocol *)
Module AIAssistant.

(** [AssistantConfig['openai']] *)
Record Config : Type := mkConfig {
  apiKey : string;
  model : string;
  maxTokens : Z;
  temperature : Q
}.

(** The assistant's fields.  A [ConversationContext] is an object shared by
    reference between the map and the calls working on it: the map holds
    references into [heap], where the objects live (allocated at the end,
    never freed). *)
Record t (E : Type) : Type := mk {
  openai : OpenAI.Client E;
  config : Config;
  conversations : JsMap.t nat;
  heap : list (ConversationContext.t E)
}.
Arguments mk {E}.
Arguments openai {E}.
Arguments config {E}.
Arguments conversations {E}.
Arguments heap {E}.

(** The state a call runs in: the assistant, the [pluginManager] singleton it
    imports, and the host. *)
Record System (E : Type) : Type := mkSystem {
  assistant : t E;
  pluginManager : PluginManager.t E;
  env : E
}.
Arguments mkSystem {E}.
Arguments assistant {E}.
Arguments pluginManager {E}.
Arguments env {E}.

(** What [sendMessage] resolves to. *)
Record Reply : Type := mkReply {
  response : string;
  toolCalls : option (list ToolCall.t)
}.

Definition system_prompt_text : string :=
"You are a highly intelligent AI assistant with the ability to connect to and interact with various applications and services. 

Your capabilities include:
- File system operations (read, write, search files)
- Web browsing and scraping
- System command execution
- API integrations with various services
- Data processing and analysis
- Task automation and scheduling

When a user asks you to perform an action:
1. Understand the request thoroughly
2. Choose the appropriate tool(s) for the task
3. Execute the tool(s) with the correct parameters
4. Provide clear feedback on the results
5. If something goes wrong, explain what happened and suggest alternatives

Always be helpful, accurate, and efficient. If you're unsure about something, ask for clarification rather than making assumptions.

Current date and time: ".

Section WithHost.
Context {E : Type} {host : Host E} {package : OpenAIPackage E}.

(** [constructor(config)] *)
Definition new (config : Config) : t E :=
  mk (OpenAI_new (apiKey config)) config JsMap.empty [].

Definition with_env (e : E) (s : System E) : System E :=
  mkSystem (assistant s) (pluginManager s) e.

(** [private getSystemPrompt()] *)
Definition getSystemPrompt (e : E) : string :=
  system_prompt_text +:+ Date_toISOString (Date_now e).

(** [private generateConversationId()] *)
Definition generateConversationId (e : E) : string * E :=
  let now := Date_now e in
  let '(r, e) := Math_random_base36 e in
  ("conv_" +:+ Number_toString now +:+ "_" +:+ r, e).

(** [public async createConversation(conversationId?)] *)
Definition createConversation (conversationId : option string) (s : System E)
  : string * System E :=
  let '(id, e) :=
    match conversationId with
    | Some given =>
        if String.eqb given "" then generateConversationId (env s) else (given, env s)
    | None => generateConversationId (env s)
    end in
  let tools := PluginManager.getAllTools (pluginManager s) in
  let context :=
    ConversationContext.mk
      [Message.mk Role.system (getSystemPrompt e) (Some (Date_now e)) None]
      tools
      [("createdAt", JsNum (Date_now e))] in
  let a := assistant s in
  let ref := length (heap a) in
  (id, mkSystem (mk (openai a) (config a) (JsMap.set id ref (conversations a))
                    (heap a ++ [context]))
                (pluginManager s) e).

(** [public getConversation(conversationId)] *)
Definition getConversation (conversationId : string) (s : System E)
  : option (ConversationContext.t E) :=
  ref ← JsMap.get conversationId (conversations (assistant s));
  heap (assistant s) !! ref.

(** [public deleteConversation(conversationId)] *)
Definition deleteConversation (conversationId : string) (s : System E)
  : bool * System E :=
  let a := assistant s in
  (JsMap.has conversationId (conversations a),
   mkSystem (mk (openai a) (config a) (JsMap.delete conversationId (conversations a))
                (heap a))
            (pluginManager s) (env s)).

(** [context.messages.push(message)] on the object that [ref] points to. *)
Definition push_message (ref : nat) (m : Message.t) (s : System E) : System E :=
  let a := assistant s in
  mkSystem (mk (openai a) (config a) (conversations a)
               (alter (ConversationContext.push m) ref (heap a)))
           (pluginManager s) (env s).

Definition messages_at (ref : nat) (s : System E) : list Message.t :=
  match heap (assistant s) !! ref with
  | Some context => ConversationContext.messages context
  | None => []
  end.

Definition tools_at (ref : nat) (s : System E) : list (Tool.t E) :=
  match heap (assistant s) !! ref with
  | Some context => ConversationContext.tools context
  | None => []
  end.

(** The mapping of the transcript to the wire, the same for both calls. *)
Definition to_chat_message (m : Message.t) : OpenAI.ChatMessage :=
  match Message.role m with
  | Role.tool =>
      let toolCallId :=
        match Message.metadata m with
        | Some metadata => js_prop "toolCallId" metadata
        | None => JsUndefined
        end in
      OpenAI.mkChatMessage Role.tool (Message.content m)
        (Some (js_or toolCallId (JsStr "")))
  | role => OpenAI.mkChatMessage role (Message.content m) None
  end.

(** [private formatToolsForOpenAI(tools)] *)
Definition formatToolsForOpenAI (tools : list (Tool.t E)) : list OpenAI.FunctionTool :=
  map (fun tool => OpenAI.mkFunctionTool (Tool.name tool) (Tool.description tool)
                     (Tool.parameters tool)) tools.

(** The request of the first pass: a transcript and a tool catalog. *)
Definition request_with_tools (cfg : Config) (transcript : list Message.t)
    (tools : list (Tool.t E)) : OpenAI.Request :=
  OpenAI.mkRequest (model cfg) (map to_chat_message transcript)
    (Some (formatToolsForOpenAI tools)) (Some "auto") (maxTokens cfg) (temperature cfg).

(** The request of the second pass: a transcript, and no tool catalog. *)
Definition request_without_tools (cfg : Config) (transcript : list Message.t)
  : OpenAI.Request :=
  OpenAI.mkRequest (model cfg) (map to_chat_message transcript)
    None None (maxTokens cfg) (temperature cfg).

Definition first_request (ref : nat) (s : System E) : OpenAI.Request :=
  request_with_tools (config (assistant s)) (messages_at ref s) (tools_at ref s).

Definition followUp_request (ref : nat) (s : System E) : OpenAI.Request :=
  request_without_tools (config (assistant s)) (messages_at ref s).

(** [response.choices[0].message] *)
Definition first_choice (r : OpenAI.Response) : Outcome OpenAI.ResponseMessage :=
  match OpenAI.choices r with
  | m :: _ => Return m
  | [] => Throw (ErrorObject "Cannot read properties of undefined (reading 'message')")
  end.

(** [message.content || ''] *)
Definition content_or_empty (m : OpenAI.ResponseMessage) : string :=
  match OpenAI.message_content m with
  | Some c => c
  | None => ""
  end.

(** [JSON.stringify({ ...result, executionTime })] takes the object as a
    value: the properties present, in order. *)
Definition executed_to_js (x : PluginManager.Executed) : JsVal :=
  let r := PluginManager.result x in
  JsObj ([("success", JsBool (ToolResult.success r))]
         ++ match ToolResult.data r with Some d => [("data", d)] | None => [] end
         ++ match ToolResult.error r with Some m => [("error", JsStr m)] | None => [] end
         ++ match ToolResult.metadata r with Some m => [("metadata", m)] | None => [] end
         ++ [("executionTime", JsNum (PluginManager.executionTime x))]).

Definition error_response (toolCall : ToolCall.t) (error : JsThrown) : ToolResponse.t :=
  let errorMessage := error_message error in
  ToolResponse.mk (ToolCall.id toolCall)
    (JSON_stringify (JsObj [("error", JsStr errorMessage)]))
    (Some errorMessage).

(** One turn of the loop of [executeToolCalls]: the [try] and its [catch]. *)
Definition executeToolCall (pm : PluginManager.t E) (toolCall : ToolCall.t) (e : E)
  : ToolResponse.t * E :=
  match JSON_parse (ToolCall.arguments (ToolCall.function toolCall)) with
  | Throw error => (error_response toolCall error, e)
  | Return params =>
      match PluginManager.executeTool
              (ToolCall.name (ToolCall.function toolCall)) params pm e with
      | (Return result, e) =>
          (ToolResponse.mk (ToolCall.id toolCall)
             (JSON_stringify (executed_to_js result)) None, e)
      | (Throw error, e) => (error_response toolCall error, e)
      end
  end.

(** [responses.push(...)] after one turn of the loop. *)
Definition loop_turn (pm : PluginManager.t E)
    (state : list ToolResponse.t * E) (toolCall : ToolCall.t)
  : list ToolResponse.t * E :=
  let '(toolResponse, e) := executeToolCall pm toolCall state.2 in
  (state.1 ++ [toolResponse], e).

(** [private async executeToolCalls(toolCalls)]: the loop over the array,
    pushing onto [responses]. *)
Definition executeToolCalls (toolCalls : list ToolCall.t) (pm : PluginManager.t E)
    (e : E) : list ToolResponse.t * E :=
  fold_left (loop_turn pm) toolCalls ([], e).

Definition tool_message (toolResponse : ToolResponse.t) (e : E) : Message.t :=
  Message.mk Role.tool (ToolResponse.content toolResponse) (Some (Date_now e))
    (Some [("toolCallId", JsStr (ToolResponse.toolCallId toolResponse));
           ("error", match ToolResponse.error toolResponse with
                     | Some m => JsStr m
                     | None => JsUndefined
                     end)]).

(** [for (const toolResponse of toolResponses) context.messages.push(toolMsg)] *)
Definition push_tool_messages (ref : nat) (toolResponses : list ToolResponse.t)
    (s : System E) : System E :=
  fold_left (fun s toolResponse => push_message ref (tool_message toolResponse (env s)) s)
    toolResponses s.

Definition assistant_message (m : OpenAI.ResponseMessage) (e : E) : Message.t :=
  Message.mk Role.assistant (content_or_empty m) (Some (Date_now e)) None.

(** The second pass of [sendMessage]: the follow-up call once the tool
    messages are in the transcript. *)
Definition followUp (ref : nat) (s : System E) : Outcome Reply * System E :=
  match openai (assistant s) (followUp_request ref s) (env s) with
  | (Throw error, e) => (Throw error, with_env e s)
  | (Return followUpResponse, e) =>
      let s := with_env e s in
      match first_choice followUpResponse with
      | Throw error => (Throw error, s)
      | Return followUpMessage =>
          let s := push_message ref (assistant_message followUpMessage (env s)) s in
          (Return (mkReply (content_or_empty followUpMessage) None), s)
      end
  end.

(** [public async sendMessage(conversationId, content, metadata?)].  The
    [catch] around the body logs and throws again. *)
Definition sendMessage (conversationId content : string) (metadata : option JsRecord)
    (s : System E) : Outcome Reply * System E :=
  match JsMap.get conversationId (conversations (assistant s)) with
  | None => (Throw (ErrorObject ("Conversation not found: " +:+ conversationId)), s)
  | Some context =>
      let userMessage :=
        Message.mk Role.user content (Some (Date_now (env s))) metadata in
      let s := push_message context userMessage s in
      match openai (assistant s) (first_request context s) (env s) with
      | (Throw error, e) => (Throw error, with_env e s)
      | (Return response, e) =>
          let s := with_env e s in
          match first_choice response with
          | Throw error => (Throw error, s)
          | Return assistantMessage =>
              let s := push_message context (assistant_message assistantMessage (env s)) s in
              let toolCalls := OpenAI.tool_calls assistantMessage in
              match toolCalls with
              | Some (toolCall :: more) =>
                  let '(toolResponses, e) :=
                    executeToolCalls (toolCall :: more) (pluginManager s) (env s) in
                  let s := with_env e s in
                  let s := push_tool_messages context toolResponses s in
                  followUp context s
              | _ => (Return (mkReply (content_or_empty assistantMessage) toolCalls), s)
              end
          end
      end
  end.

(** [public getStats()]: [activeConversations], [totalMessages] and
    [availableTools]. *)
Definition getStats (s : System E) : nat * nat * nat :=
  let totalMessages :=
    fold_left
      (fun totalMessages context => totalMessages + length (messages_at context s))
      (JsMap.values (conversations (assistant s))) 0 in
  (JsMap.size (conversations (assistant s)),
   totalMessages,
   length (PluginManager.getAllTools (pluginManager s))).

(** *** Sends in flight

    [sendMessage] suspends at each [await]: on the two calls to the backend
    and on each tool execution.  A send in flight is its conversation id, the
    context object it looked up when it started, and where it stands. *)
Inductive Phase : Type :=
| AwaitingReply (request : OpenAI.Request)
| ExecutingTools (remaining : list ToolCall.t) (responses : list ToolResponse.t)
| AwaitingFollowUp (request : OpenAI.Request)
| Settled (result : Outcome Reply).

Record Task : Type := mkTask {
  conversationId : string;
  context : nat;
  phase : Phase
}.

(** From the call to the first [await]. *)
Definition start (conversationId content : string) (metadata : option JsRecord)
    (s : System E) : Outcome Task * System E :=
  match JsMap.get conversationId (conversations (assistant s)) with
  | None => (Throw (ErrorObject ("Conversation not found: " +:+ conversationId)), s)
  | Some context =>
      let userMessage :=
        Message.mk Role.user content (Some (Date_now (env s))) metadata in
      let s := push_message context userMessage s in
      (Return (mkTask conversationId context (AwaitingReply (first_request context s))), s)
  end.

(** From one [await] to the next. *)
Definition step (t : Task) (s : System E) : Task * System E :=
  let continue phase := mkTask (conversationId t) (context t) phase in
  match phase t with
  | AwaitingReply request =>
      match openai (assistant s) request (env s) with
      | (Throw error, e) => (continue (Settled (Throw error)), with_env e s)
      | (Return response, e) =>
          let s := with_env e s in
          match first_choice response with
          | Throw error => (continue (Settled (Throw error)), s)
          | Return assistantMessage =>
              let s := push_message (context t)
                         (assistant_message assistantMessage (env s)) s in
              let toolCalls := OpenAI.tool_calls assistantMessage in
              match toolCalls with
              | Some (toolCall :: more) =>
                  (continue (ExecutingTools (toolCall :: more) []), s)
              | _ =>
                  (continue (Settled (Return
                     (mkReply (content_or_empty assistantMessage) toolCalls))), s)
              end
          end
      end
  | ExecutingTools (toolCall :: remaining) responses =>
      let '(toolResponse, e) := executeToolCall (pluginManager s) toolCall (env s) in
      (continue (ExecutingTools remaining (responses ++ [toolResponse])), with_env e s)
  | ExecutingTools [] responses =>
      let s := push_tool_messages (context t) responses s in
      (continue (AwaitingFollowUp (followUp_request (context t) s)), s)
  | AwaitingFollowUp request =>
      match openai (assistant s) request (env s) with
      | (Throw error, e) => (continue (Settled (Throw error)), with_env e s)
      | (Return followUpResponse, e) =>
          let s := with_env e s in
          match first_choice followUpResponse with
          | Throw error => (continue (Settled (Throw error)), s)
          | Return followUpMessage =>
              let s := push_message (context t)
                         (assistant_message followUpMessage (env s)) s in
              (continue (Settled (Return
                 (mkReply (content_or_empty followUpMessage) None))), s)
          end
      end
  | Settled _ => (t, s)
  end.

(** A send run on its own, for at most [fuel] steps. *)
Fixpoint run (fuel : nat) (t : Task) (s : System E) : Task * System E :=
  match fuel with
  | O => (t, s)
  | S fuel =>
      match phase t with
      | Settled _ => (t, s)
      | _ => let '(t, s) := step t s in run fuel t s
      end
  end.

(** What the scheduler does next: a caller starts a send, or the send at
    position [i] of the pool resumes. *)
Inductive Event : Type :=
| Start (conversationId content : string) (metadata : option JsRecord)
| Resume (i : nat).

Definition react (ev : Event) (st : System E * list Task) : System E * list Task :=
  let '(s, pool) := st in
  match ev with
  | Start conversationId content metadata =>
      match start conversationId content metadata s with
      | (Return t, s) => (s, pool ++ [t])
      | (Throw _, s) => (s, pool)
      end
  | Resume i =>
      match pool !! i with
      | Some t => let '(t, s) := step t s in (s, <[i := t]> pool)
      | None => (s, pool)
      end
  end.

(** Any interleaving of sends is a list of events. *)
Definition interleave (events : list Event) (st : System E * list Task)
  : System E * list Task :=
  fold_left (fun st ev => react ev st) events st.

(** No two conversation ids share a context object, and every reference is
    allocated. *)
Definition no_aliasing (s : System E) : Prop :=
  let convs := conversations (assistant s) in
  (forall a b ref, JsMap.get a convs = Some ref -> JsMap.get b convs = Some ref -> a = b)
  /\ (forall a ref, JsMap.get a convs = Some ref -> ref < length (heap (assistant s))).

(** Sends in flight hold the context object their conversation id maps to
    (no conversation is created or deleted while they run). *)
Definition in_flight_ok (s : System E) (pool : list Task) : Prop :=
  Forall (fun t => JsMap.get (conversationId t) (conversations (assistant s))
                   = Some (context t)) pool.

(** The event starts or resumes a send addressed to another conversation
    than [b]; positions of the pool are those of [pool0], the sends in flight
    when the schedule begins. *)
Definition elsewhere (b : string) (pool0 : list Task) (ev : Event) : Prop :=
  match ev with
  | Start a _ _ => a <> b
  | Resume i => forall t, pool0 !! i = Some t -> conversationId t <> b
  end.

End WithHost.
End AIAssistant.

(** ** [Logger] *)

(** What the logger takes from its host besides the clock and
    [JSON.stringify]: the console, the log file, and [toUpperCase]. *)
Class Console (E : Type) : Type := {
  (** [s.toUpperCase()] *)
  String_toUpperCase : string -> string;
  (** [console.debug], [console.info] and [console.warn], by the name of the
      method *)
  console_print : string -> string -> E -> E;
  (** [console.error('Failed to write to log file:', error)] *)
  console_error : string -> JsThrown -> E -> E;
  (** [fs.appendFile(file, data)] *)
  fs_appendFile : string -> string -> E -> Outcome unit * E
}.

Module Logger.

(** [enum LogLevel] *)
Inductive LogLevel : Type := DEBUG | INFO | WARN | ERROR.

Definition number (level : LogLevel) : Z :=
  match level with DEBUG => 0 | INFO => 1 | WARN => 2 | ERROR => 3 end.

Definition name (level : LogLevel) : string :=
  match level with
  | DEBUG => "DEBUG" | INFO => "INFO" | WARN => "WARN" | ERROR => "ERROR"
  end.

(** What the field [logLevel] can hold.  The object of a numeric enum maps
    the names to the numbers and the numbers back to the names, so
    [LogLevel["0"]] is the string ["DEBUG"]. *)
Inductive Stored : Type :=
| Number (level : LogLevel)
| Name (level : LogLevel).

(** [LogLevel[key]] for a key that [toUpperCase] produced (the keys inherited
    from [Object.prototype] all have a lower-case letter). *)
Definition enum_member (key : string) : option Stored :=
  if String.eqb key "DEBUG" then Some (Number DEBUG)
  else if String.eqb key "INFO" then Some (Number INFO)
  else if String.eqb key "WARN" then Some (Number WARN)
  else if String.eqb key "ERROR" then Some (Number ERROR)
  else if String.eqb key "0" then Some (Name DEBUG)
  else if String.eqb key "1" then Some (Name INFO)
  else if String.eqb key "2" then Some (Name WARN)
  else if String.eqb key "3" then Some (Name ERROR)
  else None.

(** [value || LogLevel.INFO]: the number 0 is falsy, a name is not. *)
Definition or_INFO (value : option Stored) : Stored :=
  match value with
  | Some (Number DEBUG) | None => Number INFO
  | Some stored => stored
  end.

(** [this.logLevel <= LogLevel.X]: a name compares as [NaN]. *)
Definition at_most (stored : Stored) (level : LogLevel) : bool :=
  match stored with
  | Number l => (number l <=? number level)%Z
  | Name _ => false
  end.

Record t : Type := mk {
  logLevel : Stored;
  logFile : option string
}.

(** [private constructor()] *)
Definition new : t := mk (Number INFO) None.

Section WithHost.
Context {E : Type} {host : Host E} {console : Console E}.

(** [public setLevel(level: LogLevel | string)] *)
Definition setLevel (level : LogLevel + string) (logger : t) : t :=
  match level with
  | inr level => mk (or_INFO (enum_member (String_toUpperCase level))) (logFile logger)
  | inl level => mk (Number level) (logFile logger)
  end.

(** [private formatMessage(level, message, meta?)] *)
Definition formatMessage (level message : string) (meta : option JsVal) (e : E)
  : string :=
  let timestamp := Date_toISOString (Date_now e) in
  let metaStr :=
    match meta with
    | Some meta => if truthy meta then " " +:+ JSON_stringify meta else ""
    | None => ""
    end in
  "[" +:+ timestamp +:+ "] [" +:+ level +:+ "] " +:+ message +:+ metaStr.

(** [private async writeToFile(formattedMessage)] *)
Definition writeToFile (formattedMessage : string) (logger : t) (e : E) : E :=
  match logFile logger with
  | Some file =>
      if String.eqb file "" then e
      else
        match fs_appendFile file (formattedMessage +:+ String "010" "") e with
        | (Return _, e) => e
        | (Throw error, e) => console_error "Failed to write to log file:" error e
        end
  | None => e
  end.

(** The body shared by [debug], [info] and [warn]. *)
Definition log (level : LogLevel) (method : string) (message : string)
    (meta : option JsVal) (logger : t) (e : E) : E :=
  if at_most (logLevel logger) level then
    let formatted := formatMessage (name level) message meta e in
    let e := console_print method formatted e in
    writeToFile formatted logger e
  else e.

(** [public debug(message, meta?)] *)
Definition debug (message : string) (meta : option JsVal) (logger : t) (e : E) : E :=
  log DEBUG "debug" message meta logger e.

(** [public info(message, meta?)] *)
Definition info (message : string) (meta : option JsVal) (logger : t) (e : E) : E :=
  log INFO "info" message meta logger e.

(** [public warn(message, meta?)] *)
Definition warn (message : string) (meta : option JsVal) (logger : t) (e : E) : E :=
  log WARN "warn" message meta logger e.

End WithHost.
End Logger.

(** ** [IntegrationManager]: connections to applications *)

Module AppConnection.
Record t : Type := mk {
  appId : string;
  appName : string;
  type : string;
  status : string;
  capabilities : list string;
  config : JsRecord;
  lastUsed : option Z
}.
End AppConnection.

Module Integration.
Record t : Type := mk {
  name : string;
  type : string;
  config : JsRecord;
  connected : bool;
  lastUsed : option Z
}.
End Integration.

(** [interface ActionResult]; [data] is a connection, what an action
    returned, or the result of [executeAction] inside that of
    [testConnection]. *)
Module ActionResult.
Inductive t : Type :=
| mk (success : bool) (message : string) (data : Data) (error : option string)
with Data : Type :=
| NoData
| Connection (connection : AppConnection.t)
| Value (value : JsVal)
| Result (result : t).

Definition success (r : t) : bool := let 'mk s _ _ _ := r in s.
Definition message (r : t) : string := let 'mk _ m _ _ := r in m.
Definition data (r : t) : Data := let 'mk _ _ d _ := r in d.
Definition error (r : t) : option string := let 'mk _ _ _ e := r in e.
End ActionResult.

(** The four executors of [performAction] reach outside the program (HTTP,
    a browser, a shell, a handler of the caller). *)
Class Executors (E : Type) : Type := {
  executeApiAction : AppConnection.t -> string -> JsRecord -> E -> Outcome JsVal * E;
  executeBrowserAction : AppConnection.t -> string -> JsRecord -> E -> Outcome JsVal * E;
  executeCliAction : AppConnection.t -> string -> JsRecord -> E -> Outcome JsVal * E;
  executeCustomAction : AppConnection.t -> string -> JsRecord -> E -> Outcome JsVal * E
}.

Module IntegrationManager.

Record t : Type := mk {
  connections : JsMap.t AppConnection.t;
  integrations : JsMap.t Integration.t
}.

(** [private constructor()] *)
Definition new : t := mk JsMap.empty JsMap.empty.

Definition with_connections (f : JsMap.t AppConnection.t -> JsMap.t AppConnection.t)
    (m : t) : t :=
  mk (f (connections m)) (integrations m).

(** [public registerIntegration(integration)] *)
Definition registerIntegration (integration : Integration.t) (m : t) : t :=
  mk (connections m) (JsMap.set (Integration.type integration) integration (integrations m)).

(** [public getConnection(appId)] *)
Definition getConnection (appId : string) (m : t) : option AppConnection.t :=
  JsMap.get appId (connections m).

(** [public getAllConnections()] *)
Definition getAllConnections (m : t) : list AppConnection.t :=
  JsMap.values (connections m).

Section WithHost.
Context {E : Type} {host : Host E} {executors : Executors E}.

(** [public async connectApp(connection)]: the connection is marked and
    stored as connected. *)
Definition connectApp (connection : AppConnection.t) (m : t) (e : E)
  : ActionResult.t * t :=
  match JsMap.get (AppConnection.type connection) (integrations m) with
  | None =>
      (ActionResult.mk false
         ("Integration type not found: " +:+ AppConnection.type connection)
         ActionResult.NoData (Some "Integration type not found"), m)
  | Some _ =>
      let connection :=
        AppConnection.mk (AppConnection.appId connection)
          (AppConnection.appName connection) (AppConnection.type connection)
          "connected" (AppConnection.capabilities connection)
          (AppConnection.config connection) (Some (Date_now e)) in
      (ActionResult.mk true
         ("Successfully connected to " +:+ AppConnection.appName connection)
         (ActionResult.Connection connection) None,
       with_connections (JsMap.set (AppConnection.appId connection) connection) m)
  end.

(** [public async disconnectApp(appId)] *)
Definition disconnectApp (appId : string) (m : t) : ActionResult.t * t :=
  match JsMap.get appId (connections m) with
  | None =>
      (ActionResult.mk false ("Connection not found: " +:+ appId)
         ActionResult.NoData (Some "Connection not found"), m)
  | Some connection =>
      (ActionResult.mk true
         ("Successfully disconnected from " +:+ AppConnection.appName connection)
         ActionResult.NoData None,
       with_connections (JsMap.delete appId) m)
  end.

(** [private async performAction(connection, action, params)] *)
Definition performAction (connection : AppConnection.t) (action : string)
    (params : JsRecord) (e : E) : Outcome JsVal * E :=
  let type := AppConnection.type connection in
  if String.eqb type "api" then executeApiAction connection action params e
  else if String.eqb type "browser" then executeBrowserAction connection action params e
  else if String.eqb type "cli" then executeCliAction connection action params e
  else if String.eqb type "custom" then executeCustomAction connection action params e
  else (Throw (ErrorObject ("Unknown connection type: " +:+ type)), e).

(** [public async executeAction(appId, action, params)]: whatever the
    action throws is caught and reported in the result. *)
Definition executeAction (appId action : string) (params : JsRecord) (m : t) (e : E)
  : ActionResult.t * (t * E) :=
  match JsMap.get appId (connections m) with
  | None =>
      (ActionResult.mk false ("Connection not found: " +:+ appId)
         ActionResult.NoData (Some "Connection not found"), (m, e))
  | Some connection =>
      if negb (String.eqb (AppConnection.status connection) "connected") then
        (ActionResult.mk false
           ("App not connected: " +:+ AppConnection.appName connection)
           ActionResult.NoData (Some "App not connected"), (m, e))
      else if negb (existsb (String.eqb action) (AppConnection.capabilities connection)) then
        (ActionResult.mk false ("Action not supported: " +:+ action)
           ActionResult.NoData (Some "Action not supported"), (m, e))
      else
        let connection :=
          AppConnection.mk (AppConnection.appId connection)
            (AppConnection.appName connection) (AppConnection.type connection)
            (AppConnection.status connection) (AppConnection.capabilities connection)
            (AppConnection.config connection) (Some (Date_now e)) in
        let m := with_connections (JsMap.set appId connection) m in
        match performAction connection action params e with
        | (Return result, e) =>
            (ActionResult.mk true ("Action " +:+ action +:+ " executed successfully")
               (ActionResult.Value result) None, (m, e))
        | (Throw error, e) =>
            (ActionResult.mk false "Failed to execute action" ActionResult.NoData
               (Some (error_message error)), (m, e))
        end
  end.

(** [public async testConnection(appId)]: [executeAction] returns its
    failures, it does not throw them, so the [catch] is never entered. *)
Definition testConnection (appId : string) (m : t) (e : E)
  : ActionResult.t * (t * E) :=
  match JsMap.get appId (connections m) with
  | None =>
      (ActionResult.mk false ("Connection not found: " +:+ appId)
         ActionResult.NoData (Some "Connection not found"), (m, e))
  | Some _ =>
      let '(result, state) := executeAction appId "ping" [] m e in
      (ActionResult.mk true "Connection test successful" (ActionResult.Result result)
         None, state)
  end.

End WithHost.
End IntegrationManager.

(** ** [mockProvider]: the provider used for testing *)

(** What the mock takes from its host: case folding and the length of a
    string in UTF-16 units, and the passing of time. *)
Class JsStrings : Type := {
  String_toLowerCase : string -> string;
  String_length16 : string -> Z
}.

Class Timers (E : Type) : Type := {
  (** [await new Promise(resolve => setTimeout(resolve, ms))] *)
  setTimeout_elapsed : Z -> E -> E
}.

Module MockProvider.

Definition quote : string := String "034" EmptyString.

Section WithHost.
Context {E : Type} {strings : JsStrings} {timers : Timers E}.

(** The choice of the reply, the same in [chat] and in [streamChat]. *)
Definition respond (messages : list AIMessage.t) : string :=
  let lastMessage := last messages in
  let mentions (word : string) : bool :=
    match lastMessage with
    | Some m => JsString.includes word (String_toLowerCase (AIMessage.content m))
    | None => false
    end in
  if mentions "hello" then "Hello! How can I help you today?"
  else if mentions "help" then
    "I can help you with various tasks like file operations, web requests, and system commands. Just ask!"
  else
    "I received your message: " +:+ quote
    +:+ match lastMessage with
        | Some m => AIMessage.content m
        | None => "undefined"
        end
    +:+ quote
    +:+ ". I'm a mock AI for testing purposes. Connect a real AI provider for actual responses.".

(** [messages.reduce((sum, m) => sum + m.content.length, 0)] *)
Definition prompt_length (messages : list AIMessage.t) : Z :=
  fold_left (fun sum m => (sum + String_length16 (AIMessage.content m))%Z) messages 0%Z.

(** [chat: async (messages, _tools?)] *)
Definition chat (messages : list AIMessage.t) (tools : option (list JsVal)) (e : E)
  : Outcome AIResponse.t * E :=
  let e := setTimeout_elapsed 500 e in
  let response := respond messages in
  (Return (AIResponse.mk response None
             (Some (AIResponse.mkUsage (prompt_length messages)
                      (String_length16 response)
                      (prompt_length messages + String_length16 response)%Z))), e).

(** One turn of the loop of [streamChat]: a chunk, then a pause. *)
Definition stream_turn (state : list AIStreamChunk.t * E) (word : string)
  : list AIStreamChunk.t * E :=
  (state.1 ++ [AIStreamChunk.mk (word +:+ " ") false], setTimeout_elapsed 100 state.2).

(** [streamChat: async function* (messages, _tools?)] *)
Definition streamChat (messages : list AIMessage.t) (tools : option (list JsVal)) (e : E)
  : Generated.t * E :=
  let response := respond messages in
  let words := Hex.split " " response in
  let streamed := fold_left stream_turn words ([], e) in
  (Generated.mk (streamed.1 ++ [AIStreamChunk.mk "" true]) (Return tt), streamed.2).

Definition client : AIProviderClient.t E :=
  AIProviderClient.mk chat (Some streamChat).

(** [export const mockProvider] *)
Definition mockProvider : AIProvider.t E :=
  AIProvider.mk "mock" "Mock AI (for testing)" ["mock-model-1"; "mock-model-2"]
    (fun _ => Return client).

End WithHost.
End MockProvider.

(** ** Fixtures used to run the model

    A block function with the two laws (byte-wise xor with the first half of
    the key): it is no cipher to use, and serves to evaluate the model on
    concrete inputs. *)
Module Fixtures.

#[export] Instance xor_cipher : BlockCipher := {|
  encrypt_block key blk := Aes256Cbc.xor_bytes blk (take 16 key);
  decrypt_block key blk := Aes256Cbc.xor_bytes blk (take 16 key)
|}.

Definition key32 : string := "0123456789abcdef0123456789abcdef".
Definition bytes16 : list ascii := list_ascii_of_string "ABCDEFGHIJKLMNOP".
Definition iv16 : list ascii := list_ascii_of_string "qrstuvwxyz012345".

Definition empty_store : ApiKeyManager.World :=
  ApiKeyManager.mkWorld
    (ApiKeyManager.mkManager "data/api-keys.json" key32 JsMap.empty) None.

Definition calm : ApiKeyManager.Ambient :=
  ApiKeyManager.mkAmbient bytes16 iv16 1700000000000%Z None.

Definition disk_full : ApiKeyManager.Ambient :=
  ApiKeyManager.mkAmbient bytes16 iv16 1700000000000%Z
    (Some (ApiKeyManager.mkWriteFailure
             (ErrorObject "ENOSPC: no space left on device, write")
             ApiKeyManager.DuringWrite)).

(** A host whose backend replies from a script, and whose tools keep a
    journal of what ran. *)
Record Env : Type := mkEnv {
  clock : Z;
  script : list OpenAI.Response;
  journal : list string
}.

Definition show (v : JsVal) : string :=
  match v with
  | JsStr s => s
  | JsObj (("error", JsStr m) :: _) => "error: " +:+ m
  | JsObj (("success", JsBool true) :: _) => "ok"
  | JsObj (("success", JsBool false) :: _) => "failed"
  | _ => "?"
  end.

#[export] Instance host : Host Env := {|
  Date_now := clock;
  Date_toISOString z := pretty z;
  Number_toString z := pretty z;
  Math_random_base36 e := ("k3j9x0q2a", e);
  JSON_parse s :=
    if String.eqb s "" then Throw (ErrorObject "Unexpected end of JSON input")
    else Return (JsStr s);
  JSON_stringify := show
|}.

Definition scripted : OpenAI.Client Env := fun _ e =>
  match script e with
  | [] => (Throw (ErrorObject "Connection error."), e)
  | r :: rest => (Return r, mkEnv (clock e + 1) rest (journal e))
  end.

#[export] Instance package : OpenAIPackage Env := {| OpenAI_new _ := scripted |}.

Definition no_schema : JsVal := JsObj [("type", JsStr "object"); ("properties", JsObj [])].

Definition journaling (name : string) (r : Outcome ToolResult.t) : Tool.t Env :=
  Tool.mk name "test tool" no_schema
    (fun _ e => (r, mkEnv (clock e + 2) (script e) (journal e ++ [name]))).

Definition echo_tool : Tool.t Env :=
  journaling "echo_tool" (Return (ToolResult.mk true (Some (JsStr "echo")) None None)).

Definition get_time : Tool.t Env :=
  journaling "get_time"
    (Return (ToolResult.mk true
       (Some (JsObj [("now", JsStr "2024-01-01T00:00:00Z")])) None None)).

Definition failing_tool : Tool.t Env :=
  journaling "failing_tool" (Throw (ErrorObject "boom")).

Definition plugin (name : string) (tools : list (Tool.t Env)) : Plugin.t Env :=
  Plugin.mk name "1.0.0" "test plugin" None true tools None None.

Definition quiet : Env := mkEnv 1000 [] [].

Definition says (content : string) : OpenAI.Response :=
  OpenAI.mkResponse [OpenAI.mkResponseMessage (Some content) None].

Definition calls (tcs : list ToolCall.t) : OpenAI.Response :=
  OpenAI.mkResponse [OpenAI.mkResponseMessage None (Some tcs)].

Definition call (id name : string) : ToolCall.t :=
  ToolCall.mk id "function" (ToolCall.mkFunction name "{}").

Definition config : AIAssistant.Config :=
  AIAssistant.mkConfig "sk-test" "gpt-4" 1024 (7 # 10).

(** Registries. *)
Definition clock_only : PluginManager.t Env :=
  PluginManager.registerPlugin (plugin "time" [get_time]) PluginManager.new.

Definition beta_echo : Tool.t Env :=
  journaling "echo_tool" (Throw (ErrorObject "beta's echo")).

Definition two_plugins : PluginManager.t Env :=
  PluginManager.registerPlugin (plugin "beta" [failing_tool; beta_echo])
    (PluginManager.registerPlugin (plugin "alpha" [echo_tool]) PluginManager.new).

Definition toolbox : PluginManager.t Env :=
  PluginManager.registerPlugin (plugin "box" [echo_tool; get_time; failing_tool])
    PluginManager.new.

(** A provider whose clients only have [chat], answering with a fixed text. *)
Definition plain_client : AIProviderClient.t Env :=
  AIProviderClient.mk
    (fun _ _ e => (Return (AIResponse.mk "Hello there" None None), e)) None.

Definition plain_provider : AIProvider.t Env :=
  AIProvider.mk "plain" "Plain" ["plain-1"] (fun _ => Return plain_client).

Definition plain_config : AIModelConfig.t :=
  AIModelConfig.mk "plain" "plain-1" None None None None.

Definition with_plain : AIProviderManager.t Env :=
  (AIProviderManager.setProvider plain_config
     (AIProviderManager.registerProvider plain_provider AIProviderManager.new)).2.

Definition hello : list AIMessage.t := [AIMessage.mk Role.user "hello" None].

(** An assistant with conversations [a], [b] and [c], and a backend that
    will give the replies of [replies], in this order. *)
Definition three_conversations (replies : list OpenAI.Response)
  : AIAssistant.System Env :=
  (AIAssistant.createConversation (Some "c")
     (AIAssistant.createConversation (Some "b")
        (AIAssistant.createConversation (Some "a")
           (AIAssistant.mkSystem (AIAssistant.new config) toolbox
              (mkEnv 1000 replies []))).2).2).2.

(** The context of each of them, as [createConversation] leaves it. *)
Definition fresh_context (replies : list OpenAI.Response)
  : ConversationContext.t Env :=
  ConversationContext.mk
    [Message.mk Role.system (AIAssistant.getSystemPrompt (mkEnv 1000 replies []))
       (Some 1000%Z) None]
    (PluginManager.getAllTools toolbox)
    [("createdAt", JsNum 1000)].

(** What the model asks for in the first pass of the tool run below. *)
Definition three_calls : list ToolCall.t :=
  [call "c1" "echo_tool"; call "c2" "missing_tool"; call "c3" "get_time"].

(** An interleaving of two sends, addressed to [a] and to [c]. *)
Definition schedule : list AIAssistant.Event :=
  [AIAssistant.Start "a" "first" None; AIAssistant.Start "c" "second" None;
   AIAssistant.Resume 1; AIAssistant.Resume 0; AIAssistant.Resume 0;
   AIAssistant.Resume 1; AIAssistant.Resume 0; AIAssistant.Resume 0;
   AIAssistant.Resume 0].

(** The roles, the call ids and the contents of a transcript, after its
    system message. *)
Definition outline (s : AIAssistant.System Env) (a : string)
  : list (Role.t * JsVal * string) :=
  match AIAssistant.getConversation a s with
  | Some c =>
      map (fun m => (Message.role m,
                     js_prop "toolCallId" (default [] (Message.metadata m)),
                     Message.content m))
          (drop 1 (ConversationContext.messages c))
  | None => []
  end.

End Fixtures.

(** ** Further scenarios *)
Module Scenarios.
Import Fixtures.

(** The store after one short credential was added, and a later call. *)
Definition one_key : ApiKeyManager.World :=
  (ApiKeyManager.addKey calm "main" "openai" "short-key" empty_store).2.

Definition one_key_id : string := "4142434445464748494a4b4c4d4e4f50".

Definition short_payload : string :=
  "7172737475767778797a303132333435:322b2e35356e2a2a3844565456505654".

Definition other_payload : string :=
  "7172737475767778797a303132333435:2e372922336e2a2a3844565456505654".

Definition spare_id : string := "30313233343536373839414243444546".

Definition no_space : JsThrown := ErrorObject "ENOSPC: no space left on device, write".

Definition later : ApiKeyManager.Ambient :=
  ApiKeyManager.mkAmbient (list_ascii_of_string "0123456789ABCDEF") iv16
    1700000000500%Z None.

Definition later_disk_full : ApiKeyManager.Ambient :=
  ApiKeyManager.mkAmbient (list_ascii_of_string "0123456789ABCDEF") iv16
    1700000000500%Z
    (Some (ApiKeyManager.mkWriteFailure
             (ErrorObject "ENOSPC: no space left on device, write")
             ApiKeyManager.DuringWrite)).

(** The same call when the key directory cannot be created. *)
Definition later_no_directory : ApiKeyManager.Ambient :=
  ApiKeyManager.mkAmbient (list_ascii_of_string "0123456789ABCDEF") iv16
    1700000000500%Z
    (Some (ApiKeyManager.mkWriteFailure
             (ErrorObject "EACCES: permission denied, mkdir")
             ApiKeyManager.BeforeOpen)).


(** A provider whose factory refuses the configuration, as the providers do
    when no API key is set. *)
Definition keyless_provider : AIProvider.t Fixtures.Env :=
  AIProvider.mk "keyless" "Keyless" ["keyless-1"]
    (fun _ => Throw (ErrorObject "API key is required.")).


Definition keyless_config : AIModelConfig.t :=
  AIModelConfig.mk "keyless" "keyless-1" None None None None.

Definition plain_and_keyless : AIProviderManager.t Fixtures.Env :=
  AIProviderManager.registerProvider keyless_provider Fixtures.with_plain.

(** A plugin directory with two plugin files and a text file; any other
    directory cannot be listed. *)
Definition time_plugin : Plugin.t Fixtures.Env :=
  Fixtures.plugin "time" [Fixtures.get_time].

Definition echo_plugin : Plugin.t Fixtures.Env :=
  Fixtures.plugin "echo" [Fixtures.echo_tool].

Definition plugin_directory : PluginManager.PluginFiles Fixtures.Env :=
  PluginManager.mkPluginFiles
    (fun directory =>
       if String.eqb directory "./src/plugins"
       then Return ["time.plugin.ts"; "README.md"; "echo.plugin.js"]
       else Throw (ErrorObject "ENOENT: no such file or directory, scandir"))
    (fun _ file =>
       if String.eqb file "time.plugin.ts" then Return (Some time_plugin)
       else if String.eqb file "echo.plugin.js" then Return (Some echo_plugin)
       else Throw (ErrorObject "Unknown file extension")).

(** Two registrations under one name, the second with fewer tools. *)
Definition box_v1 : Plugin.t Fixtures.Env :=
  Fixtures.plugin "box" [Fixtures.echo_tool; Fixtures.get_time].

Definition box_v2 : Plugin.t Fixtures.Env :=
  Fixtures.plugin "box" [Fixtures.get_time].

(** A console that writes into the journal, and [toUpperCase] on ASCII. *)
Definition upper_ascii (a : ascii) : ascii :=
  let n := nat_of_ascii a in
  if (97 <=? n) && (n <=? 122) then ascii_of_nat (n - 32) else a.

Fixpoint upper (s : string) : string :=
  match s with
  | EmptyString => EmptyString
  | String a rest => String (upper_ascii a) (upper rest)
  end.

#[export] Instance console : Console Fixtures.Env := {|
  String_toUpperCase := upper;
  console_print method line e :=
    Fixtures.mkEnv (Fixtures.clock e) (Fixtures.script e)
      (Fixtures.journal e ++ [method +:+ ": " +:+ line]);
  console_error text error e :=
    Fixtures.mkEnv (Fixtures.clock e) (Fixtures.script e)
      (Fixtures.journal e ++ ["error: " +:+ text +:+ " " +:+ error_message error]);
  fs_appendFile _ _ e := (Return tt, e)
|}.

(** Executors that reach nothing: the HTTP call is refused, the others
    answer with a fixed value. *)
#[export] Instance executors : Executors Fixtures.Env := {|
  executeApiAction _ _ _ e := (Throw (ErrorObject "connect ECONNREFUSED 127.0.0.1:80"), e);
  executeBrowserAction _ _ _ e := (Return (JsStr "page"), e);
  executeCliAction _ _ _ e := (Return (JsStr "stdout"), e);
  executeCustomAction _ _ _ e := (Return (JsStr "handled"), e)
|}.

Definition rest_integration : Integration.t :=
  Integration.mk "REST" "api" [] true None.

(** A connection as a caller submits it, with no [ping] among its
    capabilities. *)
Definition mail_app : AppConnection.t :=
  AppConnection.mk "mail" "Mail" "api" "disconnected" ["send"; "list"] [] None.

Definition with_rest : IntegrationManager.t :=
  IntegrationManager.registerIntegration rest_integration IntegrationManager.new.

Definition with_mail : IntegrationManager.t :=
  (IntegrationManager.connectApp mail_app with_rest Fixtures.quiet).2.

(** Case folding on ASCII, lengths in characters, and timers that move the
    clock. *)
Definition lower_ascii (a : ascii) : ascii :=
  let n := nat_of_ascii a in
  if (65 <=? n) && (n <=? 90) then ascii_of_nat (n + 32) else a.

Fixpoint lower (s : string) : string :=
  match s with
  | EmptyString => EmptyString
  | String a rest => String (lower_ascii a) (lower rest)
  end.

#[export] Instance strings : JsStrings := {|
  String_toLowerCase := lower;
  String_length16 s := Z.of_nat (String.length s)
|}.

#[export] Instance timers : Timers Fixtures.Env := {|
  setTimeout_elapsed ms e :=
    Fixtures.mkEnv (Fixtures.clock e + ms) (Fixtures.script e) (Fixtures.journal e)
|}.

Definition mock_config : AIModelConfig.t :=
  AIModelConfig.mk "mock" "mock-model-1" None None None None.

Definition with_mock : AIProviderManager.t Fixtures.Env :=
  (AIProviderManager.setProvider mock_config
     (AIProviderManager.registerProvider MockProvider.mockProvider
        AIProviderManager.new)).2.
End Scenarios.

(** * Properties *)

(** ** Sequencing of outcomes *)

Lemma bind_Return {A B} (a : A) (k : A -> Outcome B) : (Return a ≫= k) = k a.
Proof. reflexivity. Qed.

(** ** The dictionary *)
Module JsMapFacts.
Import JsMap.

Lemma get_set_eq {V} (k : string) (v : V) (m : t V) :
  get k (set k v m) = Some v.
Proof.
  induction m as [|[k' v'] m IH]; simpl.
  - by rewrite String.eqb_refl.
  - destruct (String.eqb k' k) eqn:Hk; simpl; rewrite Hk; [done | apply IH].
Qed.

Lemma get_set_ne {V} (k k' : string) (v : V) (m : t V) :
  k <> k' -> get k' (set k v m) = get k' m.
Proof.
  intros Hne. induction m as [|[k0 v0] m IH]; simpl.
  - destruct (String.eqb_spec k k'); [done | reflexivity].
  - destruct (String.eqb_spec k0 k) as [->|Hk0]; simpl.
    + destruct (String.eqb_spec k k'); [done | reflexivity].
    + by rewrite IH.
Qed.

Lemma get_delete_eq {V} (k : string) (m : t V) :
  get k (delete k m) = None.
Proof.
  induction m as [|[k' v'] m IH]; simpl; [done |].
  destruct (String.eqb k' k) eqn:Hk; simpl; [apply IH | by rewrite Hk].
Qed.

Lemma get_delete_ne {V} (k k' : string) (m : t V) :
  k <> k' -> get k' (delete k m) = get k' m.
Proof.
  intros Hne. induction m as [|[k0 v0] m IH]; simpl; [done |].
  destruct (String.eqb_spec k0 k) as [->|Hk0]; simpl.
  - rewrite IH. destruct (String.eqb_spec k k'); [done | reflexivity].
  - by rewrite IH.
Qed.


End JsMapFacts.

Module JsMapMoreFacts.
Import JsMap.

Lemma get_None_keys {V} (k : string) (m : t V) :
  get k m = None <-> ~ In k (keys m).
Proof.
  unfold keys. induction m as [|[k' v'] m IH]; cbn; [tauto |].
  destruct (String.eqb_spec k' k) as [->|Hne]; [split; [done | tauto] |].
  rewrite IH. tauto.
Qed.

(** A new key goes last. *)
Lemma set_fresh {V} (k : string) (v : V) (m : t V) :
  get k m = None -> set k v m = m ++ [(k, v)].
Proof.
  induction m as [|[k' v'] m IH]; cbn; [done |].
  destruct (String.eqb k' k); [done |]. intros Hm. by rewrite IH.
Qed.

(** An existing key keeps its place. *)
Lemma keys_set_present {V} (k : string) (v : V) (m : t V) :
  get k m <> None -> keys (set k v m) = keys m.
Proof.
  unfold keys. induction m as [|[k' v'] m IH]; cbn; [done |].
  destruct (String.eqb_spec k' k) as [->|Hne]; [done |].
  intros Hm. cbn. by rewrite IH.
Qed.

Lemma NoDup_keys_set {V} (k : string) (v : V) (m : t V) :
  NoDup (keys m) -> NoDup (keys (set k v m)).
Proof.
  intros Hm. destruct (get k m) as [v0|] eqn:Hk.
  - rewrite keys_set_present; [done | congruence].
  - rewrite set_fresh by done. unfold keys. rewrite map_app. cbn.
    apply NoDup_app. repeat split; [done | | apply NoDup_singleton].
    intros x Hx Hx'. apply list_elem_of_In in Hx.
    apply list_elem_of_singleton in Hx'. subst x.
    by apply get_None_keys in Hk.
Qed.

Lemma keys_delete_incl {V} (k k' : string) (m : t V) :
  In k' (keys (delete k m)) -> In k' (keys m).
Proof.
  unfold keys. induction m as [|[k0 v0] m IH]; cbn; [done |].
  destruct (String.eqb k0 k); cbn; tauto.
Qed.

Lemma NoDup_keys_delete {V} (k : string) (m : t V) :
  NoDup (keys m) -> NoDup (keys (delete k m)).
Proof.
  induction m as [|[k0 v0] m IH]; cbn; [done |].
  intros Hm. apply NoDup_cons in Hm as [Hk0 Hm].
  destruct (String.eqb k0 k); [by apply IH |].
  cbn. apply NoDup_cons. split; [| by apply IH].
  intros Hin. apply Hk0. apply list_elem_of_In.
  apply list_elem_of_In in Hin. by eapply (keys_delete_incl k k0 m).
Qed.

Lemma Forall_set {V} (P : string * V -> Prop) (k : string) (v : V) (m : t V) :
  P (k, v) -> Forall P m -> Forall P (set k v m).
Proof.
  intros Hkv. induction m as [|[k0 v0] m IH]; cbn; intros Hm.
  - by apply Forall_singleton.
  - apply Forall_cons in Hm as [H0 Hm].
    destruct (String.eqb_spec k0 k) as [->|Hne]; apply Forall_cons; auto.
Qed.

Lemma Forall_delete {V} (P : string * V -> Prop) (k : string) (m : t V) :
  Forall P m -> Forall P (delete k m).
Proof.
  induction m as [|[k0 v0] m IH]; cbn; [done |]. intros Hm.
  apply Forall_cons in Hm as [H0 Hm].
  destruct (String.eqb k0 k); [auto | apply Forall_cons; auto].
Qed.

Lemma get_Some_In {V} (k : string) (v : V) (m : t V) :
  get k m = Some v -> In (k, v) m.
Proof.
  induction m as [|[k0 v0] m IH]; cbn; [done |].
  destruct (String.eqb_spec k0 k) as [->|Hne]; [intros [= ->]; by left | auto].
Qed.


End JsMapMoreFacts.

(** ** Hexadecimal text *)
Module HexFacts.
Import Hex.

Lemma from_hex_byte (b : ascii) (rest : string) :
  from_hex (String (hex_digit (N_of_ascii b / 16))
              (String (hex_digit (N_of_ascii b mod 16)) rest))
  = b :: from_hex rest.
Proof.
  destruct b as [[] [] [] [] [] [] [] []]; reflexivity.
Qed.

Lemma from_hex_to_hex (buf : list ascii) : from_hex (to_hex buf) = buf.
Proof.
  induction buf as [|b buf IH]; [done |].
  cbn [to_hex]. rewrite from_hex_byte. by rewrite IH.
Qed.

Lemma hex_digit_not_colon (n : N) : Ascii.eqb (hex_digit n) ":" = false.
Proof.
  destruct n as [|p]; [reflexivity |].
  do 5 (try (destruct p as [p|p|]; try reflexivity)).
Qed.

End HexFacts.

Module HexSplitFacts.
Import Hex HexFacts.

Lemma to_hex_free_of_colon (buf : list ascii) : free_of ":" (to_hex buf) = true.
Proof.
  induction buf as [|b buf IH]; [done |].
  cbn [to_hex free_of]. by rewrite !hex_digit_not_colon, IH.
Qed.

Lemma split_free (sep : ascii) (s : string) :
  free_of sep s = true -> split sep s = [s].
Proof.
  induction s as [|c s IH]; [done |].
  cbn [free_of split]. destruct (Ascii.eqb c sep); [done |].
  intros Hs. by rewrite (IH Hs).
Qed.

Lemma split_app (sep : ascii) (a b : string) :
  free_of sep a = true ->
  split sep (a +:+ String sep b) = a :: split sep b.
Proof.
  induction a as [|c a IH]; simpl.
  - intros _. by rewrite Ascii.eqb_refl.
  - destruct (Ascii.eqb c sep); [done |]. intros Ha. by rewrite (IH Ha).
Qed.

(** The payload [<iv-hex>:<ciphertext-hex>] splits back into its two parts. *)
Lemma split_payload (iv body : list ascii) :
  split ":" (to_hex iv +:+ ":" +:+ to_hex body) = [to_hex iv; to_hex body].
Proof.
  change (":" +:+ to_hex body) with (String ":" (to_hex body)).
  rewrite split_app by apply to_hex_free_of_colon.
  by rewrite split_free by apply to_hex_free_of_colon.
Qed.

End HexSplitFacts.

(** ** CBC mode *)
Module Aes256CbcFacts.
Import Aes256Cbc.

Lemma xor_ascii_cancel (a b : ascii) : xor_ascii (xor_ascii a b) b = a.
Proof.
  destruct a, b; cbn [xor_ascii].
  by rewrite !xorb_assoc, !xorb_nilpotent, !xorb_false_r.
Qed.

Lemma xor_bytes_cancel (x y : list ascii) :
  length x = length y -> xor_bytes (xor_bytes x y) y = x.
Proof.
  unfold xor_bytes. revert y.
  induction x as [|a x IH]; intros [|b y]; simpl; try done.
  intros [= Hlen]. by rewrite xor_ascii_cancel, IH.
Qed.

Lemma length_xor_bytes (x y : list ascii) :
  length (xor_bytes x y) = min (length x) (length y).
Proof.
  unfold xor_bytes. revert y.
  induction x as [|a x IH]; intros [|b y]; simpl; try done. by rewrite IH.
Qed.

Lemma length_pkcs7_pad (partial : list ascii) :
  block_size <= length (pkcs7_pad partial).
Proof.
  unfold pkcs7_pad. rewrite length_app, length_replicate. lia.
Qed.

Lemma length_pkcs7_pad_short (partial : list ascii) :
  length partial < block_size -> length (pkcs7_pad partial) = block_size.
Proof.
  unfold pkcs7_pad. rewrite length_app, length_replicate. lia.
Qed.

(** Whatever [final] returns is shorter than the block it comes from. *)
Lemma pkcs7_unpad_length (blk out : list ascii) :
  pkcs7_unpad blk = Return out -> length out < length blk.
Proof.
  unfold pkcs7_unpad. destruct (last blk) as [p|] eqn:Hlast; [|done].
  destruct (_ && _) eqn:Hchk; [|done]. intros [= <-].
  apply andb_prop in Hchk as [Hrange _].
  apply andb_prop in Hrange as [Hlo _]. apply Nat.leb_le in Hlo.
  assert (0 < length blk) by (destruct blk; [done | simpl; lia]).
  rewrite length_take. lia.
Qed.

Lemma forallb_replicate_eqb (n : nat) (p : ascii) :
  forallb (Ascii.eqb p) (replicate n p) = true.
Proof. induction n; simpl; [done |]. by rewrite Ascii.eqb_refl. Qed.

Lemma pkcs7_unpad_pad (partial : list ascii) :
  length partial < block_size -> pkcs7_unpad (pkcs7_pad partial) = Return partial.
Proof.
  intros Hlen. unfold pkcs7_unpad, pkcs7_pad.
  set (n := block_size - length partial).
  assert (Hn : 1 <= n <= block_size) by (unfold n; lia).
  assert (Hrep : replicate n (ascii_of_nat n) = replicate (n - 1) (ascii_of_nat n) ++ [ascii_of_nat n]).
  { destruct n as [|n]; [lia |]. simpl. replace (n - 0) with n by lia.
    by rewrite <- replicate_cons_app. }
  rewrite Hrep at 1. rewrite app_assoc, last_snoc.
  rewrite nat_ascii_embedding by (unfold block_size in *; lia).
  rewrite length_app, length_replicate.
  replace (length partial + n - n) with (length partial) by lia.
  rewrite drop_app_length, take_app_length, forallb_replicate_eqb.
  destruct Hn as [Hn1 Hn2].
  apply Nat.leb_le in Hn1, Hn2. by rewrite Hn1, Hn2.
Qed.

Section WithBlockCipher.
Context {BC : BlockCipher}.

Lemma encrypt_blocks_short (fuel : nat) (key chain data : list ascii) :
  length data < block_size ->
  encrypt_blocks fuel key chain data = ([], chain, data).
Proof.
  intros Hlen. destruct fuel; [done |]. cbn [encrypt_blocks].
  destruct (block_size <=? length data) eqn:Hle; [|done].
  apply Nat.leb_le in Hle. lia.
Qed.

Lemma decrypt_blocks_one (fuel : nat) (key chain data : list ascii) :
  length data <= block_size ->
  decrypt_blocks fuel key chain data = ([], chain, data).
Proof.
  intros Hlen. destruct fuel; [done |]. cbn [decrypt_blocks].
  destruct (block_size <? length data) eqn:Hlt; [|done].
  apply Nat.ltb_lt in Hlt. lia.
Qed.

Context {BCL : BlockCipherLaws BC}.

(** The chaining block stays one block long. *)
Lemma encrypt_blocks_chain (fuel : nat) (key chain data : list ascii) :
  length key = key_size -> length chain = block_size ->
  length (encrypt_blocks fuel key chain data).1.2 = block_size.
Proof.
  intros Hkey. revert chain data.
  induction fuel as [|fuel IH]; intros chain data Hchain; [done |].
  cbn [encrypt_blocks].
  destruct (block_size <=? length data) eqn:Hle; [|done].
  apply Nat.leb_le in Hle.
  specialize (IH (encrypt_block key (xor_bytes (take block_size data) chain))
                 (drop block_size data)).
  destruct (encrypt_blocks fuel key _ (drop block_size data)) as [[out chain'] rest].
  cbn in *. apply IH.
  apply encrypt_block_length; [done |].
  rewrite length_xor_bytes, length_take. unfold block_size in *. lia.
Qed.

Lemma length_cipher_final (c : CipherState) :
  length (c_key c) = key_size -> length (c_chain c) = block_size ->
  length (cipher_final c) = block_size.
Proof.
  intros Hkey Hchain. unfold cipher_final.
  apply encrypt_block_length; [done |].
  rewrite length_xor_bytes. pose proof (length_pkcs7_pad (c_buf c)).
  unfold block_size in *. lia.
Qed.

End WithBlockCipher.
End Aes256CbcFacts.

(** ** The secret store *)
Module ApiKeyManagerFacts.
Import ApiKeyManager.

Lemma length_string_of_list_ascii (l : list ascii) :
  String.length (string_of_list_ascii l) = length l.
Proof. induction l as [|a l IH]; simpl; [done | by rewrite IH]. Qed.

Lemma length_list_ascii_of_string (s : string) :
  length (list_ascii_of_string s) = String.length s.
Proof. induction s as [|a s IH]; simpl; [done | by rewrite IH]. Qed.

Lemma createCipheriv_Return (key iv : list ascii) (c : Aes256Cbc.CipherState) :
  Aes256Cbc.createCipheriv key iv = Return c ->
  length key = Aes256Cbc.key_size /\ length iv = Aes256Cbc.block_size
  /\ c = Aes256Cbc.mkCipher key iv [].
Proof.
  unfold Aes256Cbc.createCipheriv.
  destruct (length key =? Aes256Cbc.key_size) eqn:Hk; [|done].
  destruct (length iv =? Aes256Cbc.block_size) eqn:Hi; [|done].
  apply Nat.eqb_eq in Hk, Hi. by intros [= <-].
Qed.

Lemma createCipheriv_ok (key iv : list ascii) :
  length key = Aes256Cbc.key_size -> length iv = Aes256Cbc.block_size ->
  Aes256Cbc.createCipheriv key iv = Return (Aes256Cbc.mkCipher key iv []).
Proof.
  intros Hk Hi. unfold Aes256Cbc.createCipheriv.
  by rewrite Hk, Hi, !Nat.eqb_refl.
Qed.

Section WithBlockCipher.
Context {BC : BlockCipher}.

(** What [encrypt] returns: the iv and the block produced by [final], and
    nothing of what [update] produced. *)
Lemma encrypt_Return (key : string) (iv : list ascii) (text payload : string) :
  encrypt key iv text = Return payload ->
  String.length key = Aes256Cbc.key_size /\ length iv = Aes256Cbc.block_size /\
  payload = Hex.to_hex iv +:+ ":" +:+
    Hex.to_hex (Aes256Cbc.cipher_final
      (Aes256Cbc.cipher_update
         (Aes256Cbc.mkCipher (list_ascii_of_string key) iv [])
         (list_ascii_of_string text)).2).
Proof.
  unfold encrypt.
  destruct (Aes256Cbc.createCipheriv _ iv) as [c|e] eqn:Hc; [|done].
  apply createCipheriv_Return in Hc as (Hk & Hi & ->).
  rewrite length_list_ascii_of_string in Hk.
  cbn [mbind outcome_bind mret outcome_ret].
  destruct (Aes256Cbc.cipher_update _ _) as [updated cipher].
  cbn [snd]. by intros [= <-].
Qed.

(** Decrypting a payload that carries exactly one block. *)
Lemma decrypt_one_block (key : string) (iv body : list ascii) :
  String.length key = Aes256Cbc.key_size ->
  length iv = Aes256Cbc.block_size -> length body = Aes256Cbc.block_size ->
  decrypt key (Hex.to_hex iv +:+ ":" +:+ Hex.to_hex body)
  = (final ← Aes256Cbc.pkcs7_unpad
       (Aes256Cbc.xor_bytes (decrypt_block (list_ascii_of_string key) body) iv);
     mret (string_of_list_ascii final)).
Proof.
  intros Hk Hi Hb. unfold decrypt.
  rewrite HexSplitFacts.split_payload. cbn [lookup list_lookup mbind outcome_bind].
  rewrite !HexFacts.from_hex_to_hex.
  unfold Aes256Cbc.createDecipheriv.
  rewrite createCipheriv_ok by (by rewrite ?length_list_ascii_of_string).
  rewrite bind_Return. unfold Aes256Cbc.decipher_update.
  cbn [Aes256Cbc.c_buf Aes256Cbc.c_key Aes256Cbc.c_chain app].
  rewrite Aes256CbcFacts.decrypt_blocks_one by lia.
  unfold Aes256Cbc.decipher_final. cbn [Aes256Cbc.c_buf Aes256Cbc.c_key Aes256Cbc.c_chain].
  by rewrite Hb, Nat.eqb_refl.
Qed.

Context {BCL : BlockCipherLaws BC}.

Lemma encrypt_Return_block (key : string) (iv : list ascii) (text payload : string) :
  encrypt key iv text = Return payload ->
  exists body, length body = Aes256Cbc.block_size /\
    payload = Hex.to_hex iv +:+ ":" +:+ Hex.to_hex body.
Proof.
  intros Henc. apply encrypt_Return in Henc as (Hk & Hi & ->).
  eexists; split; [|reflexivity].
  unfold Aes256Cbc.cipher_update. cbn [Aes256Cbc.c_buf Aes256Cbc.c_key Aes256Cbc.c_chain app].
  pose proof (Aes256CbcFacts.encrypt_blocks_chain
    (length (list_ascii_of_string text)) (list_ascii_of_string key) iv
    (list_ascii_of_string text)) as Hchain.
  destruct (Aes256Cbc.encrypt_blocks _ _ _ _) as [[out chain'] rest]; cbn in *.
  apply Aes256CbcFacts.length_cipher_final; cbn.
  - by rewrite length_list_ascii_of_string.
  - apply Hchain; [by rewrite length_list_ascii_of_string | done].
Qed.

(** Whatever [decrypt] makes of a payload written by [encrypt], it is
    shorter than one block. *)
Lemma decrypt_encrypt_length (key : string) (iv : list ascii)
    (text payload out : string) :
  encrypt key iv text = Return payload ->
  decrypt key payload = Return out ->
  String.length out < Aes256Cbc.block_size.
Proof.
  intros Henc Hdec.
  destruct (encrypt_Return_block _ _ _ _ Henc) as (body & Hbody & ->).
  apply encrypt_Return in Henc as (Hk & Hi & _).
  rewrite decrypt_one_block in Hdec by done.
  destruct (Aes256Cbc.pkcs7_unpad _) as [final|e] eqn:Hun; [|done].
  cbn in Hdec. injection Hdec as <-.
  apply Aes256CbcFacts.pkcs7_unpad_length in Hun.
  rewrite Aes256CbcFacts.length_xor_bytes in Hun.
  rewrite length_string_of_list_ascii. lia.
Qed.

(** A plaintext shorter than one block does come back. *)
Lemma decrypt_encrypt_short (key : string) (iv : list ascii) (text : string) :
  String.length key = Aes256Cbc.key_size -> length iv = Aes256Cbc.block_size ->
  String.length text < Aes256Cbc.block_size ->
  exists payload, encrypt key iv text = Return payload /\
    decrypt key payload = Return text.
Proof.
  intros Hk Hi Ht. unfold encrypt.
  rewrite createCipheriv_ok by (by rewrite ?length_list_ascii_of_string).
  rewrite bind_Return. unfold Aes256Cbc.cipher_update.
  cbn [Aes256Cbc.c_buf Aes256Cbc.c_key Aes256Cbc.c_chain app].
  rewrite Aes256CbcFacts.encrypt_blocks_short
    by (by rewrite length_list_ascii_of_string).
  eexists; split; [reflexivity |].
  unfold Aes256Cbc.cipher_final.
  cbn [Aes256Cbc.c_buf Aes256Cbc.c_key Aes256Cbc.c_chain].
  set (padded := Aes256Cbc.pkcs7_pad (list_ascii_of_string text)).
  assert (Hpad : length padded = Aes256Cbc.block_size).
  { apply Aes256CbcFacts.length_pkcs7_pad_short.
    by rewrite length_list_ascii_of_string. }
  assert (Hx : length (Aes256Cbc.xor_bytes padded iv) = Aes256Cbc.block_size).
  { rewrite Aes256CbcFacts.length_xor_bytes. lia. }
  rewrite decrypt_one_block; [|done|done|].
  - rewrite decrypt_encrypt_block
      by (by rewrite ?length_list_ascii_of_string).
    rewrite Aes256CbcFacts.xor_bytes_cancel by lia.
    unfold padded. rewrite Aes256CbcFacts.pkcs7_unpad_pad
      by (by rewrite length_list_ascii_of_string).
    cbn. by rewrite string_of_list_ascii_of_string.
  - apply encrypt_block_length; [by rewrite length_list_ascii_of_string | done].
Qed.

End WithBlockCipher.
End ApiKeyManagerFacts.

Module FixtureFacts.

#[global] Instance xor_cipher_laws : BlockCipherLaws Fixtures.xor_cipher.
Proof.
  split; intros key blk Hk Hb; cbn [encrypt_block decrypt_block Fixtures.xor_cipher].
  - rewrite Aes256CbcFacts.length_xor_bytes, length_take. lia.
  - apply Aes256CbcFacts.xor_bytes_cancel.
    rewrite length_take. lia.
Qed.

End FixtureFacts.

Module ApiKeyManagerSpec.
Import ApiKeyManager ApiKeyManagerFacts.

Section WithBlockCipher.
Context {BC : BlockCipher} {BCL : BlockCipherLaws BC}.

(** C1 (the code departs from the claim).  A plaintext of one block or more
    (16 bytes of UTF-8) never comes back from [getKey]: [encrypt] keeps the
    block of [cipher.final()] only, so whatever [decrypt] returns is shorter
    than the plaintext. *)
Theorem addKey_getKey_long_plaintext_lost
    (amb1 amb2 : Ambient) (name provider apiKey : string) (w w1 : World)
    (k : StoredApiKey) :
  Aes256Cbc.block_size <= String.length apiKey ->
  addKey amb1 name provider apiKey w = (Return k, w1) ->
  (getKey amb2 (id k) w1).1 <> Return (Some apiKey).
Proof.
  intros Hlen Hadd. unfold addKey in Hadd.
  destruct (encrypt _ _ apiKey) as [payload|e] eqn:Henc; [|done].
  unfold saveKeys in Hadd.
  destruct (write_error amb1); [done |]. injection Hadd as <- <-.
  unfold getKey. cbn [id manager keys with_keys encryptionKey encryptedKey].
  rewrite JsMapFacts.get_set_eq. cbn [encryptedKey].
  destruct (decrypt _ payload) as [out|e] eqn:Hdec; [|done].
  pose proof (decrypt_encrypt_length _ _ _ _ _ Henc Hdec) as Hout.
  unfold saveKeys. destruct (write_error amb2); [done |].
  cbn [fst]. intros [= ->]. lia.
Qed.

(** The round trip of C1 on the plaintexts where the code does achieve it:
    fewer than 16 bytes, with both writes accepted by the file system. *)
Theorem addKey_getKey_short_plaintext
    (amb1 amb2 : Ambient) (name provider apiKey : string) (w : World) :
  String.length (encryptionKey (manager w)) = Aes256Cbc.key_size ->
  length (random_iv amb1) = Aes256Cbc.block_size ->
  String.length apiKey < Aes256Cbc.block_size ->
  write_error amb1 = None -> write_error amb2 = None ->
  exists k w1, addKey amb1 name provider apiKey w = (Return k, w1)
    /\ (getKey amb2 (id k) w1).1 = Return (Some apiKey).
Proof.
  intros Hk Hi Ht Hw1 Hw2.
  destruct (decrypt_encrypt_short _ _ _ Hk Hi Ht) as (payload & Henc & Hdec).
  unfold addKey. rewrite Henc. unfold saveKeys. rewrite Hw1.
  do 2 eexists; split; [reflexivity |].
  unfold getKey. cbn [id manager keys with_keys encryptionKey encryptedKey].
  rewrite JsMapFacts.get_set_eq. cbn [encryptedKey]. rewrite Hdec.
  unfold saveKeys. by rewrite Hw2.
Qed.

(** C3, as the code has it.  When the write fails, each of [addKey],
    [updateKey] and [deleteKey] throws what the write threw, and the index in
    memory is the mutated one, the one a successful write leaves: the new
    record is under its id, the updated record holds the new ciphertext and
    [lastUsed], the deleted record is gone.  The file is as the failed write
    left it: untouched if the failure came before the open, without its
    previous content after it. *)
Theorem failed_write_rethrown_mutation_kept
    (amb : Ambient) (failure : WriteFailure) (name provider apiKey i : string)
    (w : World) :
  write_error amb = Some failure ->
  let ok := mkAmbient (random_id amb) (random_iv amb) (now amb) None in
  let left_on_disk (w' : World) :=
    match stage failure with
    | BeforeOpen => disk w
    | DuringWrite => None
    | AfterWrite => Some (JsMap.values (keys (manager w')))
    end in
  (forall payload,
     encrypt (encryptionKey (manager w)) (random_iv amb) apiKey = Return payload ->
     let k := mkStoredApiKey (Hex.to_hex (random_id amb)) name provider payload
                (now amb) None in
     exists w', addKey amb name provider apiKey w = (Throw (thrown failure), w')
       /\ manager w' = manager (addKey ok name provider apiKey w).2
       /\ keys (manager w') = JsMap.set (id k) k (keys (manager w))
       /\ JsMap.get (id k) (keys (manager w')) = Some k
       /\ disk w' = left_on_disk w')
  /\ (forall k0 payload,
     JsMap.get i (keys (manager w)) = Some k0 ->
     encrypt (encryptionKey (manager w)) (random_iv amb) apiKey = Return payload ->
     let k := mkStoredApiKey (id k0) (ApiKeyManager.name k0)
                (ApiKeyManager.provider k0) payload (createdAt k0)
                (Some (now amb)) in
     exists w', updateKey amb i apiKey w = (Throw (thrown failure), w')
       /\ manager w' = manager (updateKey ok i apiKey w).2
       /\ keys (manager w') = JsMap.set i k (keys (manager w))
       /\ JsMap.get i (keys (manager w')) = Some k
       /\ disk w' = left_on_disk w')
  /\ (forall k0,
     JsMap.get i (keys (manager w)) = Some k0 ->
     exists w', deleteKey amb i w = (Throw (thrown failure), w')
       /\ manager w' = manager (deleteKey ok i w).2
       /\ keys (manager w') = JsMap.delete i (keys (manager w))
       /\ JsMap.get i (keys (manager w')) = None
       /\ disk w' = left_on_disk w').
Proof.
  intros Hfail ok left_on_disk. unfold left_on_disk. split; [| split].
  - intros payload Henc. unfold addKey. cbn [random_id random_iv now ok].
    rewrite Henc. unfold saveKeys. rewrite Hfail. cbn [write_error ok].
    eexists. split; [reflexivity |]. cbn [snd manager keys with_keys disk].
    split; [done |]. split; [done |].
    split; [apply JsMapFacts.get_set_eq |]. by destruct (stage failure).
  - intros k0 payload Hget Henc. unfold updateKey.
    cbn [random_id random_iv now ok]. rewrite Hget, Henc.
    unfold saveKeys. rewrite Hfail. cbn [write_error ok].
    eexists. split; [reflexivity |]. cbn [snd manager keys with_keys disk].
    split; [done |]. split; [done |].
    split; [apply JsMapFacts.get_set_eq |]. by destruct (stage failure).
  - intros k0 Hget. unfold deleteKey. rewrite Hget.
    unfold saveKeys. rewrite Hfail. cbn [write_error ok].
    eexists. split; [reflexivity |]. cbn [snd manager keys with_keys disk].
    split; [done |]. split; [done |].
    split; [apply JsMapFacts.get_delete_eq |]. by destruct (stage failure).
Qed.

End WithBlockCipher.

Section WithBlockCipher.
Context {BC : BlockCipher}.


End WithBlockCipher.

End ApiKeyManagerSpec.

(** ** The secret store on concrete inputs *)
Module ApiKeyManagerRuns.
Import ApiKeyManager Fixtures.

(** A 19-byte credential is stored as a single block of ciphertext, and
    reading it back fails in [decipher.final()]. *)
Example addKey_long_payload :
  (addKey calm "main" "openai" "sk-0123456789abcdef" empty_store).1
  = Return (mkStoredApiKey "4142434445464748494a4b4c4d4e4f50" "main" "openai"
      "7172737475767778797a303132333435:667c38494949494141410a04065f5b5b"
      1700000000000 None).
Proof. reflexivity. Qed.

Example getKey_long_bad_decrypt :
  (getKey calm "4142434445464748494a4b4c4d4e4f50"
     (addKey calm "main" "openai" "sk-0123456789abcdef" empty_store).2).1
  = Throw (ErrorObject "bad decrypt").
Proof. reflexivity. Qed.

Example getKey_short_round_trip :
  (getKey calm "4142434445464748494a4b4c4d4e4f50"
     (addKey calm "main" "openai" "short-key" empty_store).2).1
  = Return (Some "short-key").
Proof. reflexivity. Qed.

Lemma addKey_getKey_long_plaintext_lost_witness :
  exists k w1,
    addKey calm "main" "openai" "sk-0123456789abcdef" empty_store = (Return k, w1)
    /\ (getKey calm (id k) w1).1 <> Return (Some "sk-0123456789abcdef").
Proof.
  eexists _, _. split; [reflexivity |].
  apply (ApiKeyManagerSpec.addKey_getKey_long_plaintext_lost
           calm calm "main" "openai" "sk-0123456789abcdef" empty_store).
  - vm_compute. lia.
  - reflexivity.
Defined.

Lemma addKey_getKey_short_plaintext_witness :
  exists k w1,
    addKey calm "main" "openai" "short-key" empty_store = (Return k, w1)
    /\ (getKey calm (id k) w1).1 = Return (Some "short-key").
Proof.
  apply (ApiKeyManagerSpec.addKey_getKey_short_plaintext
           calm calm "main" "openai" "short-key" empty_store);
    first [reflexivity | vm_compute; lia].
Defined.

(** C3 fails as stated: the write is refused, [addKey] throws, and the new
    record is in the index all the same (and not in the file). *)
Lemma addKey_failed_write_not_rolled_back :
  (addKey disk_full "main" "openai" "short-key" empty_store).1
    = Throw (ErrorObject "ENOSPC: no space left on device, write")
  /\ JsMap.get "4142434445464748494a4b4c4d4e4f50" (keys (manager empty_store)) = None
  /\ JsMap.get "4142434445464748494a4b4c4d4e4f50"
       (keys (manager (addKey disk_full "main" "openai" "short-key" empty_store).2))
     = Some (mkStoredApiKey "4142434445464748494a4b4c4d4e4f50" "main" "openai"
         "7172737475767778797a303132333435:322b2e35356e2a2a3844565456505654"
         1700000000000 None)
  /\ disk (addKey disk_full "main" "openai" "short-key" empty_store).2 = None.
Proof. repeat split. Qed.

(** On a store that holds one record, with a disk that fills up during the
    write: each mutation throws, memory holds the mutated index, and the key
    file has lost what it held. *)
Lemma failed_write_rethrown_mutation_kept_witness :
  disk Scenarios.one_key
    = Some [mkStoredApiKey Scenarios.one_key_id "main" "openai"
              Scenarios.short_payload 1700000000000 None]
  /\ (exists w',
        addKey Scenarios.later_disk_full "spare" "openai" "other-key" Scenarios.one_key
          = (Throw Scenarios.no_space, w')
        /\ JsMap.keys (keys (manager w')) = [Scenarios.one_key_id; Scenarios.spare_id]
        /\ JsMap.get Scenarios.spare_id (keys (manager w'))
           = Some (mkStoredApiKey Scenarios.spare_id "spare" "openai"
                     Scenarios.other_payload 1700000000500 None)
        /\ disk w' = None)
  /\ (exists w',
        updateKey Scenarios.later_disk_full Scenarios.one_key_id "other-key"
          Scenarios.one_key
          = (Throw Scenarios.no_space, w')
        /\ JsMap.get Scenarios.one_key_id (keys (manager w'))
           = Some (mkStoredApiKey Scenarios.one_key_id "main" "openai"
                     Scenarios.other_payload 1700000000000 (Some 1700000000500%Z))
        /\ disk w' = None)
  /\ (exists w',
        deleteKey Scenarios.later_disk_full Scenarios.one_key_id Scenarios.one_key
          = (Throw Scenarios.no_space, w')
        /\ keys (manager w') = JsMap.empty
        /\ disk w' = None).
Proof.
  split; [reflexivity |].
  destruct (ApiKeyManagerSpec.failed_write_rethrown_mutation_kept
              Scenarios.later_disk_full
              (mkWriteFailure Scenarios.no_space DuringWrite)
              "spare" "openai" "other-key" Scenarios.one_key_id Scenarios.one_key
              eq_refl) as (Hadd & Hupdate & Hdelete).
  split; [| split].
  - destruct (Hadd Scenarios.other_payload eq_refl)
      as (w' & Hthrow & _ & Hkeys & Hget & Hdisk).
    exists w'. split; [exact Hthrow |]. split; [by rewrite Hkeys |].
    split; [exact Hget | exact Hdisk].
  - destruct (Hupdate
                (mkStoredApiKey Scenarios.one_key_id "main" "openai"
                   Scenarios.short_payload 1700000000000 None)
                Scenarios.other_payload eq_refl eq_refl)
      as (w' & Hthrow & _ & _ & Hget & Hdisk).
    exists w'. split; [exact Hthrow |]. split; [exact Hget | exact Hdisk].
  - destruct (Hdelete
                (mkStoredApiKey Scenarios.one_key_id "main" "openai"
                   Scenarios.short_payload 1700000000000 None)
                eq_refl)
      as (w' & Hthrow & _ & Hkeys & _ & Hdisk).
    exists w'. split; [exact Hthrow |]. split; [by rewrite Hkeys | exact Hdisk].
Defined.



End ApiKeyManagerRuns.

(** ** The tool registry *)
Module PluginManagerFacts.
Import PluginManager.

Section WithHost.
Context {E : Type} {host : Host E}.

(** After the loop of [registerPlugin], a name resolves to the last tool of
    the list that bears it, and to what it resolved to before when the list has
    none. *)
Lemma get_set_tools (n : string) (ts : list (Tool.t E)) (m : JsMap.t (Tool.t E)) :
  JsMap.get n (set_tools ts m)
  = match last (filter (fun t => Tool.name t = n) ts) with
    | Some t => Some t
    | None => JsMap.get n m
    end.
Proof.
  unfold set_tools. revert m.
  induction ts as [|t ts IH]; intros m; [done |].
  cbn [fold_left]. rewrite IH. rewrite filter_cons.
  destruct (decide (Tool.name t = n)) as [<-|Hne].
  - rewrite last_cons. rewrite JsMapFacts.get_set_eq.
    by destruct (last (filter _ ts)).
  - by rewrite JsMapFacts.get_set_ne.
Qed.

(** After the loop of [unregisterPlugin], every name of the list is gone. *)
Lemma get_delete_tools (n : string) (ts : list (Tool.t E)) (m : JsMap.t (Tool.t E)) :
  JsMap.get n (delete_tools ts m)
  = if existsb (fun t => String.eqb (Tool.name t) n) ts then None
    else JsMap.get n m.
Proof.
  unfold delete_tools. revert m.
  induction ts as [|t ts IH]; intros m; [done |].
  cbn [fold_left existsb]. rewrite IH.
  destruct (String.eqb_spec (Tool.name t) n) as [<-|Hne]; cbn [orb].
  - rewrite JsMapFacts.get_delete_eq. by destruct (existsb _ ts).
  - by rewrite JsMapFacts.get_delete_ne.
Qed.

Lemma executeTool_not_found (toolName : string) (params : JsVal) (pm : t E) (e : E) :
  JsMap.get toolName (tools pm) = None ->
  executeTool toolName params pm e
  = (Throw (ErrorObject ("Tool not found: " +:+ toolName)), e).
Proof. unfold executeTool. by intros ->. Qed.

End WithHost.
End PluginManagerFacts.

Module PluginManagerSpec.
Import PluginManager PluginManagerFacts.

Section WithHost.
Context {E : Type} {host : Host E}.

(** C7.  For a name that is not registered, [executeTool] throws an [Error]
    whose message is ["Tool not found: "] followed by the name, leaves the host
    untouched, and so resolves to no result object at all. *)
Theorem executeTool_unregistered_throws
    (toolName : string) (params : JsVal) (pm : t E) (e : E) :
  getTool toolName pm = None ->
  executeTool toolName params pm e
    = (Throw (ErrorObject ("Tool not found: " +:+ toolName)), e)
  /\ forall x, (executeTool toolName params pm e).1 <> Return x.
Proof.
  unfold getTool. intros Hnone.
  rewrite (executeTool_not_found _ _ _ _ Hnone). by split.
Qed.

(** C2, as the code has it.  When the executor of a registered tool throws,
    [executeTool] throws the same value to its caller, with the host as the
    executor left it. *)
Theorem executeTool_rethrows
    (toolName : string) (params : JsVal) (pm : t E) (e e' : E)
    (tool : Tool.t E) (error : JsThrown) :
  getTool toolName pm = Some tool ->
  Tool.execute tool params e = (Throw error, e') ->
  executeTool toolName params pm e = (Throw error, e').
Proof.
  unfold getTool, executeTool. intros -> Hexec. by rewrite Hexec.
Qed.

(** For a registered tool whose executor returns, [executeTool] returns the
    result with the elapsed time. *)
Lemma executeTool_returns
    (toolName : string) (params : JsVal) (pm : t E) (e e' : E)
    (tool : Tool.t E) (r : ToolResult.t) :
  getTool toolName pm = Some tool ->
  Tool.execute tool params e = (Return r, e') ->
  executeTool toolName params pm e
    = (Return (mkExecuted r (Date_now e' - Date_now e)), e').
Proof.
  unfold getTool, executeTool. intros -> Hexec. by rewrite Hexec.
Qed.

(** C10.  [registerPlugin] makes each name of the plugin resolve to the
    plugin's (last) tool of that name, whatever it resolved to before; and
    after [unregisterPlugin], a name the plugin listed resolves to nothing and
    [executeTool] throws for it, also when another plugin that declares a tool
    of that name is still registered. *)
Theorem tool_name_collision
    (pm : t E) (e : E) (p q : Plugin.t E) (pname qname n : string)
    (tp tq : Tool.t E) (params : JsVal) :
  getPlugin pname pm = Some p -> getPlugin qname pm = Some q -> pname <> qname ->
  In tp (Plugin.tools p) -> Tool.name tp = n ->
  In tq (Plugin.tools q) -> Tool.name tq = n ->
  (forall (r : Plugin.t E) (pm0 : t E) m,
     getTool m (registerPlugin r pm0)
     = match last (filter (fun t => Tool.name t = m) (Plugin.tools r)) with
       | Some t => Some t
       | None => getTool m pm0
       end)
  /\ getPlugin qname (unregisterPlugin pname pm e).1 = Some q
  /\ getPlugin pname (unregisterPlugin pname pm e).1 = None
  /\ getTool n (unregisterPlugin pname pm e).1 = None
  /\ forall e', executeTool n params (unregisterPlugin pname pm e).1 e'
       = (Throw (ErrorObject ("Tool not found: " +:+ n)), e').
Proof.
  intros Hp Hq Hne Htp Hntp Htq Hntq.
  split; [intros r pm0 m; apply get_set_tools |].
  unfold getPlugin in *. unfold unregisterPlugin. rewrite Hp.
  assert (Hgone : getTool n (mk (JsMap.delete pname (plugins pm))
                     (delete_tools (Plugin.tools p) (tools pm))
                     (pluginsDirectory pm)) = None).
  { unfold getTool. cbn [tools]. rewrite get_delete_tools.
    assert (Hex : existsb (fun t => String.eqb (Tool.name t) n) (Plugin.tools p) = true).
    { apply existsb_exists. exists tp. split; [done |]. by apply String.eqb_eq. }
    by rewrite Hex. }
  cbn [fst plugins]. repeat split.
  - by rewrite JsMapFacts.get_delete_ne.
  - apply JsMapFacts.get_delete_eq.
  - done.
  - intros e'. by apply executeTool_not_found.
Qed.

End WithHost.
End PluginManagerSpec.

(** ** The tool registry on concrete inputs *)
Module PluginManagerRuns.
Import PluginManager Fixtures.

Example dispatch_get_time :
  (executeTool "get_time" (JsObj []) clock_only quiet).1
  = Return (mkExecuted
      (ToolResult.mk true (Some (JsObj [("now", JsStr "2024-01-01T00:00:00Z")])) None None)
      2).
Proof. reflexivity. Qed.

Lemma executeTool_unregistered_throws_witness :
  executeTool "missing_tool" (JsObj []) clock_only quiet
    = (Throw (ErrorObject "Tool not found: missing_tool"), quiet)
  /\ forall x, (executeTool "missing_tool" (JsObj []) clock_only quiet).1 <> Return x.
Proof.
  apply (PluginManagerSpec.executeTool_unregistered_throws
           "missing_tool" (JsObj []) clock_only quiet).
  reflexivity.
Defined.

(** C2 fails as stated: [failing_tool] is registered, its executor throws,
    and [executeTool] throws as well instead of returning a result with
    [success: false]. *)
Lemma executeTool_throw_escapes :
  getTool "failing_tool" two_plugins = Some failing_tool
  /\ executeTool "failing_tool" (JsObj []) two_plugins quiet
     = (Throw (ErrorObject "boom"), mkEnv 1002 [] ["failing_tool"]).
Proof. split; reflexivity. Qed.

Lemma executeTool_rethrows_witness :
  executeTool "failing_tool" (JsObj []) two_plugins quiet
  = (Throw (ErrorObject "boom"), mkEnv 1002 [] ["failing_tool"]).
Proof.
  apply (PluginManagerSpec.executeTool_rethrows
           "failing_tool" (JsObj []) two_plugins quiet _ failing_tool);
    reflexivity.
Defined.

(** [beta] registered last, so [echo_tool] is beta's. *)
Example last_registered_wins :
  (executeTool "echo_tool" (JsObj []) two_plugins quiet).1
  = Throw (ErrorObject "beta's echo").
Proof. reflexivity. Qed.

Lemma tool_name_collision_witness :
  getPlugin "alpha" (unregisterPlugin "beta" two_plugins quiet).1
    = Some (plugin "alpha" [echo_tool])
  /\ getTool "echo_tool" (unregisterPlugin "beta" two_plugins quiet).1 = None
  /\ executeTool "echo_tool" (JsObj []) (unregisterPlugin "beta" two_plugins quiet).1 quiet
     = (Throw (ErrorObject "Tool not found: echo_tool"), quiet).
Proof.
  destruct (PluginManagerSpec.tool_name_collision two_plugins quiet
              (plugin "beta" [failing_tool; beta_echo])
              (plugin "alpha" [echo_tool]) "beta" "alpha" "echo_tool"
              beta_echo echo_tool (JsObj []))
    as (_ & Hq & _ & Hn & Hx).
  - reflexivity.
  - reflexivity.
  - discriminate.
  - right. left. reflexivity.
  - reflexivity.
  - left. reflexivity.
  - reflexivity.
  - exact (conj Hq (conj Hn (Hx quiet))).
Defined.

End PluginManagerRuns.

(** ** The provider registry *)
Module AIProviderManagerSpec.
Import AIProviderManager.

Section WithHost.
Context {E : Type}.

(** C5 (the code departs from the claim).  With an active client that has
    no [streamChat] of its own, and a [chat] call that returns, the stream is
    one chunk: it carries the content of the [chat] response and has
    [done: true], and nothing follows it.  No chunk has [done: false], so the
    stream is not the content chunk followed by a separate done marker that
    the claim describes and that the providers' own [streamChat] produce. *)
Theorem streamChat_fallback_one_done_chunk
    (m : t E) (client : AIProviderClient.t E) (messages : list AIMessage.t)
    (tools : option (list JsVal)) (e e' : E) (response : AIResponse.t) :
  currentProvider m = Some client ->
  AIProviderClient.streamChat client = None ->
  AIProviderClient.chat client messages tools e = (Return response, e') ->
  let stream := (streamChat messages tools m e).1 in
  chat messages tools m e = (Return response, e')
  /\ streamChat messages tools m e
     = (Generated.mk [AIStreamChunk.mk (AIResponse.content response) true] (Return tt), e')
  /\ (forall chunk, In chunk (Generated.yielded stream) -> AIStreamChunk.done chunk = true)
  /\ Generated.yielded stream
     <> [AIStreamChunk.mk (AIResponse.content response) false; AIStreamChunk.mk "" true].
Proof.
  unfold chat, streamChat. intros -> -> ->. cbn. repeat split; try done.
  by intros chunk [<- | []].
Qed.

(** When the [chat] call throws, the synthesized stream yields nothing and
    throws the same value. *)
Lemma streamChat_fallback_throws
    (m : t E) (client : AIProviderClient.t E) (messages : list AIMessage.t)
    (tools : option (list JsVal)) (e e' : E) (error : JsThrown) :
  currentProvider m = Some client ->
  AIProviderClient.streamChat client = None ->
  AIProviderClient.chat client messages tools e = (Throw error, e') ->
  streamChat messages tools m e = (Generated.mk [] (Throw error), e').
Proof.
  unfold streamChat. by intros -> -> ->.
Qed.

End WithHost.
End AIProviderManagerSpec.

Module AIProviderManagerRuns.
Import AIProviderManager Fixtures.

(** The run that shows it: the only chunk has [done: true], and no separate
    marker follows. *)
Lemma streamChat_fallback_no_separate_marker :
  (chat hello None with_plain quiet).1 = Return (AIResponse.mk "Hello there" None None)
  /\ Generated.yielded (streamChat hello None with_plain quiet).1
     = [AIStreamChunk.mk "Hello there" true]
  /\ Generated.completion (streamChat hello None with_plain quiet).1 = Return tt.
Proof. repeat split. Qed.

Lemma streamChat_fallback_one_done_chunk_witness :
  chat hello None with_plain quiet
    = (Return (AIResponse.mk "Hello there" None None), quiet)
  /\ streamChat hello None with_plain quiet
     = (Generated.mk [AIStreamChunk.mk "Hello there" true] (Return tt), quiet)
  /\ (forall chunk,
        In chunk (Generated.yielded (streamChat hello None with_plain quiet).1) ->
        AIStreamChunk.done chunk = true)
  /\ Generated.yielded (streamChat hello None with_plain quiet).1
     <> [AIStreamChunk.mk "Hello there" false; AIStreamChunk.mk "" true].
Proof.
  apply (AIProviderManagerSpec.streamChat_fallback_one_done_chunk
           with_plain plain_client hello None quiet quiet
           (AIResponse.mk "Hello there" None None)); reflexivity.
Defined.

End AIProviderManagerRuns.

(** ** The orchestrator *)
Module AIAssistantFacts.
Import AIAssistant.

Section WithHost.
Context {E : Type} {host : Host E} {package : OpenAIPackage E}.

(** *** Pushing onto a transcript *)

Lemma lookup_push_message_eq (ref : nat) (m : Message.t) (s : System E) :
  heap (assistant (push_message ref m s)) !! ref
  = ConversationContext.push m <$> heap (assistant s) !! ref.
Proof. cbn. apply list_lookup_alter_eq. Qed.

Lemma lookup_push_message_ne (ref ref' : nat) (m : Message.t) (s : System E) :
  ref <> ref' ->
  heap (assistant (push_message ref m s)) !! ref' = heap (assistant s) !! ref'.
Proof. intros Hne. cbn. by apply list_lookup_alter_ne. Qed.

Lemma messages_at_push_message (ref : nat) (m : Message.t) (s : System E) :
  ref < length (heap (assistant s)) ->
  messages_at ref (push_message ref m s) = messages_at ref s ++ [m].
Proof.
  intros Hlt. unfold messages_at. rewrite lookup_push_message_eq.
  apply lookup_lt_is_Some_2 in Hlt as [c ->]. reflexivity.
Qed.

Lemma tools_at_push_message (ref ref' : nat) (m : Message.t) (s : System E) :
  tools_at ref' (push_message ref m s) = tools_at ref' s.
Proof.
  unfold tools_at. destruct (decide (ref = ref')) as [<-|Hne].
  - rewrite lookup_push_message_eq. by destruct (heap (assistant s) !! ref).
  - by rewrite lookup_push_message_ne.
Qed.

Lemma length_heap_push_message (ref : nat) (m : Message.t) (s : System E) :
  length (heap (assistant (push_message ref m s))) = length (heap (assistant s)).
Proof. cbn. apply length_alter. Qed.

Lemma env_push_tool_messages (ref : nat) (rs : list ToolResponse.t) (s : System E) :
  env (push_tool_messages ref rs s) = env s.
Proof.
  unfold push_tool_messages. revert s.
  induction rs as [|r rs IH]; intros s; [done |]. cbn [fold_left]. by rewrite IH.
Qed.

Lemma conversations_push_tool_messages (ref : nat) (rs : list ToolResponse.t)
    (s : System E) :
  conversations (assistant (push_tool_messages ref rs s)) = conversations (assistant s)
  /\ pluginManager (push_tool_messages ref rs s) = pluginManager s
  /\ openai (assistant (push_tool_messages ref rs s)) = openai (assistant s)
  /\ config (assistant (push_tool_messages ref rs s)) = config (assistant s)
  /\ length (heap (assistant (push_tool_messages ref rs s))) = length (heap (assistant s)).
Proof.
  unfold push_tool_messages. revert s.
  induction rs as [|r rs IH]; intros s; [done |]. cbn [fold_left].
  destruct (IH (push_message ref (tool_message r (env s)) s)) as (-> & -> & -> & -> & ->).
  repeat split. apply length_heap_push_message.
Qed.

Lemma lookup_push_tool_messages_ne (ref ref' : nat) (rs : list ToolResponse.t)
    (s : System E) :
  ref <> ref' ->
  heap (assistant (push_tool_messages ref rs s)) !! ref' = heap (assistant s) !! ref'.
Proof.
  intros Hne. unfold push_tool_messages. revert s.
  induction rs as [|r rs IH]; intros s; [done |]. cbn [fold_left].
  rewrite IH. by apply lookup_push_message_ne.
Qed.

Lemma messages_at_push_tool_messages (ref : nat) (rs : list ToolResponse.t)
    (s : System E) :
  ref < length (heap (assistant s)) ->
  messages_at ref (push_tool_messages ref rs s)
  = messages_at ref s ++ map (fun r => tool_message r (env s)) rs.
Proof.
  unfold push_tool_messages. revert s.
  induction rs as [|r rs IH]; intros s Hlt; cbn [fold_left map].
  - by rewrite app_nil_r.
  - rewrite IH by (by rewrite length_heap_push_message).
    rewrite messages_at_push_message by done.
    by rewrite <- app_assoc.
Qed.

Lemma tools_at_push_tool_messages (ref ref' : nat) (rs : list ToolResponse.t)
    (s : System E) :
  tools_at ref' (push_tool_messages ref rs s) = tools_at ref' s.
Proof.
  unfold push_tool_messages. revert s.
  induction rs as [|r rs IH]; intros s; [done |]. cbn [fold_left].
  rewrite IH. apply tools_at_push_message.
Qed.

(** *** The loop over the tool calls *)

Lemma loop_from (toolCalls : list ToolCall.t) (pm : PluginManager.t E)
    (acc : list ToolResponse.t) (e : E) :
  fold_left (loop_turn pm) toolCalls (acc, e)
  = (acc ++ (executeToolCalls toolCalls pm e).1, (executeToolCalls toolCalls pm e).2).
Proof.
  unfold executeToolCalls. revert acc e.
  induction toolCalls as [|tc tcs IH]; intros acc e; cbn [fold_left].
  - by rewrite app_nil_r.
  - unfold loop_turn at 2 4 6. cbn [fst snd].
    destruct (executeToolCall pm tc e) as [r e1]. cbn [app].
    rewrite (IH (acc ++ [r])), (IH [r]). cbn [fst snd].
    by rewrite <- app_assoc.
Qed.

(** The first call runs first, and the others run in the host it leaves. *)
Lemma executeToolCalls_cons (tc : ToolCall.t) (tcs : list ToolCall.t)
    (pm : PluginManager.t E) (e : E) :
  executeToolCalls (tc :: tcs) pm e
  = ((executeToolCall pm tc e).1
       :: (executeToolCalls tcs pm (executeToolCall pm tc e).2).1,
     (executeToolCalls tcs pm (executeToolCall pm tc e).2).2).
Proof.
  unfold executeToolCalls at 1. cbn [fold_left]. unfold loop_turn at 2.
  cbn [fst snd]. destruct (executeToolCall pm tc e) as [r e1]. cbn [app fst snd].
  by rewrite loop_from.
Qed.

Lemma executeToolCalls_app (l1 l2 : list ToolCall.t) (pm : PluginManager.t E) (e : E) :
  executeToolCalls (l1 ++ l2) pm e
  = ((executeToolCalls l1 pm e).1
       ++ (executeToolCalls l2 pm (executeToolCalls l1 pm e).2).1,
     (executeToolCalls l2 pm (executeToolCalls l1 pm e).2).2).
Proof.
  revert e. induction l1 as [|tc l1 IH]; intros e.
  - change (executeToolCalls [] pm e) with ([] : list ToolResponse.t, e).
    cbn [app fst snd]. by destruct (executeToolCalls l2 pm e).
  - cbn [app]. rewrite !executeToolCalls_cons. cbn [fst snd]. by rewrite IH.
Qed.

Lemma executeToolCall_toolCallId (pm : PluginManager.t E) (tc : ToolCall.t) (e : E) :
  ToolResponse.toolCallId (executeToolCall pm tc e).1 = ToolCall.id tc.
Proof.
  unfold executeToolCall.
  destruct (JSON_parse _) as [params|error]; [|done].
  by destruct (PluginManager.executeTool _ _ _ _) as [[x|error] e'].
Qed.

Lemma executeToolCalls_toolCallIds (tcs : list ToolCall.t) (pm : PluginManager.t E) (e : E) :
  map ToolResponse.toolCallId (executeToolCalls tcs pm e).1 = map ToolCall.id tcs.
Proof.
  revert e. induction tcs as [|tc tcs IH]; intros e; [done |].
  rewrite executeToolCalls_cons. cbn [fst map].
  by rewrite executeToolCall_toolCallId, IH.
Qed.

Lemma length_executeToolCalls (tcs : list ToolCall.t) (pm : PluginManager.t E) (e : E) :
  length (executeToolCalls tcs pm e).1 = length tcs.
Proof.
  rewrite <- (length_map ToolResponse.toolCallId), executeToolCalls_toolCallIds.
  apply length_map.
Qed.

(** The response at position [i] is that of the call at position [i], run in
    the host left by the calls before it. *)
Lemma executeToolCalls_lookup (tcs : list ToolCall.t) (pm : PluginManager.t E) (e : E)
    (i : nat) (tc : ToolCall.t) :
  tcs !! i = Some tc ->
  (executeToolCalls tcs pm e).1 !! i
  = Some (executeToolCall pm tc (executeToolCalls (take i tcs) pm e).2).1.
Proof.
  intros Hi.
  rewrite <- (take_drop_middle tcs i tc Hi) at 1.
  rewrite executeToolCalls_app. cbn [fst].
  rewrite lookup_app_r by (rewrite length_executeToolCalls, length_take; lia).
  rewrite length_executeToolCalls, length_take.
  apply lookup_lt_Some in Hi as Hlt.
  replace (i - i `min` length tcs) with 0 by lia.
  by rewrite executeToolCalls_cons.
Qed.

End WithHost.
End AIAssistantFacts.

Module AIAssistantSpec.
Import AIAssistant AIAssistantFacts.

Section WithHost.
Context {E : Type} {host : Host E} {package : OpenAIPackage E}.

Lemma getConversation_Some (conversationId : string) (s : System E)
    (c : ConversationContext.t E) :
  getConversation conversationId s = Some c <->
  exists ref, JsMap.get conversationId (conversations (assistant s)) = Some ref
    /\ heap (assistant s) !! ref = Some c.
Proof.
  unfold getConversation.
  destruct (JsMap.get conversationId _) as [ref|]; cbn; split.
  - intros Hc. by exists ref.
  - by intros (ref' & [= <-] & Hc).
  - done.
  - by intros (ref' & [=] & _).
Qed.

Lemma first_request_at (ref : nat) (s : System E) (c : ConversationContext.t E) :
  heap (assistant s) !! ref = Some c ->
  first_request ref s
  = request_with_tools (config (assistant s)) (ConversationContext.messages c)
      (ConversationContext.tools c).
Proof.
  intros Hc. unfold first_request, messages_at, tools_at. by rewrite Hc.
Qed.

Lemma followUp_request_at (ref : nat) (s : System E) (c : ConversationContext.t E) :
  heap (assistant s) !! ref = Some c ->
  followUp_request ref s
  = request_without_tools (config (assistant s)) (ConversationContext.messages c).
Proof.
  intros Hc. unfold followUp_request, messages_at. by rewrite Hc.
Qed.

(** C8.  On an existing conversation, when the backend's reply carries no
    tool call ([tool_calls] absent or empty), [sendMessage] resolves to the
    content of that reply (the empty string when it has none) and appends
    exactly two messages to the transcript: the user message, with the given
    content and metadata, and one assistant message, with the content of the
    reply.  The tool catalog and the metadata of the conversation stay. *)
Theorem sendMessage_without_tool_calls
    (conversationId content : string) (metadata : option JsRecord) (s : System E)
    (c : ConversationContext.t E) (response : OpenAI.Response)
    (assistantMessage : OpenAI.ResponseMessage)
    (choices : list OpenAI.ResponseMessage) (e1 : E) :
  getConversation conversationId s = Some c ->
  let userMessage := Message.mk Role.user content (Some (Date_now (env s))) metadata in
  openai (assistant s)
    (request_with_tools (config (assistant s))
       (ConversationContext.messages c ++ [userMessage]) (ConversationContext.tools c))
    (env s) = (Return response, e1) ->
  OpenAI.choices response = assistantMessage :: choices ->
  OpenAI.tool_calls assistantMessage = None \/ OpenAI.tool_calls assistantMessage = Some [] ->
  let reply :=
    match OpenAI.message_content assistantMessage with
    | Some text => text
    | None => ""
    end in
  let out := sendMessage conversationId content metadata s in
  out.1 = Return (mkReply reply (OpenAI.tool_calls assistantMessage))
  /\ env out.2 = e1
  /\ exists c', getConversation conversationId out.2 = Some c'
       /\ ConversationContext.messages c'
          = ConversationContext.messages c
              ++ [Message.mk Role.user content (Some (Date_now (env s))) metadata;
                  Message.mk Role.assistant reply (Some (Date_now e1)) None]
       /\ ConversationContext.tools c' = ConversationContext.tools c
       /\ ConversationContext.metadata c' = ConversationContext.metadata c.
Proof.
  intros Hconv userMessage Hreply Hchoices Hnone reply out.
  assert (Hchoice : first_choice response = Return assistantMessage)
    by (unfold first_choice; by rewrite Hchoices).
  pose proof Hconv as Hconv'.
  apply getConversation_Some in Hconv' as (ref & Hget & Hc).
  assert (Hout : out = (Return (mkReply reply (OpenAI.tool_calls assistantMessage)),
                        push_message ref
                          (Message.mk Role.assistant reply (Some (Date_now e1)) None)
                          (with_env e1 (push_message ref userMessage s)))).
  { unfold out, sendMessage. rewrite Hget. fold userMessage.
    rewrite (first_request_at ref _ (ConversationContext.push userMessage c))
      by (by rewrite lookup_push_message_eq, Hc).
    change (openai (assistant (push_message ref userMessage s))) with (openai (assistant s)).
    change (config (assistant (push_message ref userMessage s))) with (config (assistant s)).
    change (env (push_message ref userMessage s)) with (env s).
    cbn [ConversationContext.push ConversationContext.messages ConversationContext.tools].
    rewrite Hreply, Hchoice.
    by destruct Hnone as [-> | ->]. }
  rewrite Hout. cbn [fst snd]. split; [done |]. split; [done |].
  exists (ConversationContext.push
            (Message.mk Role.assistant reply (Some (Date_now e1)) None)
            (ConversationContext.push userMessage c)).
  split; [| split; [| done]].
  - apply getConversation_Some. exists ref. split; [done |].
    rewrite lookup_push_message_eq.
    change (heap (assistant (with_env e1 (push_message ref userMessage s))))
      with (heap (assistant (push_message ref userMessage s))).
    by rewrite lookup_push_message_eq, Hc.
  - cbn. by rewrite <- app_assoc.
Qed.

(** The run of [sendMessage] when the reply requests tool calls and the
    follow-up call returns, in the terms of the code. *)
Lemma sendMessage_two_passes
    (conversationId content : string) (metadata : option JsRecord) (s : System E)
    (c : ConversationContext.t E) (response followUpResponse : OpenAI.Response)
    (assistantMessage followUpMessage : OpenAI.ResponseMessage)
    (toolCall : ToolCall.t) (more : list ToolCall.t) (e1 e3 : E) :
  getConversation conversationId s = Some c ->
  let cfg := config (assistant s) in
  let pm := pluginManager s in
  let userMessage := Message.mk Role.user content (Some (Date_now (env s))) metadata in
  openai (assistant s)
    (request_with_tools cfg (ConversationContext.messages c ++ [userMessage])
       (ConversationContext.tools c))
    (env s) = (Return response, e1) ->
  first_choice response = Return assistantMessage ->
  OpenAI.tool_calls assistantMessage = Some (toolCall :: more) ->
  let toolCalls := toolCall :: more in
  let ran := executeToolCalls toolCalls pm e1 in
  let toolMessages := map (fun r => tool_message r ran.2) ran.1 in
  let transcript :=
    ConversationContext.messages c
      ++ [userMessage; assistant_message assistantMessage e1] ++ toolMessages in
  openai (assistant s) (request_without_tools cfg transcript) ran.2
    = (Return followUpResponse, e3) ->
  first_choice followUpResponse = Return followUpMessage ->
  let out := sendMessage conversationId content metadata s in
  out.1 = Return (mkReply (content_or_empty followUpMessage) None)
  /\ (exists c', getConversation conversationId out.2 = Some c'
        /\ ConversationContext.messages c'
           = transcript ++ [assistant_message followUpMessage e3])
  /\ map Message.role toolMessages = map (fun _ => Role.tool) toolCalls
  /\ map (fun m => js_prop "toolCallId" (default [] (Message.metadata m))) toolMessages
     = map (fun tc => JsStr (ToolCall.id tc)) toolCalls
  /\ (forall i tc, toolCalls !! i = Some tc ->
        toolMessages !! i
        = Some (tool_message
                  (executeToolCall pm tc (executeToolCalls (take i toolCalls) pm e1).2).1
                  ran.2)).
Proof.
  intros Hconv cfg pm userMessage Hreply Hchoice Hcalls toolCalls ran toolMessages
    transcript Hfollow Hchoice2 out.
  apply getConversation_Some in Hconv as (ref & Hget & Hc).
  pose proof (lookup_lt_Some _ _ _ Hc) as Hlt.
  assert (Hids : map ToolResponse.toolCallId ran.1 = map ToolCall.id toolCalls)
    by apply executeToolCalls_toolCallIds.
  assert (Hseq : forall i tc, toolCalls !! i = Some tc ->
            ran.1 !! i
            = Some (executeToolCall pm tc (executeToolCalls (take i toolCalls) pm e1).2).1)
    by (intros i tc Hi; by apply executeToolCalls_lookup).
  assert (Hrun : executeToolCalls (toolCall :: more) (pluginManager s) e1 = (ran.1, ran.2))
    by apply surjective_pairing.
  clearbody ran. destruct ran as [rs e2]. cbn [fst snd] in *.
  unfold cfg, pm in *. clear cfg pm.
  set (s1 := push_message ref userMessage s).
  set (s2 := push_message ref (assistant_message assistantMessage e1) (with_env e1 s1)).
  set (s3 := push_tool_messages ref rs (with_env e2 s2)).
  assert (Hlt2 : ref < length (heap (assistant (with_env e2 s2)))).
  { cbn. by rewrite !length_alter. }
  assert (Hmsgs3 : messages_at ref s3 = transcript).
  { unfold s3. rewrite messages_at_push_tool_messages by done.
    unfold transcript, toolMessages. cbn [env with_env].
    unfold messages_at. cbn. rewrite !list_lookup_alter_eq, Hc. cbn.
    by rewrite <- !app_assoc. }
  destruct (conversations_push_tool_messages ref rs (with_env e2 s2))
    as (Hconvs3 & _ & Hopenai3 & Hcfg3 & Hlen3).
  fold s3 in Hconvs3, Hopenai3, Hcfg3, Hlen3.
  assert (Henv3 : env s3 = e2) by (unfold s3; by rewrite env_push_tool_messages).
  assert (Hout : out = (Return (mkReply (content_or_empty followUpMessage) None),
                        push_message ref (assistant_message followUpMessage e3)
                          (with_env e3 s3))).
  { unfold out, sendMessage. rewrite Hget. fold userMessage. fold s1.
    rewrite (first_request_at ref s1 (ConversationContext.push userMessage c))
      by (unfold s1; by rewrite lookup_push_message_eq, Hc).
    change (openai (assistant s1)) with (openai (assistant s)).
    change (config (assistant s1)) with (config (assistant s)).
    change (env s1) with (env s).
    cbn [ConversationContext.push ConversationContext.messages ConversationContext.tools].
    rewrite Hreply, Hchoice.
    change (env (with_env e1 s1)) with e1. fold s2. rewrite Hcalls.
    change (pluginManager s2) with (pluginManager s). change (env s2) with e1.
    rewrite Hrun. fold s3.
    unfold followUp, followUp_request. rewrite Hmsgs3, Hopenai3, Hcfg3, Henv3.
    change (openai (assistant (with_env e2 s2))) with (openai (assistant s)).
    change (config (assistant (with_env e2 s2))) with (config (assistant s)).
    by rewrite Hfollow, Hchoice2. }
  rewrite Hout. cbn [fst snd]. split; [done |]. split; [| split; [| split]].
  - assert (is_Some (heap (assistant s3) !! ref)) as [c3 Hc3].
    { apply lookup_lt_is_Some_2. rewrite Hlen3. done. }
    exists (ConversationContext.push (assistant_message followUpMessage e3) c3).
    split.
    + apply getConversation_Some. exists ref. split.
      * cbn. by rewrite Hconvs3.
      * rewrite lookup_push_message_eq. cbn [with_env assistant]. by rewrite Hc3.
    + cbn. f_equal. rewrite <- Hmsgs3. unfold messages_at. by rewrite Hc3.
  - unfold toolMessages. rewrite map_map. cbn.
    rewrite <- (map_map ToolResponse.toolCallId (fun _ => Role.tool)).
    rewrite Hids. by rewrite !map_map.
  - unfold toolMessages. rewrite map_map. cbn.
    rewrite <- (map_map ToolResponse.toolCallId JsStr).
    rewrite Hids. by rewrite map_map.
  - intros i tc Hi. unfold toolMessages. rewrite list_lookup_fmap.
    by rewrite (Hseq _ _ Hi).
Qed.

(** The hosts the calls of a tool run meet: the one before the first call,
    then the one each call leaves. *)
Lemma executeToolCalls_take_S (toolCalls : list ToolCall.t) (pm : PluginManager.t E)
    (e : E) (i : nat) (tc : ToolCall.t) :
  toolCalls !! i = Some tc ->
  (executeToolCalls (take (S i) toolCalls) pm e).2
  = (executeToolCall pm tc (executeToolCalls (take i toolCalls) pm e).2).2.
Proof.
  intros Hi. rewrite (take_S_r _ _ _ Hi), executeToolCalls_app. cbn [snd].
  by rewrite executeToolCalls_cons.
Qed.

(** C6.  When the reply of the first pass requests tool calls and the
    follow-up call returns, the transcript ends with: the user message, the
    first assistant message, one tool message per requested call in the order
    of the array, and the final assistant message after them.  The calls are
    executed one after the other: the call at position [i] has its arguments
    parsed and is dispatched through [PluginManager.executeTool] in the host
    the call before it left.  The tool message at position [i] is tagged with
    the id of the call at position [i] and holds the serialized result of that
    dispatch, or the error that the parse or the dispatch threw. *)
Theorem sendMessage_tool_messages_in_order
    (conversationId content : string) (metadata : option JsRecord) (s : System E)
    (c : ConversationContext.t E) (response followUpResponse : OpenAI.Response)
    (assistantMessage followUpMessage : OpenAI.ResponseMessage)
    (choices followUpChoices : list OpenAI.ResponseMessage)
    (toolCall : ToolCall.t) (more : list ToolCall.t) (e1 e3 : E) :
  getConversation conversationId s = Some c ->
  let cfg := config (assistant s) in
  let pm := pluginManager s in
  let userMessage := Message.mk Role.user content (Some (Date_now (env s))) metadata in
  openai (assistant s)
    (request_with_tools cfg (ConversationContext.messages c ++ [userMessage])
       (ConversationContext.tools c))
    (env s) = (Return response, e1) ->
  OpenAI.choices response = assistantMessage :: choices ->
  OpenAI.tool_calls assistantMessage = Some (toolCall :: more) ->
  let toolCalls := toolCall :: more in
  let text (m : OpenAI.ResponseMessage) :=
    match OpenAI.message_content m with
    | Some text => text
    | None => ""
    end in
  let ran := executeToolCalls toolCalls pm e1 in
  let e2 := ran.2 in
  let toolMessages := map (fun r => tool_message r e2) ran.1 in
  let transcript :=
    ConversationContext.messages c
      ++ [userMessage;
          Message.mk Role.assistant (text assistantMessage) (Some (Date_now e1)) None]
      ++ toolMessages in
  openai (assistant s) (request_without_tools cfg transcript) e2
    = (Return followUpResponse, e3) ->
  OpenAI.choices followUpResponse = followUpMessage :: followUpChoices ->
  let out := sendMessage conversationId content metadata s in
  out.1 = Return (mkReply (text followUpMessage) None)
  /\ (exists c', getConversation conversationId out.2 = Some c'
        /\ ConversationContext.messages c'
           = transcript
               ++ [Message.mk Role.assistant (text followUpMessage)
                     (Some (Date_now e3)) None])
  /\ length toolMessages = length toolCalls
  /\ exists hosts : list E,
       length hosts = S (length toolCalls)
       /\ hosts !! 0 = Some e1
       /\ hosts !! length toolCalls = Some e2
       /\ forall i tc, toolCalls !! i = Some tc ->
            exists (e e' : E) (result : string) (error : JsVal),
              hosts !! i = Some e /\ hosts !! S i = Some e'
              /\ toolMessages !! i
                 = Some (Message.mk Role.tool result (Some (Date_now e2))
                           (Some [("toolCallId", JsStr (ToolCall.id tc));
                                  ("error", error)]))
              /\ match JSON_parse (ToolCall.arguments (ToolCall.function tc)) with
                 | Throw thrown =>
                     e' = e
                     /\ result
                        = JSON_stringify (JsObj [("error", JsStr (error_message thrown))])
                     /\ error = JsStr (error_message thrown)
                 | Return params =>
                     match PluginManager.executeTool
                             (ToolCall.name (ToolCall.function tc)) params pm e with
                     | (Return executed, after) =>
                         e' = after
                         /\ result = JSON_stringify (executed_to_js executed)
                         /\ error = JsUndefined
                     | (Throw thrown, after) =>
                         e' = after
                         /\ result
                            = JSON_stringify
                                (JsObj [("error", JsStr (error_message thrown))])
                         /\ error = JsStr (error_message thrown)
                     end
                 end.
Proof.
  intros Hconv cfg pm userMessage Hreply Hchoices Hcalls toolCalls text ran e2
    toolMessages transcript Hfollow HfollowChoices out.
  assert (Hchoice : first_choice response = Return assistantMessage)
    by (unfold first_choice; by rewrite Hchoices).
  assert (Hchoice2 : first_choice followUpResponse = Return followUpMessage)
    by (unfold first_choice; by rewrite HfollowChoices).
  destruct (sendMessage_two_passes conversationId content metadata s c
              response followUpResponse assistantMessage followUpMessage
              toolCall more e1 e3 Hconv Hreply Hchoice Hcalls Hfollow Hchoice2)
    as (Hout & Hc' & _ & _ & Hseq).
  split; [exact Hout |]. split; [exact Hc' |].
  split.
  { unfold toolMessages, ran. by rewrite length_map, length_executeToolCalls. }
  exists (map (fun i => (executeToolCalls (take i toolCalls) pm e1).2)
            (seq 0 (S (length toolCalls)))).
  split; [by rewrite length_map, length_seq |].
  split; [reflexivity |].
  split.
  { rewrite list_lookup_fmap, lookup_seq_lt by lia. cbn [fmap option_fmap option_map].
    by rewrite Nat.add_0_l, firstn_all. }
  intros i tc Hi.
  pose proof (lookup_lt_Some _ _ _ Hi) as Hlt.
  specialize (Hseq i tc Hi).
  set (e := (executeToolCalls (take i toolCalls) pm e1).2) in *.
  exists e, (executeToolCall pm tc e).2.
  exists (ToolResponse.content (executeToolCall pm tc e).1).
  exists (match ToolResponse.error (executeToolCall pm tc e).1 with
          | Some m => JsStr m
          | None => JsUndefined
          end).
  split.
  { rewrite list_lookup_fmap, lookup_seq_lt by lia. by rewrite Nat.add_0_l. }
  split.
  { rewrite list_lookup_fmap, lookup_seq_lt by lia.
    cbn [fmap option_fmap option_map]. rewrite Nat.add_0_l.
    f_equal. by apply executeToolCalls_take_S. }
  split.
  { refine (eq_trans Hseq _). unfold tool_message.
    by rewrite executeToolCall_toolCallId. }
  unfold executeToolCall.
  destruct (JSON_parse _) as [params|thrown]; [| by cbn].
  by destruct (PluginManager.executeTool _ params pm e) as [[executed|thrown] after].
Qed.

(** *** Sends in flight *)

(** What a step can change: the host, and the context object of its own
    send. *)
Lemma step_frame (t : Task) (s : System E) :
  conversationId (step t s).1 = conversationId t
  /\ context (step t s).1 = context t
  /\ conversations (assistant (step t s).2) = conversations (assistant s)
  /\ length (heap (assistant (step t s).2)) = length (heap (assistant s))
  /\ forall ref, ref <> context t ->
       heap (assistant (step t s).2) !! ref = heap (assistant s) !! ref.
Proof.
  unfold step. destruct (phase t) as [request|[|toolCall remaining] responses|request|result].
  - destruct (openai (assistant s) request (env s)) as [[response|error] e]; [|by cbn].
    destruct (first_choice response) as [assistantMessage|error]; [|by cbn].
    assert (Hpush : forall m,
      conversations (assistant (push_message (context t) m (with_env e s)))
        = conversations (assistant s)
      /\ length (heap (assistant (push_message (context t) m (with_env e s))))
        = length (heap (assistant s))
      /\ forall ref, ref <> context t ->
           heap (assistant (push_message (context t) m (with_env e s))) !! ref
           = heap (assistant s) !! ref).
    { intros m. repeat split.
      - by rewrite length_heap_push_message.
      - intros ref Hne. by rewrite lookup_push_message_ne. }
    destruct (OpenAI.tool_calls assistantMessage) as [[|toolCall more]|];
      cbn [fst snd conversationId context]; repeat split; apply Hpush.
  - cbn [fst snd conversationId context].
    destruct (conversations_push_tool_messages (context t) responses s)
      as (-> & _ & _ & _ & ->).
    repeat split. intros ref Hne. by apply lookup_push_tool_messages_ne.
  - by destruct (executeToolCall (pluginManager s) toolCall (env s)).
  - destruct (openai (assistant s) request (env s)) as [[response|error] e]; [|by cbn].
    destruct (first_choice response) as [followUpMessage|error]; [|by cbn].
    cbn [fst snd conversationId context]. repeat split.
    + by rewrite length_heap_push_message.
    + intros ref Hne. by rewrite lookup_push_message_ne.
  - by cbn.
Qed.

(** What the start of a send can change: the context object of the
    conversation it is addressed to. *)
Lemma start_frame (a content : string) (metadata : option JsRecord) (s : System E) :
  conversations (assistant (start a content metadata s).2) = conversations (assistant s)
  /\ length (heap (assistant (start a content metadata s).2)) = length (heap (assistant s))
  /\ (forall t, (start a content metadata s).1 = Return t ->
        conversationId t = a
        /\ JsMap.get a (conversations (assistant s)) = Some (context t))
  /\ forall ref, JsMap.get a (conversations (assistant s)) <> Some ref ->
       heap (assistant (start a content metadata s).2) !! ref = heap (assistant s) !! ref.
Proof.
  unfold start. destruct (JsMap.get a _) as [ref0|]; [|by cbn].
  cbn [fst snd]. repeat split.
  - apply length_heap_push_message.
  - by injection H as <-.
  - by injection H as <-.
  - intros ref Hne. rewrite lookup_push_message_ne; [done | congruence].
Qed.

Lemma react_isolated (b : string) (refb : nat) (pool0 : list Task) (ev : Event)
    (s : System E) (pool : list Task) :
  no_aliasing s -> in_flight_ok s pool ->
  JsMap.get b (conversations (assistant s)) = Some refb ->
  (forall i t, pool !! i = Some t ->
     (forall t0, pool0 !! i = Some t0 -> conversationId t0 <> b) ->
     conversationId t <> b) ->
  elsewhere b pool0 ev ->
  let st := react ev (s, pool) in
  no_aliasing st.1 /\ in_flight_ok st.1 st.2
  /\ conversations (assistant st.1) = conversations (assistant s)
  /\ heap (assistant st.1) !! refb = heap (assistant s) !! refb
  /\ (forall i t, st.2 !! i = Some t ->
        (forall t0, pool0 !! i = Some t0 -> conversationId t0 <> b) ->
        conversationId t <> b).
Proof.
  intros [Hinj Hbound] Hpool Hb Hkeep Hev.
  destruct ev as [a content metadata|i]; cbn [react elsewhere] in *.
  - destruct (start_frame a content metadata s) as (Hconvs & Hlen & Hstart & Hframe).
    destruct (start a content metadata s) as [[t|error] s'] eqn:Hs; cbn [fst snd] in *.
    + destruct (Hstart t eq_refl) as [Hid Hctx].
      repeat split.
      * rewrite Hconvs. apply Hinj.
      * rewrite Hconvs, Hlen. apply Hbound.
      * unfold in_flight_ok. rewrite Hconvs. apply Forall_app. split; [done |].
        apply Forall_singleton. by rewrite Hid.
      * done.
      * apply Hframe. intros Ha. apply Hev. by eapply Hinj.
      * intros j tj Hj Hallowed.
        apply lookup_app_Some in Hj as [Hj | [_ Hj]]; [by eapply Hkeep |].
        apply list_lookup_singleton_Some in Hj as [_ <-]. by rewrite Hid.
    + repeat split; try done.
      * rewrite Hconvs. apply Hinj.
      * rewrite Hconvs, Hlen. apply Hbound.
      * unfold in_flight_ok. by rewrite Hconvs.
      * apply Hframe. intros Ha. apply Hev. by eapply Hinj.
  - destruct (pool !! i) as [t|] eqn:Hi; [|by repeat split].
    destruct (step_frame t s) as (Hid & Hctx & Hconvs & Hlen & Hframe).
    destruct (step t s) as [t' s'] eqn:Hs; cbn [fst snd] in *.
    pose proof (Forall_lookup_1 _ _ _ _ Hpool Hi) as Hti. cbn beta in Hti.
    assert (Hnotb : conversationId t <> b) by (by eapply Hkeep).
    repeat split.
    + rewrite Hconvs. apply Hinj.
    + rewrite Hconvs, Hlen. apply Hbound.
    + unfold in_flight_ok. rewrite Hconvs. apply Forall_insert; [done |].
      by rewrite Hid, Hctx.
    + done.
    + apply Hframe. intros ->. apply Hnotb. by eapply Hinj.
    + intros j tj Hj Hallowed. destruct (decide (i = j)) as [<-|Hne].
      * rewrite list_lookup_insert_eq in Hj by (by eapply lookup_lt_Some).
        injection Hj as <-. by rewrite Hid.
      * rewrite list_lookup_insert_ne in Hj by done. by eapply Hkeep.
Qed.

(** C9.  Take any state in which no two conversation ids share a context
    object, with any sends in flight, and any conversation [b].  Whatever the
    interleaving of starts and resumptions of sends addressed to other
    conversations, the context of [b] (its messages among it) stays as it
    was. *)
Theorem interleaved_sends_isolated
    (b : string) (cb : ConversationContext.t E) (s : System E)
    (pool : list Task) (events : list Event) :
  no_aliasing s -> in_flight_ok s pool ->
  getConversation b s = Some cb ->
  Forall (elsewhere b pool) events ->
  getConversation b (interleave events (s, pool)).1 = Some cb.
Proof.
  intros Hna Hok Hb Hev.
  apply getConversation_Some in Hb as (refb & Hget & Hcb).
  apply getConversation_Some. exists refb.
  assert (Hkeep : forall i t, pool !! i = Some t ->
            (forall t0, pool !! i = Some t0 -> conversationId t0 <> b) ->
            conversationId t <> b) by (intros i t Hi Hall; by apply Hall).
  unfold interleave. rewrite <- Hcb.
  assert (Hgen : forall s1 pool1,
    no_aliasing s1 -> in_flight_ok s1 pool1 ->
    JsMap.get b (conversations (assistant s1)) = Some refb ->
    (forall i t, pool1 !! i = Some t ->
       (forall t0, pool !! i = Some t0 -> conversationId t0 <> b) ->
       conversationId t <> b) ->
    JsMap.get b (conversations (assistant
        (fold_left (fun st ev => react ev st) events (s1, pool1)).1)) = Some refb
    /\ heap (assistant (fold_left (fun st ev => react ev st) events (s1, pool1)).1) !! refb
       = heap (assistant s1) !! refb).
  { induction Hev as [|ev events Hev1 Hevs IH]; intros s1 pool1 Hna1 Hok1 Hget1 Hkeep1.
    - by cbn.
    - cbn [fold_left].
      destruct (react_isolated b refb pool ev s1 pool1 Hna1 Hok1 Hget1 Hkeep1 Hev1)
        as (Hna2 & Hok2 & Hconvs2 & Hheap2 & Hkeep2).
      destruct (react ev (s1, pool1)) as [s2 pool2]. cbn [fst snd] in *.
      destruct (IH s2 pool2 Hna2 Hok2) as [Hget3 Hheap3];
        [by rewrite Hconvs2 | done |].
      split; [done |]. by rewrite Hheap3. }
  by apply Hgen.
Qed.

(** *** A send on its own is [sendMessage] *)

(** Unfolds one iteration of [run] on a send whose phase is known. *)
Ltac resume_once :=
  cbn [run phase]; unfold step; cbn [phase conversationId context].

Lemma run_settled (fuel : nat) (t : Task) (s : System E) (r : Outcome Reply) :
  phase t = Settled r -> run fuel t s = (t, s).
Proof. intros Ht. destruct fuel; cbn [run]; [done | by rewrite Ht]. Qed.

Lemma with_env_same (s : System E) : with_env (env s) s = s.
Proof. by destruct s. Qed.

Lemma run_followUp (fuel : nat) (a : string) (ref : nat) (s : System E) :
  1 <= fuel ->
  run fuel (mkTask a ref (AwaitingFollowUp (followUp_request ref s))) s
  = (mkTask a ref (Settled (followUp ref s).1), (followUp ref s).2).
Proof.
  intros Hfuel. destruct fuel as [|fuel]; [lia |].
  resume_once. unfold followUp.
  destruct (openai (assistant s) (followUp_request ref s) (env s))
    as [[followUpResponse|error] e]; [|by erewrite run_settled].
  destruct (first_choice followUpResponse) as [followUpMessage|error];
    by erewrite run_settled.
Qed.

Lemma run_tools (a : string) (ref : nat) (remaining : list ToolCall.t) :
  forall (responses : list ToolResponse.t) (s : System E) (fuel : nat),
  length remaining + 2 <= fuel ->
  run fuel (mkTask a ref (ExecutingTools remaining responses)) s
  = (mkTask a ref (Settled
       (followUp ref
          (push_tool_messages ref
             (fold_left (loop_turn (pluginManager s)) remaining (responses, env s)).1
             (with_env
                (fold_left (loop_turn (pluginManager s)) remaining (responses, env s)).2
                s))).1),
     (followUp ref
        (push_tool_messages ref
           (fold_left (loop_turn (pluginManager s)) remaining (responses, env s)).1
           (with_env
              (fold_left (loop_turn (pluginManager s)) remaining (responses, env s)).2
              s))).2).
Proof.
  induction remaining as [|toolCall remaining IH]; intros responses s fuel Hfuel.
  - destruct fuel as [|fuel]; [cbn in Hfuel; lia |].
    resume_once. cbn [fold_left fst snd].
    rewrite with_env_same. apply run_followUp. cbn in Hfuel. lia.
  - destruct fuel as [|fuel]; [cbn in Hfuel; lia |].
    resume_once. cbn [fold_left].
    destruct (executeToolCall (pluginManager s) toolCall (env s)) as [r e] eqn:Hr.
    assert (Hturn : loop_turn (pluginManager s) (responses, env s) toolCall
                    = (responses ++ [r], e))
      by (unfold loop_turn; cbn [fst snd]; by rewrite Hr).
    rewrite Hturn, IH by (cbn in Hfuel; lia). reflexivity.
Qed.

(** Started and then resumed until it settles, with nothing else running in
    between, a send settles (after at most three steps and one per tool
    call) to what [sendMessage] resolves to, in the state it leaves. *)
Lemma sendMessage_runs (a content : string) (metadata : option JsRecord) (s : System E) :
  match start a content metadata s with
  | (Throw error, s0) => sendMessage a content metadata s = (Throw error, s0)
  | (Return t, s0) =>
      exists n, forall fuel, n <= fuel ->
        run fuel t s0
        = (mkTask a (context t) (Settled (sendMessage a content metadata s).1),
           (sendMessage a content metadata s).2)
  end.
Proof.
  unfold start, sendMessage.
  destruct (JsMap.get a _) as [ref|]; [|done].
  set (s1 := push_message ref _ s). cbn [context].
  destruct (openai (assistant s1) (first_request ref s1) (env s1))
    as [[response|error] e] eqn:Hcall.
  - destruct (first_choice response) as [assistantMessage|error] eqn:Hchoice.
    + destruct (OpenAI.tool_calls assistantMessage) as [[|toolCall more]|] eqn:Hcalls.
      * exists 1. intros [|fuel] Hfuel; [lia |].
        resume_once.
        rewrite Hcall, Hchoice, Hcalls. by erewrite run_settled.
      * exists (length (toolCall :: more) + 3). intros [|fuel] Hfuel; [lia |].
        resume_once.
        rewrite Hcall, Hchoice, Hcalls.
        rewrite run_tools by lia. unfold executeToolCalls.
        set (s2 := push_message ref _ (with_env e s1)).
        change (env s2) with (env (with_env e s1)).
        by destruct (fold_left _ _ _).
      * exists 1. intros [|fuel] Hfuel; [lia |].
        resume_once.
        rewrite Hcall, Hchoice, Hcalls. by erewrite run_settled.
    + exists 1. intros [|fuel] Hfuel; [lia |].
      resume_once.
      rewrite Hcall, Hchoice. by erewrite run_settled.
  - exists 1. intros [|fuel] Hfuel; [lia |].
    resume_once.
    rewrite Hcall. by erewrite run_settled.
Qed.

(** *** No two conversations share a context object *)

Lemma run_frame (fuel : nat) (t : Task) (s : System E) :
  conversations (assistant (run fuel t s).2) = conversations (assistant s)
  /\ length (heap (assistant (run fuel t s).2)) = length (heap (assistant s)).
Proof.
  revert t s. induction fuel as [|fuel IH]; intros t s; [done |].
  cbn [run]. destruct (step_frame t s) as (_ & _ & Hconvs & Hlen & _).
  destruct (phase t); try done;
    destruct (step t s) as [t' s']; cbn [fst snd] in *;
    destruct (IH t' s') as [-> ->]; by rewrite Hconvs, Hlen.
Qed.

Lemma sendMessage_frame (a content : string) (metadata : option JsRecord) (s : System E) :
  conversations (assistant (sendMessage a content metadata s).2)
    = conversations (assistant s)
  /\ length (heap (assistant (sendMessage a content metadata s).2))
    = length (heap (assistant s)).
Proof.
  pose proof (sendMessage_runs a content metadata s) as Hrun.
  destruct (start_frame a content metadata s) as (Hconvs & Hlen & _ & _).
  destruct (start a content metadata s) as [[t|error] s0]; cbn [fst snd] in *.
  - destruct Hrun as [n Hrun]. specialize (Hrun n (Nat.le_refl n)).
    destruct (run_frame n t s0) as [Hc Hl]. rewrite Hrun in Hc, Hl.
    cbn [fst snd] in *. by rewrite Hc, Hl, Hconvs, Hlen.
  - by rewrite Hrun.
Qed.

Lemma no_aliasing_new (cfg : Config) (pm : PluginManager.t E) (e : E) :
  no_aliasing (mkSystem (new cfg) pm e).
Proof. split; intros; discriminate. Qed.

Lemma no_aliasing_createConversation (given : option string) (s : System E) :
  no_aliasing s -> no_aliasing (createConversation given s).2.
Proof.
  intros [Hinj Hbound]. unfold createConversation.
  destruct (match given with
            | Some g => if String.eqb g "" then generateConversationId (env s) else (g, env s)
            | None => generateConversationId (env s)
            end) as [id e].
  cbn [snd]. split; cbn [assistant conversations heap].
  - intros a b ref Ha Hb.
    destruct (decide (id = a)) as [<-|Hna], (decide (id = b)) as [<-|Hnb]; try done.
    + rewrite JsMapFacts.get_set_eq in Ha. injection Ha as <-.
      rewrite JsMapFacts.get_set_ne in Hb by done.
      apply Hbound in Hb. lia.
    + rewrite JsMapFacts.get_set_eq in Hb. injection Hb as <-.
      rewrite JsMapFacts.get_set_ne in Ha by done.
      apply Hbound in Ha. lia.
    + rewrite JsMapFacts.get_set_ne in Ha, Hb by done. by eapply Hinj.
  - intros a ref Ha. rewrite length_app. cbn.
    destruct (decide (id = a)) as [<-|Hna].
    + rewrite JsMapFacts.get_set_eq in Ha. injection Ha as <-. lia.
    + rewrite JsMapFacts.get_set_ne in Ha by done. apply Hbound in Ha. lia.
Qed.

Lemma no_aliasing_deleteConversation (a : string) (s : System E) :
  no_aliasing s -> no_aliasing (deleteConversation a s).2.
Proof.
  intros [Hinj Hbound]. unfold deleteConversation. cbn [snd].
  assert (Hsub : forall b ref,
    JsMap.get b (JsMap.delete a (conversations (assistant s))) = Some ref ->
    JsMap.get b (conversations (assistant s)) = Some ref).
  { intros b ref. destruct (decide (a = b)) as [<-|Hne].
    - by rewrite JsMapFacts.get_delete_eq.
    - by rewrite JsMapFacts.get_delete_ne. }
  split; cbn [assistant conversations heap].
  - intros b1 b2 ref H1 H2. eapply Hinj; by apply Hsub.
  - intros b ref Hb. eapply Hbound. by apply Hsub.
Qed.

Lemma no_aliasing_sendMessage (a content : string) (metadata : option JsRecord)
    (s : System E) :
  no_aliasing s -> no_aliasing (sendMessage a content metadata s).2.
Proof.
  intros [Hinj Hbound]. destruct (sendMessage_frame a content metadata s) as [Hc Hl].
  split; rewrite Hc; [done |]. rewrite Hl. done.
Qed.

(** What [executeTool] throws, [executeToolCalls] catches: the call gets a
    response that carries the error message, and the loop goes on. *)
Lemma executeToolCall_catches
    (pm : PluginManager.t E) (toolCall : ToolCall.t) (params : JsVal)
    (error : JsThrown) (e e' : E) :
  JSON_parse (ToolCall.arguments (ToolCall.function toolCall)) = Return params ->
  PluginManager.executeTool (ToolCall.name (ToolCall.function toolCall)) params pm e
    = (Throw error, e') ->
  executeToolCall pm toolCall e
  = (ToolResponse.mk (ToolCall.id toolCall)
       (JSON_stringify (JsObj [("error", JsStr (error_message error))]))
       (Some (error_message error)), e').
Proof. unfold executeToolCall. by intros -> ->. Qed.

(** A send that nothing interleaves with is [sendMessage].  A send to an
    unknown conversation throws at once.  Otherwise, when the first reply
    requests at most [k] tool calls, the send has settled after [k + 3]
    resumptions (and stays so), to the result and in the state of
    [sendMessage]. *)
Theorem send_alone_is_sendMessage
    (a content : string) (metadata : option JsRecord) (s : System E) :
  (forall error s0,
     start a content metadata s = (Throw error, s0) ->
     sendMessage a content metadata s = (Throw error, s0))
  /\ (forall t s0 k,
        start a content metadata s = (Return t, s0) ->
        (forall response e assistantMessage choices toolCalls,
           openai (assistant s0) (first_request (context t) s0) (env s0)
             = (Return response, e) ->
           OpenAI.choices response = assistantMessage :: choices ->
           OpenAI.tool_calls assistantMessage = Some toolCalls ->
           length toolCalls <= k) ->
        forall fuel, k + 3 <= fuel ->
          run fuel t s0
          = (mkTask a (context t) (Settled (sendMessage a content metadata s).1),
             (sendMessage a content metadata s).2)).
Proof.
  split.
  - intros error s0. unfold start, sendMessage.
    destruct (JsMap.get a _) as [ref|]; [done | by intros [= <- <-]].
  - intros t s0 k. unfold start, sendMessage.
    destruct (JsMap.get a _) as [ref|]; [|done].
    set (s1 := push_message ref _ s). intros [= <- <-] Hbound fuel Hfuel.
    cbn [context] in *.
    destruct fuel as [|fuel]; [lia |]. resume_once.
    destruct (openai (assistant s1) (first_request ref s1) (env s1))
      as [[response|error] e] eqn:Hcall; [| by erewrite run_settled].
    destruct (first_choice response) as [assistantMessage|error] eqn:Hchoice;
      [| by erewrite run_settled].
    destruct (OpenAI.tool_calls assistantMessage) as [[|toolCall more]|] eqn:Hcalls;
      [by erewrite run_settled | | by erewrite run_settled].
    assert (Hk : length (toolCall :: more) <= k).
    { unfold first_choice in Hchoice.
      destruct (OpenAI.choices response) as [|m rest] eqn:Hchoices; [done |].
      injection Hchoice as ->.
      by apply (Hbound response e assistantMessage rest). }
    rewrite run_tools by lia. unfold executeToolCalls.
    set (s2 := push_message ref _ (with_env e s1)).
    change (env s2) with (env (with_env e s1)).
    by destruct (fold_left _ _ _).
Qed.

(** Every state reached from a new assistant by [createConversation],
    [deleteConversation] and [sendMessage] keeps conversation ids on distinct
    context objects. *)
Theorem no_aliasing_reachable (cfg : Config) (pm : PluginManager.t E) (e : E) :
  no_aliasing (mkSystem (new cfg) pm e)
  /\ (forall given (s : System E),
        no_aliasing s -> no_aliasing (createConversation given s).2)
  /\ (forall a (s : System E), no_aliasing s -> no_aliasing (deleteConversation a s).2)
  /\ (forall a content metadata (s : System E),
        no_aliasing s -> no_aliasing (sendMessage a content metadata s).2).
Proof.
  split; [apply no_aliasing_new |].
  split; [apply no_aliasing_createConversation |].
  split; [apply no_aliasing_deleteConversation | apply no_aliasing_sendMessage].
Qed.

End WithHost.
End AIAssistantSpec.

(** ** The orchestrator on concrete inputs *)
Module AIAssistantRuns.
Import AIAssistant Fixtures.

Example send_hello :
  let out := sendMessage "a" "hello" None (three_conversations [says "hello back"]) in
  out.1 = Return (mkReply "hello back" None)
  /\ outline out.2 "a"
     = [(Role.user, JsUndefined, "hello"); (Role.assistant, JsUndefined, "hello back")].
Proof. split; reflexivity. Qed.

Lemma sendMessage_without_tool_calls_witness :
  let out := sendMessage "a" "hello" None (three_conversations [says "hello back"]) in
  out.1 = Return (mkReply "hello back" None)
  /\ env out.2 = mkEnv 1001 [] []
  /\ exists c', getConversation "a" out.2 = Some c'
       /\ ConversationContext.messages c'
          = ConversationContext.messages (fresh_context [says "hello back"])
              ++ [Message.mk Role.user "hello" (Some 1000%Z) None;
                  Message.mk Role.assistant "hello back" (Some 1001%Z) None]
       /\ ConversationContext.tools c' = [echo_tool; get_time; failing_tool]
       /\ ConversationContext.metadata c' = [("createdAt", JsNum 1000)].
Proof.
  destruct (AIAssistantSpec.sendMessage_without_tool_calls
              "a" "hello" None (three_conversations [says "hello back"])
              (fresh_context [says "hello back"])
              (says "hello back") (OpenAI.mkResponseMessage (Some "hello back") None)
              [] (mkEnv 1001 [] []))
    as (Hreply & Henv & c' & Hc' & Hmessages & Htools & Hmetadata);
    [reflexivity | reflexivity | reflexivity | left; reflexivity |].
  split; [exact Hreply |]. split; [exact Henv |].
  exists c'. split; [exact Hc' |].
  split; [exact Hmessages |]. split; [exact Htools | exact Hmetadata].
Defined.

(** Three calls, the second to a tool that does not exist: three tool
    messages in the order of the calls, then the final reply; the two tools
    that exist ran in that order. *)
Example send_with_tool_calls :
  let out := sendMessage "a" "run them" None
               (three_conversations [calls three_calls; says "done"]) in
  out.1 = Return (mkReply "done" None)
  /\ outline out.2 "a"
     = [(Role.user, JsUndefined, "run them");
        (Role.assistant, JsUndefined, "");
        (Role.tool, JsStr "c1", "ok");
        (Role.tool, JsStr "c2", "error: Tool not found: missing_tool");
        (Role.tool, JsStr "c3", "ok");
        (Role.assistant, JsUndefined, "done")]
  /\ journal (env out.2) = ["echo_tool"; "get_time"].
Proof. repeat split; reflexivity. Qed.

Lemma sendMessage_tool_messages_in_order_witness :
  let s := three_conversations [calls three_calls; says "done"] in
  let out := sendMessage "a" "run them" None s in
  let tool_message (id result : string) (error : JsVal) :=
    Message.mk Role.tool result (Some 1005%Z)
      (Some [("toolCallId", JsStr id); ("error", error)]) in
  out.1 = Return (mkReply "done" None)
  /\ exists c', getConversation "a" out.2 = Some c'
       /\ ConversationContext.messages c'
          = ConversationContext.messages (fresh_context [calls three_calls; says "done"])
              ++ [Message.mk Role.user "run them" (Some 1000%Z) None;
                  Message.mk Role.assistant "" (Some 1001%Z) None;
                  tool_message "c1" "ok" JsUndefined;
                  tool_message "c2" "error: Tool not found: missing_tool"
                    (JsStr "Tool not found: missing_tool");
                  tool_message "c3" "ok" JsUndefined;
                  Message.mk Role.assistant "done" (Some 1006%Z) None].
Proof.
  destruct (AIAssistantSpec.sendMessage_tool_messages_in_order
              "a" "run them" None (three_conversations [calls three_calls; says "done"])
              (fresh_context [calls three_calls; says "done"])
              (calls three_calls) (says "done")
              (OpenAI.mkResponseMessage None (Some three_calls))
              (OpenAI.mkResponseMessage (Some "done") None) [] []
              (call "c1" "echo_tool") [call "c2" "missing_tool"; call "c3" "get_time"]
              (mkEnv 1001 [says "done"] []) (mkEnv 1006 [] ["echo_tool"; "get_time"]))
    as (Hreply & (c' & Hc' & Hmessages) & _ & _);
    [reflexivity | reflexivity | reflexivity | reflexivity | reflexivity | reflexivity |].
  split; [exact Hreply |]. exists c'. split; [exact Hc' |].
  rewrite Hmessages. reflexivity.
Defined.

(** The send with three tool calls, on its own: settled after six
    resumptions. *)
Lemma send_alone_is_sendMessage_witness :
  let s := three_conversations [calls three_calls; says "done"] in
  exists t s0,
    start "a" "run them" None s = (Return t, s0)
    /\ run 6 t s0
       = (mkTask "a" (context t) (Settled (Return (mkReply "done" None))),
          (sendMessage "a" "run them" None s).2).
Proof.
  eexists _, _. split; [reflexivity |].
  pose proof (proj2 (AIAssistantSpec.send_alone_is_sendMessage
                       "a" "run them" None
                       (three_conversations [calls three_calls; says "done"]))
                _ _ 3 eq_refl) as Hsettles.
  apply Hsettles; [| lia].
  intros response e assistantMessage choices toolCalls Hcall Hchoices Hcalls.
  vm_compute in Hcall. injection Hcall as <- <-.
  injection Hchoices as <- <-. injection Hcalls as <-.
  vm_compute. lia.
Defined.

Lemma executeToolCall_catches_witness :
  executeToolCall toolbox (call "c9" "failing_tool") quiet
  = (ToolResponse.mk "c9" "error: boom" (Some "boom"),
     mkEnv 1002 [] ["failing_tool"]).
Proof.
  pose proof (AIAssistantSpec.executeToolCall_catches
                toolbox (call "c9" "failing_tool") (JsStr "{}") (ErrorObject "boom")
                quiet (mkEnv 1002 [] ["failing_tool"])) as Hcaught.
  apply Hcaught; reflexivity.
Defined.

(** Two sends, to [a] and to [c], interleaved step by step: the replies of
    the backend reach them in the order they resume, [a] and [c] grow, and [b]
    stays at its system message. *)
Example interleaving_outline :
  let st := interleave schedule
              (three_conversations [calls three_calls; says "for c"; says "for a"], []) in
  outline st.1 "a"
    = [(Role.user, JsUndefined, "first"); (Role.assistant, JsUndefined, "for c")]
  /\ outline st.1 "b" = []
  /\ outline st.1 "c"
    = [(Role.user, JsUndefined, "second"); (Role.assistant, JsUndefined, "")].
Proof. repeat split; reflexivity. Qed.

Lemma interleaved_sends_isolated_witness :
  let s := three_conversations [calls three_calls; says "for c"; says "for a"] in
  exists cb, getConversation "b" s = Some cb
    /\ getConversation "b" (interleave schedule (s, [])).1 = Some cb.
Proof.
  eexists. split; [reflexivity |].
  apply AIAssistantSpec.interleaved_sends_isolated.
  - unfold three_conversations.
    do 3 apply AIAssistantSpec.no_aliasing_createConversation.
    apply AIAssistantSpec.no_aliasing_new.
  - apply Forall_nil_2.
  - reflexivity.
  - unfold schedule.
    repeat (apply Forall_cons; split; [cbn; first [discriminate | intros t [=]] |]).
    apply Forall_nil_2.
Defined.

End AIAssistantRuns.

(** * Further properties of the modules *)

(** ** More on the secret store *)
Module ApiKeyManagerMoreFacts.
Import ApiKeyManager.

Lemma keyed_by_id_set (i : string) (k : StoredApiKey) (m : JsMap.t StoredApiKey) :
  id k = i -> keyed_by_id m -> keyed_by_id (JsMap.set i k m).
Proof.
  intros Hid [Hnd Hall]. split.
  - by apply JsMapMoreFacts.NoDup_keys_set.
  - apply JsMapMoreFacts.Forall_set; [by cbn | done].
Qed.

Lemma keyed_by_id_delete (i : string) (m : JsMap.t StoredApiKey) :
  keyed_by_id m -> keyed_by_id (JsMap.delete i m).
Proof.
  intros [Hnd Hall]. split.
  - by apply JsMapMoreFacts.NoDup_keys_delete.
  - by apply JsMapMoreFacts.Forall_delete.
Qed.

Lemma keyed_by_id_get (i : string) (k : StoredApiKey) (m : JsMap.t StoredApiKey) :
  keyed_by_id m -> JsMap.get i m = Some k -> id k = i.
Proof.
  intros [_ Hall] Hget. apply JsMapMoreFacts.get_Some_In in Hget.
  apply list_elem_of_In in Hget.
  pose proof (proj1 (Forall_forall _ _) Hall _ Hget) as Heq.
  by cbn in Heq.
Qed.

Lemma keyed_by_id_fold (stored : list StoredApiKey) (m : JsMap.t StoredApiKey) :
  keyed_by_id m ->
  keyed_by_id (fold_left (fun m k => JsMap.set (id k) k m) stored m).
Proof.
  revert m. induction stored as [|k stored IH]; intros m Hm; [done |].
  cbn [fold_left]. apply IH. by apply keyed_by_id_set.
Qed.

(** Setting the values of an index one after the other, each under its id,
    builds the index again. *)
Lemma fold_set_values (m acc : JsMap.t StoredApiKey) :
  keyed_by_id (acc ++ m) ->
  fold_left (fun m k => JsMap.set (id k) k m) (JsMap.values m) acc = acc ++ m.
Proof.
  revert acc. induction m as [|[i k] m IH]; intros acc Hok; cbn.
  - by rewrite app_nil_r.
  - destruct Hok as [Hnd Hall].
    assert (Hid : i = id k).
    { apply Forall_app in Hall as [_ Hall]. by apply Forall_cons in Hall as [Hi _]. }
    assert (Hfresh : JsMap.get (id k) acc = None).
    { apply JsMapMoreFacts.get_None_keys. intros Hin. subst i.
      unfold JsMap.keys in Hnd. rewrite map_app in Hnd.
      apply NoDup_app in Hnd as (_ & Hdisj & _).
      apply (Hdisj (id k)); [by apply list_elem_of_In | cbn; left]. }
    rewrite JsMapMoreFacts.set_fresh by done. subst i.
    rewrite IH; rewrite <- app_assoc; [done |]. by split.
Qed.

End ApiKeyManagerMoreFacts.

Module ApiKeyManagerCoverage.
Import ApiKeyManager ApiKeyManagerFacts ApiKeyManagerMoreFacts.

Section WithBlockCipher.
Context {BC : BlockCipher}.

(** X5.  What a successful [saveKeys] writes, [loadKeys] reads back as the
    same index: in a store whose records sit under their own ids, saving and
    then initializing changes nothing, in memory or in the file. *)
Theorem loadKeys_after_saveKeys (amb : Ambient) (w : World) :
  keyed_by_id (keys (manager w)) ->
  write_error amb = None ->
  (saveKeys amb w).1 = Return tt
  /\ initialize (saveKeys amb w).2 = (saveKeys amb w).2.
Proof.
  intros Hok Hw. unfold saveKeys. rewrite Hw. cbn [fst snd]. split; [done |].
  unfold initialize, loadKeys. cbn [disk manager]. unfold with_keys.
  cbn [manager disk keys keysFile encryptionKey].
  rewrite (fold_set_values (keys (manager w)) JsMap.empty) by done.
  by destruct w as [[? ? ?] ?].
Qed.

(** X6.  Records stay under their own ids: from an index keyed by id,
    [initialize], [addKey], [getKey], [updateKey] and [deleteKey] all leave
    an index keyed by id, whether the write succeeds or not. *)
Theorem keyed_by_id_kept (amb : Ambient) (name provider apiKey i : string) (w : World) :
  keyed_by_id (keys (manager w)) ->
  keyed_by_id (keys (manager (initialize w)))
  /\ keyed_by_id (keys (manager (addKey amb name provider apiKey w).2))
  /\ keyed_by_id (keys (manager (getKey amb i w).2))
  /\ keyed_by_id (keys (manager (updateKey amb i apiKey w).2))
  /\ keyed_by_id (keys (manager (deleteKey amb i w).2)).
Proof.
  intros Hok. split; [| split; [| split; [| split]]].
  - unfold initialize, loadKeys. destruct (disk w) as [stored|]; [|done].
    cbn [manager keys with_keys]. apply keyed_by_id_fold.
    split; [apply NoDup_nil_2 | apply Forall_nil_2].
  - unfold addKey. destruct (encrypt _ _ apiKey) as [payload|e]; [|done].
    unfold saveKeys. destruct (write_error amb);
      cbn [snd manager keys with_keys]; by apply keyed_by_id_set.
  - unfold getKey. destruct (JsMap.get i _) as [k|] eqn:Hget; [|done].
    destruct (decrypt _ _) as [plain|e]; [|done].
    unfold saveKeys. destruct (write_error amb);
      cbn [snd manager keys with_keys]; apply keyed_by_id_set; try done;
      cbn [id]; by eapply keyed_by_id_get.
  - unfold updateKey. destruct (JsMap.get i _) as [k|] eqn:Hget; [|done].
    destruct (encrypt _ _ apiKey) as [payload|e]; [|done].
    unfold saveKeys. destruct (write_error amb);
      cbn [snd manager keys with_keys]; apply keyed_by_id_set; try done;
      cbn [id]; by eapply keyed_by_id_get.
  - unfold deleteKey. destruct (JsMap.get i _) as [k|]; [|done].
    unfold saveKeys. destruct (write_error amb);
      cbn [snd manager keys with_keys]; by apply keyed_by_id_delete.
Qed.

(** X7.  With a key file on disk, [initialize] forgets what memory held:
    when the write of [addKey], [getKey], [updateKey] or [deleteKey] fails
    before the file is opened, the next [initialize] gives the state that
    [initialize] gives without the call. *)
Theorem initialize_discards_unsaved
    (amb : Ambient) (e : JsThrown) (stored : list StoredApiKey)
    (name provider apiKey i : string) (w : World) :
  disk w = Some stored -> write_error amb = Some (mkWriteFailure e BeforeOpen) ->
  initialize (addKey amb name provider apiKey w).2 = initialize w
  /\ initialize (getKey amb i w).2 = initialize w
  /\ initialize (updateKey amb i apiKey w).2 = initialize w
  /\ initialize (deleteKey amb i w).2 = initialize w.
Proof.
  intros Hdisk Hfail.
  assert (Hdrop : forall f,
    initialize (mkWorld (manager (with_keys f w)) (disk w)) = initialize w).
  { intros f. unfold initialize, loadKeys, with_keys. cbn [disk]. by rewrite Hdisk. }
  repeat split.
  - unfold addKey. destruct (encrypt _ _ apiKey) as [payload|e']; [|done].
    unfold saveKeys. rewrite Hfail. cbn [snd]. apply Hdrop.
  - unfold getKey. destruct (JsMap.get i _) as [k|]; [|done].
    destruct (decrypt _ _) as [plain|e']; [|done].
    unfold saveKeys. rewrite Hfail. cbn [snd]. apply Hdrop.
  - unfold updateKey. destruct (JsMap.get i _) as [k|]; [|done].
    destruct (encrypt _ _ apiKey) as [payload|e']; [|done].
    unfold saveKeys. rewrite Hfail. cbn [snd]. apply Hdrop.
  - unfold deleteKey. destruct (JsMap.get i _) as [k|]; [|done].
    unfold saveKeys. rewrite Hfail. cbn [snd]. apply Hdrop.
Qed.

(** X8.  For an id that is not in the index, [getKey] returns [null] and
    [updateKey] and [deleteKey] throw ["API key not found: <id>"]; none of
    them touches the index or the file, and so none can fail on the disk. *)
Theorem unknown_id_untouched (amb : Ambient) (i apiKey : string) (w : World) :
  JsMap.get i (keys (manager w)) = None ->
  getKey amb i w = (Return None, w)
  /\ updateKey amb i apiKey w = (Throw (ErrorObject ("API key not found: " +:+ i)), w)
  /\ deleteKey amb i w = (Throw (ErrorObject ("API key not found: " +:+ i)), w).
Proof.
  intros Hnone. unfold getKey, updateKey, deleteKey. by rewrite Hnone.
Qed.

(** X9.  A [deleteKey] that returns removes exactly that id: [getKey] on it
    returns [null] from then on, every other id resolves to the record it
    resolved to, and the file holds the remaining records. *)
Theorem deleteKey_removes_that_id (amb amb' : Ambient) (i : string) (w w' : World) :
  deleteKey amb i w = (Return tt, w') ->
  JsMap.get i (keys (manager w)) <> None
  /\ getKey amb' i w' = (Return None, w')
  /\ (forall j, j <> i ->
        JsMap.get j (keys (manager w')) = JsMap.get j (keys (manager w)))
  /\ disk w' = Some (getAllKeys w').
Proof.
  unfold deleteKey. destruct (JsMap.get i _) as [k|] eqn:Hget; [|done].
  unfold saveKeys. destruct (write_error amb); [done |]. intros [= <-].
  split; [done |]. split; [| split].
  - unfold getKey. cbn [manager keys with_keys].
    by rewrite JsMapFacts.get_delete_eq.
  - intros j Hne. cbn [manager keys with_keys]. by apply JsMapFacts.get_delete_ne.
  - reflexivity.
Qed.


Context {BCL : BlockCipherLaws BC}.

(** X11.  [updateKey] with a plaintext under 16 bytes: the next [getKey]
    returns the new plaintext, the record keeps its id, name, provider and
    creation date, and the index keeps its order. *)
Theorem updateKey_getKey_short_plaintext
    (amb1 amb2 : Ambient) (i apiKey : string) (k : StoredApiKey) (w : World) :
  String.length (encryptionKey (manager w)) = Aes256Cbc.key_size ->
  length (random_iv amb1) = Aes256Cbc.block_size ->
  String.length apiKey < Aes256Cbc.block_size ->
  write_error amb1 = None -> write_error amb2 = None ->
  JsMap.get i (keys (manager w)) = Some k ->
  exists w1 k1, updateKey amb1 i apiKey w = (Return tt, w1)
    /\ (getKey amb2 i w1).1 = Return (Some apiKey)
    /\ JsMap.get i (keys (manager w1)) = Some k1
    /\ (id k1, name k1, ApiKeyManager.provider k1, createdAt k1)
       = (id k, name k, ApiKeyManager.provider k, createdAt k)
    /\ lastUsed k1 = Some (now amb1)
    /\ JsMap.keys (keys (manager w1)) = JsMap.keys (keys (manager w)).
Proof.
  intros Hk Hi Ht Hw1 Hw2 Hget.
  destruct (decrypt_encrypt_short _ _ _ Hk Hi Ht) as (payload & Henc & Hdec).
  unfold updateKey. rewrite Hget, Henc. unfold saveKeys. rewrite Hw1.
  do 2 eexists. split; [reflexivity |].
  cbn [manager keys with_keys]. rewrite JsMapFacts.get_set_eq.
  split; [| split; [reflexivity | split; [reflexivity | split; [reflexivity |]]]].
  - unfold getKey. cbn [manager keys with_keys encryptionKey].
    rewrite JsMapFacts.get_set_eq. cbn [encryptedKey]. rewrite Hdec.
    unfold saveKeys. by rewrite Hw2.
  - apply JsMapMoreFacts.keys_set_present. by rewrite Hget.
Qed.

End WithBlockCipher.
End ApiKeyManagerCoverage.

Module ApiKeyManagerCoverageRuns.
Import ApiKeyManager Fixtures Scenarios.

Lemma keyed_by_id_one_key : keyed_by_id (keys (manager one_key)).
Proof.
  split; [| by repeat constructor].
  apply (NoDup_singleton one_key_id).
Defined.

Lemma loadKeys_after_saveKeys_witness :
  (saveKeys later one_key).1 = Return tt
  /\ initialize (saveKeys later one_key).2 = (saveKeys later one_key).2.
Proof.
  apply (ApiKeyManagerCoverage.loadKeys_after_saveKeys later one_key);
    [exact keyed_by_id_one_key | reflexivity].
Defined.

Lemma keyed_by_id_kept_witness :
  keyed_by_id (keys (manager (initialize one_key)))
  /\ keyed_by_id (keys (manager (addKey later "spare" "openai" "other-key" one_key).2))
  /\ keyed_by_id (keys (manager (getKey later one_key_id one_key).2))
  /\ keyed_by_id (keys (manager (updateKey later one_key_id "other-key" one_key).2))
  /\ keyed_by_id (keys (manager (deleteKey later one_key_id one_key).2)).
Proof.
  apply (ApiKeyManagerCoverage.keyed_by_id_kept
           later "spare" "openai" "other-key" one_key_id one_key).
  exact keyed_by_id_one_key.
Defined.

(** A record added while the disk is full is gone after the next
    [initialize]. *)
Example addKey_lost_on_initialize :
  JsMap.keys (keys (manager (addKey later_no_directory "spare" "openai" "other-key" one_key).2))
    = [one_key_id; spare_id]
  /\ JsMap.keys (keys (manager
       (initialize (addKey later_no_directory "spare" "openai" "other-key" one_key).2)))
    = [one_key_id].
Proof. split; reflexivity. Qed.

Lemma initialize_discards_unsaved_witness :
  initialize (addKey later_no_directory "spare" "openai" "other-key" one_key).2
    = initialize one_key
  /\ initialize (getKey later_no_directory one_key_id one_key).2 = initialize one_key
  /\ initialize (updateKey later_no_directory one_key_id "other-key" one_key).2
    = initialize one_key
  /\ initialize (deleteKey later_no_directory one_key_id one_key).2 = initialize one_key.
Proof.
  apply (ApiKeyManagerCoverage.initialize_discards_unsaved
           later_no_directory (ErrorObject "EACCES: permission denied, mkdir")
           (getAllKeys one_key) "spare" "openai" "other-key" one_key_id one_key);
    reflexivity.
Defined.

Lemma unknown_id_untouched_witness :
  getKey later_disk_full "feedbeef" one_key = (Return None, one_key)
  /\ updateKey later_disk_full "feedbeef" "other-key" one_key
     = (Throw (ErrorObject "API key not found: feedbeef"), one_key)
  /\ deleteKey later_disk_full "feedbeef" one_key
     = (Throw (ErrorObject "API key not found: feedbeef"), one_key).
Proof.
  apply (ApiKeyManagerCoverage.unknown_id_untouched
           later_disk_full "feedbeef" "other-key" one_key).
  reflexivity.
Defined.

Lemma deleteKey_removes_that_id_witness :
  JsMap.get one_key_id (keys (manager one_key)) <> None
  /\ getKey later one_key_id (deleteKey later one_key_id one_key).2
     = (Return None, (deleteKey later one_key_id one_key).2)
  /\ (forall j, j <> one_key_id ->
        JsMap.get j (keys (manager (deleteKey later one_key_id one_key).2))
        = JsMap.get j (keys (manager one_key)))
  /\ disk (deleteKey later one_key_id one_key).2
     = Some (getAllKeys (deleteKey later one_key_id one_key).2).
Proof.
  apply (ApiKeyManagerCoverage.deleteKey_removes_that_id
           later later one_key_id one_key (deleteKey later one_key_id one_key).2).
  reflexivity.
Defined.

(** The provider keeps answering with its first key. *)
Example second_key_not_served :
  getDecryptedKeyByProvider "openai"
    (addKey later "spare" "openai" "other-key" one_key).2
  = Return (Some "short-key").
Proof. reflexivity. Qed.


Lemma updateKey_getKey_short_plaintext_witness :
  exists w1 k1, updateKey later one_key_id "other-key" one_key = (Return tt, w1)
    /\ (getKey later one_key_id w1).1 = Return (Some "other-key")
    /\ JsMap.get one_key_id (keys (manager w1)) = Some k1
    /\ (id k1, name k1, provider k1, createdAt k1)
       = (one_key_id, "main", "openai", 1700000000000%Z)
    /\ lastUsed k1 = Some 1700000000500%Z
    /\ JsMap.keys (keys (manager w1)) = [one_key_id].
Proof.
  apply (ApiKeyManagerCoverage.updateKey_getKey_short_plaintext
           later later one_key_id "other-key"
           (mkStoredApiKey one_key_id "main" "openai"
              "7172737475767778797a303132333435:322b2e35356e2a2a3844565456505654"
              1700000000000 None) one_key);
    first [reflexivity | vm_compute; lia].
Defined.

End ApiKeyManagerCoverageRuns.

(** ** More on the orchestrator *)
Module AIAssistantCoverage.
Import AIAssistant AIAssistantFacts.

Section WithHost.
Context {E : Type} {host : Host E} {package : OpenAIPackage E}.

Lemma getConversation_ref (conversationId : string) (s : System E)
    (c : ConversationContext.t E) :
  getConversation conversationId s = Some c ->
  exists ref, JsMap.get conversationId (conversations (assistant s)) = Some ref
    /\ heap (assistant s) !! ref = Some c.
Proof.
  unfold getConversation.
  destruct (JsMap.get conversationId _) as [ref|]; cbn; [| done].
  intros Hc. by exists ref.
Qed.

(** X12.  When the first call to the backend throws, or its reply has no
    choice, [sendMessage] throws that error and the user message stays in the
    transcript: nothing is taken back. *)
Theorem sendMessage_failed_call_keeps_user_message
    (conversationId content : string) (metadata : option JsRecord) (s : System E)
    (c : ConversationContext.t E) (failed : Outcome OpenAI.Response) (error : JsThrown)
    (e1 : E) :
  getConversation conversationId s = Some c ->
  let userMessage := Message.mk Role.user content (Some (Date_now (env s))) metadata in
  openai (assistant s)
    (request_with_tools (config (assistant s))
       (ConversationContext.messages c ++ [userMessage]) (ConversationContext.tools c))
    (env s) = (failed, e1) ->
  failed = Throw error
  \/ (exists response, failed = Return response /\ OpenAI.choices response = []
        /\ error = ErrorObject "Cannot read properties of undefined (reading 'message')") ->
  let out := sendMessage conversationId content metadata s in
  out.1 = Throw error
  /\ env out.2 = e1
  /\ exists c', getConversation conversationId out.2 = Some c'
       /\ ConversationContext.messages c'
          = ConversationContext.messages c
              ++ [Message.mk Role.user content (Some (Date_now (env s))) metadata].
Proof.
  intros Hconv userMessage Hcall Hfailed out.
  apply getConversation_ref in Hconv as (ref & Hget & Hc).
  assert (Hout : out = (Throw error, with_env e1 (push_message ref userMessage s))).
  { unfold out, sendMessage. rewrite Hget. fold userMessage.
    rewrite (AIAssistantSpec.first_request_at ref _ (ConversationContext.push userMessage c))
      by (by rewrite lookup_push_message_eq, Hc).
    change (openai (assistant (push_message ref userMessage s))) with (openai (assistant s)).
    change (config (assistant (push_message ref userMessage s))) with (config (assistant s)).
    change (env (push_message ref userMessage s)) with (env s).
    cbn [ConversationContext.push ConversationContext.messages ConversationContext.tools].
    rewrite Hcall.
    destruct Hfailed as [-> | (response & -> & Hnone & ->)]; [done |].
    unfold first_choice. by rewrite Hnone. }
  rewrite Hout. cbn [fst snd]. split; [done |]. split; [done |].
  assert (Hc' : heap (assistant (with_env e1 (push_message ref userMessage s))) !! ref
                = Some (ConversationContext.push userMessage c)).
  { change (heap (assistant (with_env e1 (push_message ref userMessage s))))
      with (heap (assistant (push_message ref userMessage s))).
    by rewrite lookup_push_message_eq, Hc. }
  exists (ConversationContext.push userMessage c). split; [| done].
  unfold getConversation. cbn [assistant with_env push_message conversations].
  rewrite Hget. exact Hc'.
Qed.

(** X13.  When the follow-up call throws after the tool calls were executed,
    [sendMessage] throws that error; the tools have run (the host is the one
    the last call left, as the backend then found it), and the transcript
    keeps the user message, the assistant message and one tool message per
    call: a turn without its final assistant message. *)
Theorem sendMessage_failed_followUp_keeps_tool_messages
    (conversationId content : string) (metadata : option JsRecord) (s : System E)
    (c : ConversationContext.t E) (response : OpenAI.Response)
    (assistantMessage : OpenAI.ResponseMessage)
    (choices : list OpenAI.ResponseMessage)
    (toolCall : ToolCall.t) (more : list ToolCall.t) (error : JsThrown) (e1 e3 : E) :
  getConversation conversationId s = Some c ->
  let cfg := config (assistant s) in
  let pm := pluginManager s in
  let userMessage := Message.mk Role.user content (Some (Date_now (env s))) metadata in
  openai (assistant s)
    (request_with_tools cfg (ConversationContext.messages c ++ [userMessage])
       (ConversationContext.tools c))
    (env s) = (Return response, e1) ->
  OpenAI.choices response = assistantMessage :: choices ->
  OpenAI.tool_calls assistantMessage = Some (toolCall :: more) ->
  let toolCalls := toolCall :: more in
  let ran := executeToolCalls toolCalls pm e1 in
  let e2 := ran.2 in
  let transcript :=
    ConversationContext.messages c
      ++ [userMessage;
          Message.mk Role.assistant
            (match OpenAI.message_content assistantMessage with
             | Some text => text
             | None => ""
             end) (Some (Date_now e1)) None]
      ++ map (fun r =>
                Message.mk Role.tool (ToolResponse.content r) (Some (Date_now e2))
                  (Some [("toolCallId", JsStr (ToolResponse.toolCallId r));
                         ("error", match ToolResponse.error r with
                                   | Some m => JsStr m
                                   | None => JsUndefined
                                   end)]))
            ran.1 in
  openai (assistant s) (request_without_tools cfg transcript) e2 = (Throw error, e3) ->
  let out := sendMessage conversationId content metadata s in
  out.1 = Throw error
  /\ env out.2 = e3
  /\ (exists c', getConversation conversationId out.2 = Some c'
        /\ ConversationContext.messages c' = transcript)
  /\ map ToolResponse.toolCallId ran.1 = map ToolCall.id toolCalls.
Proof.
  intros Hconv cfg pm userMessage Hreply Hchoices Hcalls toolCalls ran e2 transcript
    Hfollow out.
  assert (Hchoice : first_choice response = Return assistantMessage)
    by (unfold first_choice; by rewrite Hchoices).
  apply getConversation_ref in Hconv as (ref & Hget & Hc).
  pose proof (lookup_lt_Some _ _ _ Hc) as Hlt.
  assert (Hids : map ToolResponse.toolCallId ran.1 = map ToolCall.id toolCalls)
    by apply executeToolCalls_toolCallIds.
  assert (Hrun : executeToolCalls (toolCall :: more) (pluginManager s) e1 = (ran.1, ran.2))
    by apply surjective_pairing.
  unfold e2 in *. clear e2.
  clearbody ran. destruct ran as [rs e2]. cbn [fst snd] in *.
  unfold cfg, pm in *. clear cfg pm.
  set (s1 := push_message ref userMessage s).
  set (s2 := push_message ref (assistant_message assistantMessage e1) (with_env e1 s1)).
  set (s3 := push_tool_messages ref rs (with_env e2 s2)).
  assert (Hlt2 : ref < length (heap (assistant (with_env e2 s2)))).
  { cbn. by rewrite !length_alter. }
  assert (Hmsgs3 : messages_at ref s3 = transcript).
  { unfold s3. rewrite messages_at_push_tool_messages by done.
    unfold transcript. cbn [env with_env].
    unfold messages_at. cbn. rewrite !list_lookup_alter_eq, Hc. cbn.
    by rewrite <- !app_assoc. }
  destruct (conversations_push_tool_messages ref rs (with_env e2 s2))
    as (Hconvs3 & _ & Hopenai3 & Hcfg3 & Hlen3).
  fold s3 in Hconvs3, Hopenai3, Hcfg3, Hlen3.
  assert (Henv3 : env s3 = e2) by (unfold s3; by rewrite env_push_tool_messages).
  assert (Hout : out = (Throw error, with_env e3 s3)).
  { unfold out, sendMessage. rewrite Hget. fold userMessage. fold s1.
    rewrite (AIAssistantSpec.first_request_at ref s1 (ConversationContext.push userMessage c))
      by (unfold s1; by rewrite lookup_push_message_eq, Hc).
    change (openai (assistant s1)) with (openai (assistant s)).
    change (config (assistant s1)) with (config (assistant s)).
    change (env s1) with (env s).
    cbn [ConversationContext.push ConversationContext.messages ConversationContext.tools].
    rewrite Hreply, Hchoice.
    change (env (with_env e1 s1)) with e1. fold s2. rewrite Hcalls.
    change (pluginManager s2) with (pluginManager s). change (env s2) with e1.
    rewrite Hrun. fold s3.
    unfold followUp, followUp_request. rewrite Hmsgs3, Hopenai3, Hcfg3, Henv3.
    change (openai (assistant (with_env e2 s2))) with (openai (assistant s)).
    change (config (assistant (with_env e2 s2))) with (config (assistant s)).
    by rewrite Hfollow. }
  rewrite Hout. cbn [fst snd]. split; [done |]. split; [done |]. split; [| done].
  assert (is_Some (heap (assistant s3) !! ref)) as [c3 Hc3].
  { apply lookup_lt_is_Some_2. rewrite Hlen3. done. }
  exists c3. split.
  - unfold getConversation. cbn [with_env assistant]. rewrite Hconvs3.
    cbn [with_env assistant]. change (conversations (assistant s2)) with (conversations (assistant s)).
    rewrite Hget. exact Hc3.
  - rewrite <- Hmsgs3. unfold messages_at. by rewrite Hc3.
Qed.

(** X14.  [createConversation] with an id of the caller's installs a new
    context under it: one system message (the prompt with the time of the
    call) and the tools registered at that moment.  A conversation that was
    under that id is replaced, its transcript no longer reachable; every other
    conversation, the registry and the host stay as they were. *)
Theorem createConversation_installs_fresh_context (given : string) (s : System E) :
  no_aliasing s -> given <> "" ->
  let out := createConversation (Some given) s in
  let now := Date_now (env s) in
  out.1 = given
  /\ env out.2 = env s
  /\ pluginManager out.2 = pluginManager s
  /\ getConversation given out.2
     = Some (ConversationContext.mk
               [Message.mk Role.system (system_prompt_text +:+ Date_toISOString now)
                  (Some now) None]
               (JsMap.values (PluginManager.tools (pluginManager s)))
               [("createdAt", JsNum now)])
  /\ forall other, other <> given ->
       getConversation other out.2 = getConversation other s.
Proof.
  intros [_ Hbound] Hgiven out now. unfold out, createConversation.
  apply String.eqb_neq in Hgiven. rewrite Hgiven. cbn [fst snd env pluginManager].
  split; [done |]. split; [done |]. split; [done |]. split.
  - unfold getConversation. cbn [assistant conversations heap].
    rewrite JsMapFacts.get_set_eq. cbn [mbind option_bind].
    by rewrite list_lookup_middle.
  - intros other Hother. unfold getConversation. cbn [assistant conversations heap].
    rewrite JsMapFacts.get_set_ne by done.
    destruct (JsMap.get other _) as [ref|] eqn:Hget; [| done]. cbn [mbind option_bind].
    apply Hbound in Hget. by rewrite lookup_app_l.
Qed.

(** X15.  [deleteConversation] tells whether the conversation existed and
    removes it: afterwards it is not found, [sendMessage] to it throws
    ["Conversation not found: <id>"] and changes nothing, and every other
    conversation is as it was. *)
Theorem deleteConversation_then_not_found
    (a content : string) (metadata : option JsRecord) (s : System E) :
  no_aliasing s ->
  let out := deleteConversation a s in
  (out.1 = true <-> exists c, getConversation a s = Some c)
  /\ getConversation a out.2 = None
  /\ sendMessage a content metadata out.2
     = (Throw (ErrorObject ("Conversation not found: " +:+ a)), out.2)
  /\ forall other, other <> a ->
       getConversation other out.2 = getConversation other s.
Proof.
  intros [_ Hbound] out. unfold out, deleteConversation. cbn [fst snd].
  split; [| split; [| split]].
  - unfold JsMap.has, getConversation.
    destruct (JsMap.get a _) as [ref|] eqn:Hget; cbn [mbind option_bind].
    + split; [| done]. intros _. apply Hbound in Hget.
      by apply lookup_lt_is_Some_2 in Hget as [c Hc]; exists c.
    + split; [done | by intros (c & [=])].
  - unfold getConversation. cbn [assistant conversations].
    by rewrite JsMapFacts.get_delete_eq.
  - unfold sendMessage. cbn [assistant conversations].
    by rewrite JsMapFacts.get_delete_eq.
  - intros other Hother. unfold getConversation. cbn [assistant conversations heap].
    by rewrite JsMapFacts.get_delete_ne.
Qed.

End WithHost.
End AIAssistantCoverage.

Module AIAssistantCoverageRuns.
Import AIAssistant Fixtures.

Lemma no_aliasing_three_conversations (replies : list OpenAI.Response) :
  no_aliasing (three_conversations replies).
Proof.
  unfold three_conversations.
  do 3 apply AIAssistantSpec.no_aliasing_createConversation.
  apply AIAssistantSpec.no_aliasing_new.
Defined.

(** The backend is down: the send throws, and the question stays in the
    transcript. *)
Lemma sendMessage_failed_call_keeps_user_message_witness :
  let out := sendMessage "a" "hello" None (three_conversations []) in
  out.1 = Throw (ErrorObject "Connection error.")
  /\ env out.2 = mkEnv 1000 [] []
  /\ exists c', getConversation "a" out.2 = Some c'
       /\ ConversationContext.messages c'
          = ConversationContext.messages (fresh_context [])
              ++ [Message.mk Role.user "hello" (Some 1000%Z) None].
Proof.
  destruct (AIAssistantCoverage.sendMessage_failed_call_keeps_user_message
              "a" "hello" None (three_conversations []) (fresh_context [])
              (Throw (ErrorObject "Connection error.")) (ErrorObject "Connection error.")
              (mkEnv 1000 [] []))
    as (Hthrow & Henv & c' & Hc' & Hmessages);
    [reflexivity | reflexivity | left; reflexivity |].
  split; [exact Hthrow |]. split; [exact Henv |].
  exists c'. split; [exact Hc' | exact Hmessages].
Defined.

(** The backend goes down after the tools ran: the send throws, the tools
    have left their trace, and the transcript ends with the tool messages. *)
Lemma sendMessage_failed_followUp_keeps_tool_messages_witness :
  let out := sendMessage "a" "run them" None (three_conversations [calls three_calls]) in
  out.1 = Throw (ErrorObject "Connection error.")
  /\ env out.2 = mkEnv 1005 [] ["echo_tool"; "get_time"]
  /\ outline out.2 "a"
     = [(Role.user, JsUndefined, "run them");
        (Role.assistant, JsUndefined, "");
        (Role.tool, JsStr "c1", "ok");
        (Role.tool, JsStr "c2", "error: Tool not found: missing_tool");
        (Role.tool, JsStr "c3", "ok")].
Proof.
  destruct (AIAssistantCoverage.sendMessage_failed_followUp_keeps_tool_messages
              "a" "run them" None (three_conversations [calls three_calls])
              (fresh_context [calls three_calls])
              (calls three_calls) (OpenAI.mkResponseMessage None (Some three_calls)) []
              (call "c1" "echo_tool") [call "c2" "missing_tool"; call "c3" "get_time"]
              (ErrorObject "Connection error.")
              (mkEnv 1001 [] []) (mkEnv 1005 [] ["echo_tool"; "get_time"]))
    as (Hthrow & Henv & (c' & Hc' & Hmessages) & _);
    [reflexivity | reflexivity | reflexivity | reflexivity | reflexivity |].
  split; [exact Hthrow |]. split; [exact Henv |].
  unfold outline. rewrite Hc', Hmessages. reflexivity.
Defined.

(** Creating [b] again drops its transcript and leaves [a] alone. *)
Lemma createConversation_installs_fresh_context_witness :
  let s := (sendMessage "b" "hello" None
              (sendMessage "a" "hello" None
                 (three_conversations [says "for a"; says "for b"])).2).2 in
  let out := createConversation (Some "b") s in
  outline s "b" = [(Role.user, JsUndefined, "hello"); (Role.assistant, JsUndefined, "for b")]
  /\ out.1 = "b"
  /\ outline out.2 "b" = []
  /\ getConversation "a" out.2 = getConversation "a" s.
Proof.
  split; [reflexivity |].
  destruct (AIAssistantCoverage.createConversation_installs_fresh_context "b"
              (sendMessage "b" "hello" None
                 (sendMessage "a" "hello" None
                    (three_conversations [says "for a"; says "for b"])).2).2)
    as (Hid & _ & _ & Hfresh & Hothers).
  - do 2 apply AIAssistantSpec.no_aliasing_sendMessage.
    apply no_aliasing_three_conversations.
  - discriminate.
  - split; [exact Hid |]. split.
    + unfold outline. by rewrite Hfresh.
    + by apply Hothers.
Defined.

Lemma deleteConversation_then_not_found_witness :
  let out := deleteConversation "b" (three_conversations []) in
  (out.1 = true <-> exists c, getConversation "b" (three_conversations []) = Some c)
  /\ getConversation "b" out.2 = None
  /\ sendMessage "b" "hello" None out.2
     = (Throw (ErrorObject "Conversation not found: b"), out.2)
  /\ forall other, other <> "b" ->
       getConversation other out.2 = getConversation other (three_conversations []).
Proof.
  apply (AIAssistantCoverage.deleteConversation_then_not_found
           "b" "hello" None (three_conversations [])).
  apply no_aliasing_three_conversations.
Defined.

End AIAssistantCoverageRuns.

(** ** More on the provider registry *)
Module AIProviderManagerCoverage.
Import AIProviderManager.

Section WithHost.
Context {E : Type}.

(** X16.  When the factory of the chosen provider throws, [setProvider]
    throws the same error with the registry half updated: the configuration
    is the new one, the client is still the one of before, so [chat] and
    [streamChat] go on answering through the old provider. *)
Theorem setProvider_failed_factory_keeps_old_client
    (config : AIModelConfig.t) (m : t E) (provider : AIProvider.t E) (error : JsThrown) :
  getProvider (AIModelConfig.provider config) m = Some provider ->
  AIProvider.createClient provider config = Throw error ->
  let out := setProvider config m in
  out.1 = Throw error
  /\ getCurrentConfig out.2 = Some config
  /\ currentProvider out.2 = currentProvider m
  /\ providers out.2 = providers m
  /\ (forall messages tools e,
        chat messages tools out.2 e = chat messages tools m e
        /\ streamChat messages tools out.2 e = streamChat messages tools m e).
Proof.
  intros Hprovider Hfactory out. unfold getProvider in Hprovider.
  unfold out, setProvider. rewrite Hprovider, Hfactory. by repeat split.
Qed.

End WithHost.
End AIProviderManagerCoverage.

Module AIProviderManagerCoverageRuns.
Import AIProviderManager Fixtures Scenarios.

Lemma setProvider_failed_factory_keeps_old_client_witness :
  let out := setProvider keyless_config plain_and_keyless in
  getCurrentProviderName plain_and_keyless = Some "plain"
  /\ out.1 = Throw (ErrorObject "API key is required.")
  /\ getCurrentProviderName out.2 = Some "keyless"
  /\ (chat hello None out.2 quiet).1 = Return (AIResponse.mk "Hello there" None None).
Proof.
  destruct (AIProviderManagerCoverage.setProvider_failed_factory_keeps_old_client
              keyless_config plain_and_keyless keyless_provider
              (ErrorObject "API key is required.") eq_refl eq_refl)
    as (Hthrow & Hconfig & _ & _ & Hchat).
  split; [reflexivity |]. split; [exact Hthrow |]. split.
  - unfold getCurrentProviderName.
    change (currentConfig (setProvider keyless_config plain_and_keyless).2)
      with (getCurrentConfig (setProvider keyless_config plain_and_keyless).2).
    by rewrite Hconfig.
  - by rewrite (proj1 (Hchat hello None quiet)).
Defined.

End AIProviderManagerCoverageRuns.

(** ** More on the plugin registry *)
Module PluginManagerCoverage.
Import PluginManager PluginManagerFacts.

Section WithHost.
Context {E : Type} {host : Host E}.

Lemma tools_by_name_set_tools (ts : list (Tool.t E)) (m : JsMap.t (Tool.t E)) :
  Forall (fun entry => entry.1 = Tool.name entry.2) m ->
  Forall (fun entry => entry.1 = Tool.name entry.2) (set_tools ts m).
Proof.
  unfold set_tools. revert m. induction ts as [|tool ts IH]; intros m Hm; [done |].
  cbn [fold_left]. apply IH. by apply JsMapMoreFacts.Forall_set.
Qed.

Lemma tools_by_name_delete_tools (ts : list (Tool.t E)) (m : JsMap.t (Tool.t E)) :
  Forall (fun entry => entry.1 = Tool.name entry.2) m ->
  Forall (fun entry => entry.1 = Tool.name entry.2) (delete_tools ts m).
Proof.
  unfold delete_tools. revert m. induction ts as [|tool ts IH]; intros m Hm; [done |].
  cbn [fold_left]. apply IH. by apply JsMapMoreFacts.Forall_delete.
Qed.

Lemma tools_by_name_registerPlugin (p : Plugin.t E) (pm : t E) :
  tools_by_name pm -> tools_by_name (registerPlugin p pm).
Proof. apply tools_by_name_set_tools. Qed.

Lemma tools_by_name_unregisterPlugin (n : string) (pm : t E) (e : E) :
  tools_by_name pm -> tools_by_name (unregisterPlugin n pm e).1.
Proof.
  intros Hpm. unfold unregisterPlugin.
  destruct (JsMap.get n (plugins pm)) as [p|]; [| done].
  by apply tools_by_name_delete_tools.
Qed.

Lemma tools_by_name_loadPlugin (imported : Outcome (option (Plugin.t E)))
    (pm : t E) (e : E) :
  tools_by_name pm -> tools_by_name (loadPlugin imported pm e).1.
Proof.
  intros Hpm. unfold loadPlugin.
  destruct imported as [[p|]|]; [| done | done].
  destruct (String.eqb _ _); [done |]. destruct (negb _); [done |].
  destruct (Plugin.initialize p); by apply tools_by_name_registerPlugin.
Qed.

Lemma tools_by_name_loadPlugins (files : PluginFiles E) (pm : t E) (e : E) :
  tools_by_name pm -> tools_by_name (loadPlugins files pm e).1.
Proof.
  intros Hpm. unfold loadPlugins.
  destruct (readdir files _) as [listed|]; [| done].
  generalize (List.filter is_plugin_file listed). intros l.
  change pm with (pm, e).1 in Hpm. revert Hpm. generalize (pm, e).
  induction l as [|file l IH]; intros state Hstate; [done |].
  cbn [fold_left]. apply IH. by apply tools_by_name_loadPlugin.
Qed.

Lemma tools_by_name_unregister_all (names : list string) (state : t E * E) :
  tools_by_name state.1 -> tools_by_name (fold_left unregister_turn names state).1.
Proof.
  revert state. induction names as [|n names IH]; intros state Hstate; [done |].
  cbn [fold_left]. apply IH. by apply tools_by_name_unregisterPlugin.
Qed.

(** X17.  Dispatch by name finds a tool of that name.  When every tool of
    the table sits under its own name, a name resolves only to a tool so
    named, and the table stays so through [registerPlugin],
    [unregisterPlugin], [loadPlugin], [loadPlugins], [reloadPlugin] and
    [reloadAllPlugins]. *)
Theorem tools_by_name_kept
    (files : PluginFiles E) (p : Plugin.t E) (imported : Outcome (option (Plugin.t E)))
    (n : string) (pm : t E) (e : E) :
  tools_by_name pm ->
  (forall name tool, getTool name pm = Some tool -> Tool.name tool = name)
  /\ tools_by_name (registerPlugin p pm)
  /\ tools_by_name (unregisterPlugin n pm e).1
  /\ tools_by_name (loadPlugin imported pm e).1
  /\ tools_by_name (loadPlugins files pm e).1
  /\ tools_by_name (reloadPlugin files n pm e).2.1
  /\ tools_by_name (reloadAllPlugins files pm e).1.
Proof.
  intros Hpm. split; [| split; [| split; [| split; [| split; [| split]]]]].
  - intros name tool Hget. unfold getTool in Hget.
    apply JsMapMoreFacts.get_Some_In, list_elem_of_In in Hget.
    pose proof (proj1 (Forall_forall _ _) Hpm _ Hget) as Hname. by cbn in Hname.
  - by apply tools_by_name_registerPlugin.
  - by apply tools_by_name_unregisterPlugin.
  - by apply tools_by_name_loadPlugin.
  - by apply tools_by_name_loadPlugins.
  - unfold reloadPlugin. destruct (JsMap.get n (plugins pm)); [| done].
    cbn [snd]. apply tools_by_name_loadPlugins. by apply tools_by_name_unregisterPlugin.
  - unfold reloadAllPlugins. apply tools_by_name_loadPlugins.
    by apply tools_by_name_unregister_all.
Qed.

Lemma no_tool_of_that_name (n : string) (ts : list (Tool.t E)) :
  (forall other, In other ts -> Tool.name other <> n) ->
  filter (fun t => Tool.name t = n) ts = [].
Proof.
  induction ts as [|t ts IH]; intros Hother; [done |].
  rewrite filter_cons. destruct (decide (Tool.name t = n)) as [Heq|_].
  - exfalso. apply (Hother t); [by left | done].
  - apply IH. intros other Ho. apply Hother. by right.
Qed.

(** X18.  Registering a plugin again under its name replaces the plugin and
    leaves the tools of the first registration in the table; unregistering
    removes only the tools of the plugin found under the name.  A tool that
    only the first registration listed is still dispatched when no plugin of
    that name is registered any more. *)
Theorem reregistered_plugin_leaves_tools
    (p1 p2 : Plugin.t E) (tool : Tool.t E) (pm : t E) (e : E) :
  Plugin.name p1 = Plugin.name p2 ->
  In tool (Plugin.tools p1) ->
  (forall other, In other (Plugin.tools p2) -> Tool.name other <> Tool.name tool) ->
  let pm' := (unregisterPlugin (Plugin.name p2)
                (registerPlugin p2 (registerPlugin p1 pm)) e).1 in
  getPlugin (Plugin.name p1) pm' = None
  /\ getToolsByPlugin (Plugin.name p1) pm' = []
  /\ exists found, getTool (Tool.name tool) pm' = Some found
       /\ In found (Plugin.tools p1) /\ Tool.name found = Tool.name tool.
Proof.
  intros Hname Hin Hother pm'.
  assert (Hpm' : pm' = mk (JsMap.delete (Plugin.name p2)
                            (plugins (registerPlugin p2 (registerPlugin p1 pm))))
                         (delete_tools (Plugin.tools p2)
                            (tools (registerPlugin p2 (registerPlugin p1 pm))))
                         (pluginsDirectory pm)).
  { unfold pm', unregisterPlugin. cbn [registerPlugin plugins].
    by rewrite JsMapFacts.get_set_eq. }
  rewrite Hpm'. unfold getPlugin, getToolsByPlugin, getTool. cbn [plugins tools].
  rewrite Hname, JsMapFacts.get_delete_eq. split; [done |]. split; [done |].
  rewrite get_delete_tools.
  assert (Hnone : existsb (fun t => String.eqb (Tool.name t) (Tool.name tool))
                    (Plugin.tools p2) = false).
  { apply not_true_is_false. intros Hex. apply existsb_exists in Hex as (t & Ht & Heq).
    apply String.eqb_eq in Heq. by apply (Hother t Ht). }
  rewrite Hnone. cbn [registerPlugin tools]. rewrite get_set_tools.
  assert (Hfilter2 : filter (fun t => Tool.name t = Tool.name tool) (Plugin.tools p2) = []).
  { by apply no_tool_of_that_name. }
  rewrite Hfilter2. cbn [last]. rewrite get_set_tools.
  assert (Hlast : is_Some (last (filter (fun t => Tool.name t = Tool.name tool)
                                   (Plugin.tools p1)))).
  { apply last_is_Some. intros Hnil.
    assert (Hmember : tool ∈ filter (fun t => Tool.name t = Tool.name tool)
                        (Plugin.tools p1)).
    { apply list_elem_of_filter. split; [done | by apply list_elem_of_In]. }
    rewrite Hnil in Hmember. by apply not_elem_of_nil in Hmember. }
  destruct Hlast as [found Hfound]. rewrite Hfound. exists found. split; [done |].
  apply last_Some_elem_of in Hfound as Hmember.
  apply list_elem_of_filter in Hmember as [Hn Hm]. split; [by apply list_elem_of_In | done].
Qed.

Lemma loadPlugin_pluginsDirectory (imported : Outcome (option (Plugin.t E)))
    (pm : t E) (e : E) :
  pluginsDirectory (loadPlugin imported pm e).1 = pluginsDirectory pm.
Proof.
  unfold loadPlugin. destruct imported as [[p|]|]; [| done | done].
  destruct (String.eqb _ _); [done |]. destruct (negb _); [done |].
  by destruct (Plugin.initialize p).
Qed.

Lemma loadPlugin_other_name (imported : Outcome (option (Plugin.t E)))
    (n : string) (pm : t E) (e : E) :
  (forall q, imported = Return (Some q) -> Plugin.name q <> n) ->
  getPlugin n (loadPlugin imported pm e).1 = getPlugin n pm.
Proof.
  intros Hother. unfold loadPlugin. destruct imported as [[p|]|]; [| done | done].
  destruct (String.eqb _ _); [done |]. destruct (negb _); [done |].
  assert (Hne : Plugin.name p <> n) by (by apply Hother).
  destruct (Plugin.initialize p); unfold getPlugin; cbn [fst registerPlugin plugins];
    by rewrite JsMapFacts.get_set_ne.
Qed.

(** X19.  [reloadPlugin] unregisters the plugin and reads the directory
    again.  A plugin that no file of the directory brings back (it was
    registered by the program, its file is gone, or the directory cannot be
    listed) is no longer registered after a reload that returns normally;
    for a name that is not registered, [reloadPlugin] throws
    ["Plugin not found: <name>"] and changes nothing. *)
Theorem reloadPlugin_drops_unbacked_plugin
    (files : PluginFiles E) (n : string) (pm : t E) (e : E) :
  (forall listed file q,
     readdir files (pluginsDirectory pm) = Return listed -> In file listed ->
     import_plugin files (pluginsDirectory pm) file = Return (Some q) ->
     Plugin.name q <> n) ->
  let out := reloadPlugin files n pm e in
  match getPlugin n pm with
  | Some _ =>
      out.1 = Return tt /\ getPlugin n out.2.1 = None
      /\ getToolsByPlugin n out.2.1 = []
  | None => out = (Throw (ErrorObject ("Plugin not found: " +:+ n)), (pm, e))
  end.
Proof.
  intros Hfiles out. unfold out, reloadPlugin, getPlugin.
  destruct (JsMap.get n (plugins pm)) as [p|] eqn:Hp; [| done].
  cbn [fst snd]. split; [done |].
  assert (Hgone : getPlugin n (loadPlugins files (unregisterPlugin n pm e).1
                                 (unregisterPlugin n pm e).2).1 = None).
  { unfold loadPlugins.
    assert (Hdir : pluginsDirectory (unregisterPlugin n pm e).1 = pluginsDirectory pm)
      by (unfold unregisterPlugin; by rewrite Hp).
    assert (Hstart : getPlugin n (unregisterPlugin n pm e).1 = None).
    { unfold unregisterPlugin, getPlugin. rewrite Hp. cbn [fst plugins].
      apply JsMapFacts.get_delete_eq. }
    rewrite Hdir.
    destruct (readdir files (pluginsDirectory pm)) as [listed|] eqn:Hlisted; [| done].
    assert (Hsub : forall file, In file (List.filter is_plugin_file listed) ->
                     In file listed).
    { intros file Hfile. by apply filter_In in Hfile as [Hfile _]. }
    revert Hsub. generalize (List.filter is_plugin_file listed). intros l Hsub.
    set (state := ((unregisterPlugin n pm e).1, (unregisterPlugin n pm e).2)).
    assert (Hstate : getPlugin n state.1 = None /\ pluginsDirectory state.1 = pluginsDirectory pm)
      by done.
    clearbody state. revert state Hstate.
    induction l as [|file l IH]; intros state [Hnone Hsame]; [done |].
    cbn [fold_left]. apply IH.
    - intros f Hf. apply Hsub. by right.
    - unfold load_turn. split.
      + rewrite loadPlugin_other_name; [done |]. rewrite Hsame. intros q Hq.
        eapply Hfiles; [reflexivity | | exact Hq]. apply Hsub. by left.
      + by rewrite loadPlugin_pluginsDirectory. }
  split; [exact Hgone |].
  unfold getToolsByPlugin. unfold getPlugin in Hgone. by rewrite Hgone.
Qed.

End WithHost.
End PluginManagerCoverage.

Module PluginManagerCoverageRuns.
Import PluginManager Fixtures Scenarios.

Lemma tools_by_name_kept_witness :
  (forall name tool, getTool name toolbox = Some tool -> Tool.name tool = name)
  /\ tools_by_name (registerPlugin echo_plugin toolbox)
  /\ tools_by_name (unregisterPlugin "box" toolbox quiet).1
  /\ tools_by_name (loadPlugin (Return (Some time_plugin)) toolbox quiet).1
  /\ tools_by_name (loadPlugins plugin_directory toolbox quiet).1
  /\ tools_by_name (reloadPlugin plugin_directory "box" toolbox quiet).2.1
  /\ tools_by_name (reloadAllPlugins plugin_directory toolbox quiet).1.
Proof.
  apply (PluginManagerCoverage.tools_by_name_kept
           plugin_directory echo_plugin (Return (Some time_plugin)) "box" toolbox quiet).
  repeat constructor.
Defined.

(** The second registration of [box] lists no [echo_tool]; after
    unregistering [box], no plugin is left and [echo_tool] still runs. *)
Lemma reregistered_plugin_leaves_tools_witness :
  let pm' := (unregisterPlugin "box" (registerPlugin box_v2 (registerPlugin box_v1 new))
                quiet).1 in
  getPlugin "box" pm' = None
  /\ getToolsByPlugin "box" pm' = []
  /\ exists found, getTool "echo_tool" pm' = Some found
       /\ In found [echo_tool; get_time] /\ Tool.name found = "echo_tool".
Proof.
  pose proof (PluginManagerCoverage.reregistered_plugin_leaves_tools
                box_v1 box_v2 echo_tool new quiet eq_refl) as Hleft.
  apply Hleft.
  - left. reflexivity.
  - intros other [<- | []]. discriminate.
Defined.

Example orphan_tool_runs :
  let pm' := (unregisterPlugin "box" (registerPlugin box_v2 (registerPlugin box_v1 new))
                quiet).1 in
  getAllPlugins pm' = []
  /\ (executeTool "echo_tool" (JsStr "{}") pm' quiet).1
     = Return (mkExecuted (ToolResult.mk true (Some (JsStr "echo")) None None) 2).
Proof. split; reflexivity. Qed.

(** [box] was registered by the program; the directory holds [time] and
    [echo].  After reloading [box], [box] and its [failing_tool] are gone. *)
Lemma reloadPlugin_drops_unbacked_plugin_witness :
  let out := reloadPlugin plugin_directory "box" toolbox quiet in
  out.1 = Return tt /\ getPlugin "box" out.2.1 = None
  /\ getToolsByPlugin "box" out.2.1 = [].
Proof.
  pose proof (PluginManagerCoverage.reloadPlugin_drops_unbacked_plugin
                plugin_directory "box" toolbox quiet) as Hdropped.
  apply Hdropped.
  intros listed file q Hlisted Hfile Himport.
  vm_compute in Hlisted. injection Hlisted as <-.
  destruct Hfile as [<- | [<- | [<- | []]]]; vm_compute in Himport;
    first [discriminate Himport | injection Himport as <-; discriminate].
Defined.

Example reloadPlugin_reads_directory :
  let out := reloadPlugin plugin_directory "box" toolbox quiet in
  map Plugin.name (getAllPlugins out.2.1) = ["time"; "echo"]
  /\ map Tool.name (getAllTools out.2.1) = ["get_time"; "echo_tool"].
Proof. split; reflexivity. Qed.

End PluginManagerCoverageRuns.

(** ** The logger *)
Module LoggerCoverage.
Import Logger.

Section WithHost.
Context {E : Type} {host : Host E} {console : Console E}.

Lemma or_INFO_not_DEBUG (value : option Stored) : or_INFO value <> Number DEBUG.
Proof. by destruct value as [[[]|[]]|]. Qed.

(** X20.  No string selects the debug level.  After [setLevel] with a
    string, whatever it is, [debug] prints and writes nothing: the name
    ["debug"] gives the number 0, which [||] replaces by [INFO].  A string
    that [toUpperCase] turns into one of ["0"] to ["3"] stores a name instead
    of a number, and then [info] and [warn] are silent as well. *)
Theorem setLevel_string_never_debug
    (level message : string) (meta : option JsVal) (logger : t) (e : E) :
  let configured := setLevel (inr level) logger in
  debug message meta configured e = e
  /\ (String_toUpperCase level = "DEBUG" -> logLevel configured = Number INFO)
  /\ (In (String_toUpperCase level) ["0"; "1"; "2"; "3"] ->
      info message meta configured e = e /\ warn message meta configured e = e)
  /\ (In (String_toUpperCase level) ["INFO"; "WARN"; "ERROR"] ->
      logLevel configured
      = Number (if String.eqb (String_toUpperCase level) "INFO" then INFO
                else if String.eqb (String_toUpperCase level) "WARN" then WARN
                else ERROR)).
Proof.
  intros configured. unfold configured, setLevel.
  split; [| split; [| split]].
  - unfold debug, log. cbn [logLevel].
    pose proof (or_INFO_not_DEBUG (enum_member (String_toUpperCase level))) as Hnot.
    by destruct (or_INFO _) as [[]|[]].
  - intros Hkey. cbn [logLevel]. by rewrite Hkey.
  - intros Hkey. unfold info, warn, log. cbn [logLevel].
    by destruct Hkey as [<- | [<- | [<- | [<- | []]]]].
  - intros Hkey. cbn [logLevel].
    by destruct Hkey as [<- | [<- | [<- | []]]].
Qed.

End WithHost.
End LoggerCoverage.

Module LoggerCoverageRuns.
Import Logger Fixtures Scenarios.

(** [LOG_LEVEL=debug]: the level is [INFO], and debug messages are lost. *)
Lemma setLevel_string_never_debug_witness :
  let configured := setLevel (inr "debug") new in
  debug "starting" None configured quiet = quiet
  /\ logLevel configured = Number INFO
  /\ journal (info "ready" None configured quiet) = ["info: [1000] [INFO] ready"].
Proof.
  destruct (LoggerCoverage.setLevel_string_never_debug
              "debug" "starting" None new quiet) as (Hdebug & Hlevel & _ & _).
  split; [exact Hdebug |]. split; [by apply Hlevel | reflexivity].
Defined.

(** A level given as a digit silences the logger. *)
Example setLevel_digit_silences :
  let configured := setLevel (inr "0") new in
  logLevel configured = Name DEBUG
  /\ warn "disk almost full" None configured quiet = quiet.
Proof. split; reflexivity. Qed.

End LoggerCoverageRuns.

(** ** The integration manager *)
Module IntegrationManagerCoverage.
Import IntegrationManager.

Lemma delete_set_fresh {V} (k : string) (v : V) (m : JsMap.t V) :
  JsMap.get k m = None -> JsMap.delete k (JsMap.set k v m) = m.
Proof.
  induction m as [|[k' v'] m IH]; cbn.
  - by rewrite String.eqb_refl.
  - destruct (String.eqb k' k) eqn:Hk; [done |]. intros Hm. cbn. by rewrite Hk, IH.
Qed.

Section WithHost.
Context {E : Type} {host : Host E} {executors : Executors E}.

(** X21.  [testConnection] answers [success: true] for every connection
    that exists, whatever the ping did: [executeAction] reports its failures
    in the result it returns, and [testConnection] wraps that result as the
    data of a success, also when the application is not connected, has no
    [ping] capability, or the ping threw. *)
Theorem testConnection_reports_success
    (appId : string) (connection : AppConnection.t) (m : t) (e : E) :
  getConnection appId m = Some connection ->
  let out := testConnection appId m e in
  let ping := executeAction appId "ping" [] m e in
  out.1 = ActionResult.mk true "Connection test successful"
            (ActionResult.Result ping.1) None
  /\ out.2 = ping.2
  /\ (AppConnection.status connection <> "connected" ->
      ping = (ActionResult.mk false
                ("App not connected: " +:+ AppConnection.appName connection)
                ActionResult.NoData (Some "App not connected"), (m, e)))
  /\ (AppConnection.status connection = "connected" ->
      ~ In "ping" (AppConnection.capabilities connection) ->
      ping = (ActionResult.mk false "Action not supported: ping"
                ActionResult.NoData (Some "Action not supported"), (m, e)))
  /\ (AppConnection.status connection = "connected" ->
      In "ping" (AppConnection.capabilities connection) ->
      forall error e',
        performAction
          (AppConnection.mk (AppConnection.appId connection)
             (AppConnection.appName connection) (AppConnection.type connection)
             "connected" (AppConnection.capabilities connection)
             (AppConnection.config connection) (Some (Date_now e)))
          "ping" [] e = (Throw error, e') ->
        ping.1 = ActionResult.mk false "Failed to execute action" ActionResult.NoData
                   (Some (error_message error))).
Proof.
  intros Hget out ping. unfold getConnection in Hget.
  split; [| split; [| split; [| split]]].
  - unfold out, testConnection. rewrite Hget. fold ping. by destruct ping.
  - unfold out, testConnection. rewrite Hget. fold ping. by destruct ping.
  - intros Hstatus. unfold ping, executeAction. rewrite Hget.
    apply String.eqb_neq in Hstatus. by rewrite Hstatus.
  - intros Hstatus Hping. unfold ping, executeAction.
    rewrite Hget, Hstatus, String.eqb_refl. cbn [negb].
    assert (Hnone : existsb (String.eqb "ping") (AppConnection.capabilities connection)
                    = false).
    { apply not_true_is_false. intros Hex. apply existsb_exists in Hex as (c & Hc & Heq).
      apply String.eqb_eq in Heq. by subst c. }
    by rewrite Hnone.
  - intros Hstatus Hping error e' Hthrows. unfold ping, executeAction.
    rewrite Hget, Hstatus, String.eqb_refl. cbn [negb].
    assert (Hsome : existsb (String.eqb "ping") (AppConnection.capabilities connection)
                    = true).
    { apply existsb_exists. exists "ping". split; [done | apply String.eqb_refl]. }
    rewrite Hsome. cbn [negb]. by rewrite Hthrows.
Qed.

(** X22.  Nothing connects without a registered integration.  On a manager
    with no integration and no connection, [connectApp] fails with
    ["Integration type not found"] for every connection and stores nothing,
    and [disconnectApp], [executeAction] and [testConnection] answer
    ["Connection not found"]; the manager is as before, so this goes on. *)
Theorem nothing_connects_without_integration
    (connection : AppConnection.t) (appId action : string) (params : JsRecord)
    (m : t) (e : E) :
  integrations m = JsMap.empty -> connections m = JsMap.empty ->
  let not_found :=
    ActionResult.mk false ("Connection not found: " +:+ appId) ActionResult.NoData
      (Some "Connection not found") in
  connectApp connection m e
    = (ActionResult.mk false
         ("Integration type not found: " +:+ AppConnection.type connection)
         ActionResult.NoData (Some "Integration type not found"), m)
  /\ disconnectApp appId m = (not_found, m)
  /\ executeAction appId action params m e = (not_found, (m, e))
  /\ testConnection appId m e = (not_found, (m, e)).
Proof.
  intros Hintegrations Hconnections not_found.
  unfold connectApp, disconnectApp, executeAction, testConnection.
  by rewrite Hintegrations, Hconnections.
Qed.

(** X23.  Connecting and disconnecting.  With an integration registered for
    its type, [connectApp] stores the connection under its id, marked
    connected and stamped with the time; [disconnectApp] then removes it, and
    when the id was not in use before, the manager is as it was before the
    two calls. *)
Theorem connectApp_then_disconnectApp
    (connection : AppConnection.t) (integration : Integration.t) (m : t) (e : E) :
  JsMap.get (AppConnection.type connection) (integrations m) = Some integration ->
  getConnection (AppConnection.appId connection) m = None ->
  let stored :=
    AppConnection.mk (AppConnection.appId connection)
      (AppConnection.appName connection) (AppConnection.type connection)
      "connected" (AppConnection.capabilities connection)
      (AppConnection.config connection) (Some (Date_now e)) in
  let connected := connectApp connection m e in
  connected.1
    = ActionResult.mk true
        ("Successfully connected to " +:+ AppConnection.appName connection)
        (ActionResult.Connection stored) None
  /\ getConnection (AppConnection.appId connection) connected.2 = Some stored
  /\ (forall other, other <> AppConnection.appId connection ->
        getConnection other connected.2 = getConnection other m)
  /\ disconnectApp (AppConnection.appId connection) connected.2
     = (ActionResult.mk true
          ("Successfully disconnected from " +:+ AppConnection.appName connection)
          ActionResult.NoData None, m).
Proof.
  intros Hintegration Hfresh stored connected. unfold getConnection in *.
  unfold connected, connectApp. rewrite Hintegration. cbn [fst snd AppConnection.appId].
  split; [done |]. fold stored.
  cbn [with_connections connections].
  split; [apply JsMapFacts.get_set_eq |].
  split; [intros other Hother; by apply JsMapFacts.get_set_ne |].
  unfold disconnectApp. cbn [with_connections connections integrations].
  rewrite JsMapFacts.get_set_eq. cbn [AppConnection.appName stored].
  unfold with_connections. cbn [connections integrations].
  rewrite delete_set_fresh by done. by destruct m.
Qed.

End WithHost.
End IntegrationManagerCoverage.

Module IntegrationManagerCoverageRuns.
Import IntegrationManager Fixtures Scenarios.

(** [mail] is connected and has no [ping]: the test succeeds, around a
    failure. *)
Lemma testConnection_reports_success_witness :
  (testConnection "mail" with_mail quiet).1
  = ActionResult.mk true "Connection test successful"
      (ActionResult.Result
         (ActionResult.mk false "Action not supported: ping" ActionResult.NoData
            (Some "Action not supported")))
      None.
Proof.
  destruct (IntegrationManagerCoverage.testConnection_reports_success
              "mail"
              (AppConnection.mk "mail" "Mail" "api" "connected" ["send"; "list"] []
                 (Some 1000%Z))
              with_mail quiet eq_refl)
    as (Hout & _ & _ & Hunsupported & _).
  rewrite Hout. rewrite Hunsupported; [reflexivity | reflexivity |].
  intros [Hin | [Hin | []]]; discriminate.
Defined.

Lemma nothing_connects_without_integration_witness :
  connectApp mail_app new quiet
    = (ActionResult.mk false "Integration type not found: api" ActionResult.NoData
         (Some "Integration type not found"), new)
  /\ disconnectApp "mail" new
     = (ActionResult.mk false "Connection not found: mail" ActionResult.NoData
          (Some "Connection not found"), new)
  /\ executeAction "mail" "send" [] new quiet
     = (ActionResult.mk false "Connection not found: mail" ActionResult.NoData
          (Some "Connection not found"), (new, quiet))
  /\ testConnection "mail" new quiet
     = (ActionResult.mk false "Connection not found: mail" ActionResult.NoData
          (Some "Connection not found"), (new, quiet)).
Proof.
  apply (IntegrationManagerCoverage.nothing_connects_without_integration
           mail_app "mail" "send" [] new quiet); reflexivity.
Defined.

Lemma connectApp_then_disconnectApp_witness :
  let stored :=
    AppConnection.mk "mail" "Mail" "api" "connected" ["send"; "list"] [] (Some 1000%Z) in
  (connectApp mail_app with_rest quiet).1
    = ActionResult.mk true "Successfully connected to Mail"
        (ActionResult.Connection stored) None
  /\ getConnection "mail" with_mail = Some stored
  /\ disconnectApp "mail" with_mail
     = (ActionResult.mk true "Successfully disconnected from Mail" ActionResult.NoData
          None, with_rest).
Proof.
  destruct (IntegrationManagerCoverage.connectApp_then_disconnectApp
              mail_app rest_integration with_rest quiet eq_refl eq_refl)
    as (Hconnected & Hstored & _ & Hdisconnected).
  split; [exact Hconnected |]. split; [exact Hstored | exact Hdisconnected].
Defined.

End IntegrationManagerCoverageRuns.

(** ** The mock provider *)
Module MockProviderCoverage.
Import MockProvider.

Ltac append_step :=
  repeat first
    [ progress change (EmptyString +:+ ?x) with x
    | progress change (String ?c ?p +:+ ?x) with (String c (p +:+ x)) ].

Lemma split_cons (sep : ascii) (s : string) :
  exists part parts, Hex.split sep s = part :: parts.
Proof.
  destruct s as [|c rest]; cbn; [by eexists _, _ |].
  destruct (Ascii.eqb c sep); [by eexists _, _ |].
  destruct (Hex.split sep rest); by eexists _, _.
Qed.

(** Every part followed by the separator, joined: the string followed by
    the separator. *)
Lemma join_split (sep : ascii) (s : string) :
  JsString.join (map (fun part => part +:+ String sep EmptyString) (Hex.split sep s))
  = s +:+ String sep EmptyString.
Proof.
  unfold JsString.join.
  induction s as [|c rest IH]; [done |]. cbn [Hex.split].
  destruct (Ascii.eqb_spec c sep) as [->|Hne].
  - cbn [map fold_right]. append_step. f_equal. exact IH.
  - destruct (split_cons sep rest) as (part & parts & Hsplit).
    rewrite Hsplit in IH |- *. cbn [map fold_right] in IH |- *.
    append_step. f_equal. exact IH.
Qed.

Section WithHost.
Context {E : Type} {strings : JsStrings} {timers : Timers E}.

Lemma stream_from (words : list string) (acc : list AIStreamChunk.t) (e : E) :
  (fold_left stream_turn words (acc, e)).1
  = acc ++ map (fun word => AIStreamChunk.mk (word +:+ " ") false) words.
Proof.
  revert acc e. induction words as [|word words IH]; intros acc e; cbn [fold_left map].
  - by rewrite app_nil_r.
  - unfold stream_turn at 2. cbn [fst snd]. rewrite IH. by rewrite <- app_assoc.
Qed.

(** X24.  The stream of the mock provider, as the registry hands it out when
    the mock is the active provider: one chunk with [done: false] for each
    word of the reply that [chat] gives for the same messages, then a separate
    chunk with empty content and [done: true].  The contents, joined, are the
    reply followed by a space. *)
Theorem mock_stream_ends_with_done_marker
    (m : AIProviderManager.t E) (messages : list AIMessage.t)
    (tools : option (list JsVal)) (e : E) :
  AIProviderManager.currentProvider m = Some client ->
  let stream := (AIProviderManager.streamChat messages tools m e).1 in
  exists reply body,
    (AIProviderManager.chat messages tools m e).1 = Return reply
    /\ Generated.yielded stream = body ++ [AIStreamChunk.mk "" true]
    /\ Generated.completion stream = Return tt
    /\ Forall (fun chunk => AIStreamChunk.done chunk = false) body
    /\ body = map (fun word => AIStreamChunk.mk (word +:+ " ") false)
                (Hex.split " " (AIResponse.content reply))
    /\ JsString.join (map AIStreamChunk.content (Generated.yielded stream))
       = AIResponse.content reply +:+ " ".
Proof.
  intros Hclient stream. unfold stream, AIProviderManager.streamChat, AIProviderManager.chat.
  rewrite Hclient. cbn [client AIProviderClient.streamChat AIProviderClient.chat].
  unfold chat, streamChat. cbn [fst snd Generated.yielded Generated.completion].
  eexists _, _. split; [reflexivity |]. cbn [AIResponse.content].
  rewrite stream_from. cbn [app].
  split; [reflexivity |]. split; [reflexivity |]. split; [| split; [reflexivity |]].
  - apply Forall_forall. intros chunk Hchunk.
    apply list_elem_of_fmap in Hchunk as (word & -> & _). done.
  - rewrite map_app, map_map. cbn [map AIStreamChunk.content].
    unfold JsString.join. rewrite fold_right_app. cbn [fold_right].
    change (fold_right String.append "" ?l) with (JsString.join l).
    rewrite <- (join_split " " (respond messages)). unfold JsString.join.
    generalize (Hex.split " " (respond messages)). intros words.
    induction words as [|word words IH]; [done |]. cbn. by rewrite IH.
Qed.

End WithHost.
End MockProviderCoverage.

Module MockProviderCoverageRuns.
Import Fixtures Scenarios.

(** The greeting, streamed word by word, and closed by the done marker. *)
Lemma mock_stream_ends_with_done_marker_witness :
  (AIProviderManager.chat hello None with_mock quiet).1
    = Return (AIResponse.mk "Hello! How can I help you today?" None
                (Some (AIResponse.mkUsage 5 32 37)))
  /\ Generated.yielded (AIProviderManager.streamChat hello None with_mock quiet).1
     = [AIStreamChunk.mk "Hello! " false; AIStreamChunk.mk "How " false;
        AIStreamChunk.mk "can " false; AIStreamChunk.mk "I " false;
        AIStreamChunk.mk "help " false; AIStreamChunk.mk "you " false;
        AIStreamChunk.mk "today? " false; AIStreamChunk.mk "" true].
Proof.
  destruct (MockProviderCoverage.mock_stream_ends_with_done_marker
              with_mock hello None quiet eq_refl)
    as (reply & body & Hchat & Hyielded & _ & _ & Hbody & _).
  split; [reflexivity |].
  rewrite Hyielded, Hbody.
  vm_compute in Hchat. injection Hchat as <-. reflexivity.
Defined.

End MockProviderCoverageRuns.
